(** * A shallow embedding of the course-assistant conversation pipeline

    The Python sources embedded here are

    - [utils/database.py]            (session and message tables),
    - [utils/llm_utils.py]           (text generation, intent classification),
    - [modules/chat_management.py]   (session lifecycle, message log, auto-rename),
    - [modules/web_search.py]        (search with retries, summarisation),
    - [modules/rag.py]               (per-session retrieval, grounded answer),
    - [modules/file_processing.py]   (ingestion into the session collection),
    - [modules/daily_chat.py], [modules/professional_qa.py],
    - [modules/intent_recognition.py], [modules/intent_router.py],
    - [modules/next_questions.py], [modules/ui_handlers.py] (message handler).

    Python functions become computations of a state-and-exception monad over
    a [World] (the SQLite tables, the Chroma collections, a trace of outward
    effects).  Everything the program obtains from outside (the clock,
    [uuid.uuid4], the database engine's verdict on a statement, the language
    model, the search provider, the document loaders, the vector index) is
    read from an environment [Env] at the current tick of the world, so that
    two calls of the same collaborator are free to answer differently. *)

From Stdlib Require Import String Ascii List ZArith QArith Lia Bool Sorted.
From stdpp Require Import gmap strings list pretty.

Open Scope string_scope.

(** ** Exceptions and results *)

(** The exception classes the sources distinguish in their [except] clauses;
    [Exception] stands for any other subclass of Python's [Exception]. *)
Inductive exn : Type :=
| APIError                      (* openai.APIError *)
| Timeout                       (* requests.exceptions.Timeout *)
| HTTPError (status : nat)      (* requests.exceptions.HTTPError *)
| SqliteError                   (* sqlite3.Error *)
| Exception (what : string).

Inductive result (A : Type) : Type :=
| Ok (a : A)
| Raise (e : exn).
Arguments Ok {A} a.
Arguments Raise {A} e.

Definition is_ok {A} (r : result A) : bool :=
  match r with Ok _ => true | Raise _ => false end.

(** ** Rows, chunks and the world *)

(** A row of table [messages] (the autoincremented id is the position in
    the list).  Timestamps are [datetime.now().isoformat()] strings in the
    source; they are compared only by [ORDER BY], and on ISO strings that
    order is the order of the instants, so a timestamp is kept as the
    number of microseconds it denotes. *)
Record MsgRow : Type := mkMsg {
  m_sid : string;
  m_role : string;
  m_content : string;
  m_ts : nat
}.

Record SessionRow : Type := mkSession {
  s_sid : string;
  s_phone : string;
  s_title : string;
  s_created : nat
}.

(** An entry of a Chroma collection, as [FileProcessor.process_file]
    builds it: id, document text and the metadata dictionary. *)
Record Chunk : Type := mkChunk {
  chunk_id : string;
  document : string;
  source : string;
  chunk_index : nat;
  file_path_of : string;
  file_type_of : string;
  timestamp : nat;
  session_id : string
}.

(** Outward effects that leave no mark in a table or a collection. *)
Inductive Event : Type :=
| EvHttpGet (query : string) (attempt : nat)   (* requests.get was called *)
| EvSleep (seconds : Q)                        (* time.sleep was called *)
| EvRename (sid : string).                     (* auto_rename_session was entered *)

Record World : Type := mkWorld {
  tick : nat;
  messages : list MsgRow;
  sessions : list SessionRow;
  vstore : gmap string (list Chunk);
  trace : list Event
}.

Definition with_tick (n : nat) (w : World) : World :=
  mkWorld n (messages w) (sessions w) (vstore w) (trace w).
Definition with_messages (ms : list MsgRow) (w : World) : World :=
  mkWorld (tick w) ms (sessions w) (vstore w) (trace w).
Definition with_sessions (ss : list SessionRow) (w : World) : World :=
  mkWorld (tick w) (messages w) ss (vstore w) (trace w).
Definition with_vstore (vs : gmap string (list Chunk)) (w : World) : World :=
  mkWorld (tick w) (messages w) (sessions w) vs (trace w).
Definition with_trace (tr : list Event) (w : World) : World :=
  mkWorld (tick w) (messages w) (sessions w) (vstore w) tr.

Definition empty_world : World := mkWorld 0 [] [] ∅ [].

(** What one HTTP round trip to the search provider comes to: an exception
    of [requests.get], [raise_for_status] or [response.json()], or the
    decoded body, of which the code reads the key [organic_results] (absent,
    or a list of results each with an optional [snippet]). *)
Inductive http_outcome : Type :=
| HttpRaises (e : exn)
| HttpJson (organic_results : option (list (option string))).

(** ** The environment *)

Record Env : Type := mkEnv {
  (** [str(uuid.uuid4())] *)
  uuid4 : nat -> string;
  (** [datetime.datetime.now()], in microseconds *)
  now : nat -> nat;
  (** [str(uuid.UUID(s))], or [None] where [uuid.UUID(s)] raises [ValueError] *)
  uuid_canonical : string -> option string;
  (** whether SQLite carries out the statement issued at this tick *)
  sql_ok : nat -> bool;
  (** for a statement that is not carried out: whether [sqlite3.connect]
      had succeeded and the statement raised [sqlite3.Error], or it was
      [sqlite3.connect] that raised *)
  sql_connected : nat -> bool;
  (** [client.chat.completions.create(...)] followed by
      [response.choices[0].message.content] *)
  completion : nat -> string -> nat -> Q -> result string;
  (** [os.getenv("SERPAPI_API_KEY")] *)
  SERPAPI_API_KEY : option string;
  (** [config.INTENT_PROMPT.format(user_input=...)]; the template is a
      seventy-line constant of config.py whose wording no property reads *)
  INTENT_PROMPT_format : string -> string;
  (** one round trip of [requests.get] to the provider *)
  requests_get : nat -> string -> nat -> http_outcome;
  (** [random.uniform(0, 2)] *)
  random_uniform : nat -> Q;
  (** [FileProcessor.load_document]: the page contents, or [None] on a
      timeout, a missing file, an unknown type or any loader failure *)
  load_document : nat -> string -> string -> option (list string);
  (** [text_splitter.split_documents] *)
  split_documents : nat -> list string -> result (list string);
  (** [str(file_path.resolve())] *)
  resolve_path : string -> string;
  (** whether the Chroma client carries out the call issued at this tick *)
  chroma_ok : nat -> bool;
  (** [collection.query(query_texts=[q], n_results=k)["documents"][0]] *)
  nearest : nat -> string -> nat -> list Chunk -> result (list Chunk);
  (** [f"{progress:.0f}"] of [(batch_end / total_chunks) * 100] *)
  format_progress : nat -> nat -> string
}.

(** ** The monad *)

Definition M (A : Type) : Type := World -> result A * World.

Definition ret {A} (a : A) : M A := fun w => (Ok a, w).

Definition raise {A} (e : exn) : M A := fun w => (Raise e, w).

Definition bind {A B} (m : M A) (k : A -> M B) : M B :=
  fun w =>
    match m w with
    | (Ok a, w') => k a w'
    | (Raise e, w') => (Raise e, w')
    end.

(** [try: m  except Exception as e: h e] *)
Definition try_except {A} (m : M A) (h : exn -> M A) : M A :=
  fun w =>
    match m w with
    | (Ok a, w') => (Ok a, w')
    | (Raise e, w') => h e w'
    end.

Notation "'let*' x ':=' m 'in' k" := (bind m (fun x => k))
  (at level 10, x name, m at level 100, k at level 200).
Notation "m ';;' k" := (bind m (fun _ => k))
  (at level 100, k at level 200, right associativity, only parsing).

Definition get_world : M World := fun w => (Ok w, w).
Definition modify (f : World -> World) : M unit := fun w => (Ok tt, f w).

(** Every consultation of the environment takes the current tick and
    advances it. *)
Definition next_tick : M nat :=
  fun w => (Ok (tick w), with_tick (S (tick w)) w).

Definition emit (ev : Event) : M unit :=
  modify (fun w => with_trace (trace w ++ [ev]) w).

Definition lift_result {A} (r : result A) : M A :=
  match r with Ok a => ret a | Raise e => raise e end.

(** A computation returns without raising. *)
Definition returns {A} (m : M A) (w : World) : Prop :=
  exists a w', m w = (Ok a, w').

(** ** Python's string methods *)

Module Py.

Definition nl : string := String (ascii_of_nat 10) EmptyString.

(** The indentation that the lines of a triple-quoted f-string carry. *)
Definition spaces (n : nat) : string :=
  string_of_list_ascii (repeat " "%char n).
Definition dquote : ascii := ascii_of_nat 34.
Definition squote : ascii := ascii_of_nat 39.

(** A Python [str] is kept as the UTF-8 encoding of its code points. *)

(** A byte that continues a UTF-8 sequence (10xxxxxx). *)
Definition is_continuation (c : ascii) : bool :=
  let n := nat_of_ascii c in ((128 <=? n) && (n <? 192))%nat.

(** [list(s)]: the characters of [s], each of them the UTF-8 sequence of
    one code point: a byte that is no continuation byte, with the
    continuation bytes that follow it. *)
Fixpoint chars (s : string) : list string :=
  match s with
  | EmptyString => []
  | String c s' =>
      match chars s' with
      | String d x :: rest =>
          if is_continuation d then String c (String d x) :: rest
          else String c EmptyString :: String d x :: rest
      | rest => String c EmptyString :: rest
      end
  end.

Definition utf8 (bytes : list nat) : string :=
  string_of_list_ascii (map ascii_of_nat bytes).

(** The characters [str.strip] removes, which are those of [str.isspace]
    (CPython's [_PyUnicode_IsWhitespace]): U+0009 to U+000D, U+001C to
    U+0020, U+0085, U+00A0, U+1680, U+2000 to U+200A, U+2028, U+2029,
    U+202F, U+205F and U+3000. *)
Definition whitespace : list string :=
  map utf8
      [[9]; [10]; [11]; [12]; [13]; [28]; [29]; [30]; [31]; [32];
       [194; 133]; [194; 160]; [225; 154; 128];
       [226; 128; 128]; [226; 128; 129]; [226; 128; 130]; [226; 128; 131];
       [226; 128; 132]; [226; 128; 133]; [226; 128; 134]; [226; 128; 135];
       [226; 128; 136]; [226; 128; 137]; [226; 128; 138];
       [226; 128; 168]; [226; 128; 169]; [226; 128; 175];
       [226; 129; 159]; [227; 128; 128]].

(** [ch.isspace()] for a character *)
Definition is_space (ch : string) : bool :=
  existsb (String.eqb ch) whitespace.

Fixpoint drop_spaces (cs : list string) : list string :=
  match cs with
  | [] => []
  | ch :: cs' => if is_space ch then drop_spaces cs' else cs
  end.

(** [''.join(l)] *)
Fixpoint concat (l : list string) : string :=
  match l with
  | [] => EmptyString
  | x :: rest => x ++ concat rest
  end.

(** [s.strip()] *)
Definition strip_chars (cs : list string) : list string :=
  rev (drop_spaces (rev (drop_spaces cs))).

Definition strip (s : string) : string := concat (strip_chars (chars s)).

(** [str.upper] on the ASCII range; other bytes are kept.  Its one caller
    compares the result with the one-letter codes A to K: a string that
    Python's [upper] maps to such a code consists of that letter, in
    either case (the code points outside ASCII whose upper case is a
    single ASCII letter are U+0131 and U+017F, which give I and S). *)
Definition upper_ascii (c : ascii) : ascii :=
  let n := nat_of_ascii c in
  if ((97 <=? n) && (n <=? 122))%nat then ascii_of_nat (n - 32) else c.

Fixpoint upper (s : string) : string :=
  match s with
  | EmptyString => EmptyString
  | String c s' => String (upper_ascii c) (upper s')
  end.

(** [s.replace(c, '')] for a one-character [c]. *)
Fixpoint remove_char (c : ascii) (s : string) : string :=
  match s with
  | EmptyString => EmptyString
  | String d s' =>
      if Ascii.eqb c d then remove_char c s' else String d (remove_char c s')
  end.

(** [len(s)]: the number of code points. *)
Fixpoint len (s : string) : nat :=
  match s with
  | EmptyString => 0
  | String c s' => if is_continuation c then len s' else S (len s')
  end.

(** [s[:n]]: the first [n] code points. *)
Fixpoint take (n : nat) (s : string) : string :=
  match s with
  | EmptyString => EmptyString
  | String c s' =>
      if is_continuation c then String c (take n s')
      else match n with
           | O => EmptyString
           | S n' => String c (take n' s')
           end
  end.

(** [pat in s] *)
Definition contains (pat s : string) : bool :=
  match String.index 0 pat s with Some _ => true | None => false end.

(** [sep.join(l)] *)
Fixpoint join (sep : string) (l : list string) : string :=
  match l with
  | [] => EmptyString
  | [x] => x
  | x :: rest => x ++ sep ++ join sep rest
  end.

(** [s.split(c)] for a one-character separator *)
Fixpoint split_char (c : ascii) (s : string) : list string :=
  match s with
  | EmptyString => [EmptyString]
  | String d s' =>
      if Ascii.eqb c d then EmptyString :: split_char c s'
      else match split_char c s' with
           | [] => [String d EmptyString]
           | x :: rest => String d x :: rest
           end
  end.

(** [l[-n:]] for [n > 0] *)
Definition last_n {A} (n : nat) (l : list A) : list A :=
  skipn (length l - n) l.

(** [not s] for an optional string: [None] and [''] are falsy. *)
Definition falsy (o : option string) : bool :=
  match o with
  | None => true
  | Some s => String.eqb s EmptyString
  end.

End Py.

(** ** config.py *)

Module Config.

Definition VALID_INTENTS : list string :=
  ["A"; "B"; "C"; "D"; "E"; "F"; "G"; "H"; "J"; "K"].

(** [config.i18n.get(key)] for the default language. *)
Definition new_session_created : string := "👋 同学您好！很高兴为你服务！".
Definition error_occurred : string :=
  "❌ 抱歉，处理您的消息时出现错误。请稍后再试。".

Definition MAX_CHAT_HISTORY : nat := 20.

End Config.

(** [x in l] for a list of strings *)
Definition str_in (x : string) (l : list string) : bool :=
  existsb (String.eqb x) l.

(** ** [ORDER BY]: a stable insertion sort *)

Fixpoint insert_sorted {A} (le : A -> A -> bool) (x : A) (l : list A) : list A :=
  match l with
  | [] => [x]
  | y :: l' => if le y x then y :: insert_sorted le x l' else x :: l
  end.

Definition order_by {A} (le : A -> A -> bool) (rows : list A) : list A :=
  fold_left (fun acc r => insert_sorted le r acc) rows [].

Definition apply_limit {A} (limit : option nat) (rows : list A) : list A :=
  match limit with
  | Some n => firstn n rows
  | None => rows
  end.

(** [SELECT ... FROM messages WHERE sid = ? ORDER BY ts [LIMIT ?]]; rows of
    equal timestamp come in the order of their insertion. *)
Definition select_messages (sid : string) (limit : option nat)
    (rows : list MsgRow) : list MsgRow :=
  apply_limit limit
    (order_by (fun a b => (m_ts a <=? m_ts b)%nat)
       (List.filter (fun r => String.eqb (m_sid r) sid) rows)).

(** [SELECT ... FROM sessions WHERE phone = ? ORDER BY created DESC] *)
Definition select_sessions (phone : string) (rows : list SessionRow)
    : list SessionRow :=
  order_by (fun a b => (s_created b <=? s_created a)%nat)
    (List.filter (fun r => String.eqb (s_phone r) phone) rows).

Section Model.

Context (E : Env).

(** ** utils/database.py *)

(** The methods of [DatabaseManager] have one shape:
    [try: conn = self.get_connection(); ...] with the handler
    [except sqlite3.Error: ...; return fallback] (after [conn.rollback()]
    in the methods that write) and [finally: conn.close()].  When the
    statement raises, the method returns its fallback value.  When it is
    [get_connection] that raises, [conn] is unbound where the handler or
    the [finally] clause uses it, and what leaves the method is the
    [UnboundLocalError]. *)
Definition unbound_conn : exn := Exception "UnboundLocalError".

Definition sql_failed {A} (t : nat) (fallback : A) : M A :=
  if sql_connected E t then ret fallback else raise unbound_conn.

(** [sid] is the primary key of table [sessions]: a second row with the
    same key is an [sqlite3.IntegrityError], raised by the statement. *)
Definition db_create_session (sid phone title : string) (created : nat)
    : M bool :=
  let* t := next_tick in
  let* w := get_world in
  if sql_ok E t
  then
    if existsb (fun s => String.eqb (s_sid s) sid) (sessions w)
    then ret false
    else
      modify (fun w => with_sessions
                (sessions w ++ [mkSession sid phone title created]) w) ;;
      ret true
  else sql_failed t false.

Definition db_get_sessions (phone : string) : M (list SessionRow) :=
  let* t := next_tick in
  let* w := get_world in
  if sql_ok E t then ret (select_sessions phone (sessions w))
  else sql_failed t [].

Definition db_add_message (sid role content : string) (ts : nat) : M bool :=
  let* t := next_tick in
  if sql_ok E t
  then
    modify (fun w => with_messages
              (messages w ++ [mkMsg sid role content ts]) w) ;;
    ret true
  else sql_failed t false.

Definition db_get_messages (sid : string) (limit : option nat)
    : M (list MsgRow) :=
  let* t := next_tick in
  let* w := get_world in
  if sql_ok E t then ret (select_messages sid limit (messages w))
  else sql_failed t [].

(** [UPDATE sessions SET title = ? WHERE sid = ?] on a connection of the
    caller's own: an [sqlite3.Error], of [get_connection] or of the
    statement, is not caught here. *)
Definition sql_update_title (new_title sid : string) : M unit :=
  let* t := next_tick in
  if sql_ok E t
  then
    modify (fun w => with_sessions
              (map (fun s => if String.eqb (s_sid s) sid
                             then mkSession (s_sid s) (s_phone s) new_title (s_created s)
                             else s)
                   (sessions w)) w)
  else raise SqliteError.

(** ** utils/llm_utils.py *)

Definition chat_completions_create (prompt : string) (max_tokens : nat)
    (temperature : Q) : M string :=
  let* t := next_tick in
  lift_result (completion E t prompt max_tokens temperature).

Definition llm_api_error : string := "抱歉，我暂时无法回答这个问题。😅".
Definition llm_other_error : string := "处理您的请求时发生了错误。😅".

Definition generate_text (prompt : string) (max_tokens : nat)
    (temperature : Q) : M string :=
  try_except
    (let* content := chat_completions_create prompt max_tokens temperature in
     ret (Py.strip content))
    (fun e =>
       match e with
       | APIError => ret llm_api_error
       | _ => ret llm_other_error
       end).

(** [generate_text(prompt)] with the default arguments *)
Definition generate_text_default (prompt : string) : M string :=
  generate_text prompt 1024 (7 # 10).

Definition classify_intent (user_input : string) : M string :=
  let prompt := INTENT_PROMPT_format E user_input in
  let* intent := generate_text prompt 2 (1 # 10) in
  let intent := Py.upper (Py.strip intent) in
  let valid_intents := ["A"; "B"; "C"; "D"; "E"; "F"; "G"; "H"; "J"; "K"] in
  if str_in intent valid_intents then ret intent else ret "D".

(** The prompt of [predict_next_questions] *)
Definition predict_prompt (current_input history_context : string)
    (max_questions : nat) : string :=
  Py.nl ++ Py.spaces 8
  ++ "🔮 根据当前对话内容和历史记录，推测用户接下来可能提出的问题（最多"
  ++ pretty max_questions ++ "个）：" ++ Py.nl ++ Py.spaces 8 ++ Py.nl
  ++ Py.spaces 8 ++ "💬 当前对话：" ++ Py.nl ++ Py.spaces 8 ++ current_input
  ++ Py.nl ++ Py.spaces 8 ++ Py.nl ++ Py.spaces 8 ++ "📜 历史对话（最近"
  ++ pretty Config.MAX_CHAT_HISTORY ++ "条）：" ++ Py.nl ++ Py.spaces 8
  ++ history_context ++ Py.nl ++ Py.spaces 8 ++ Py.nl ++ Py.spaces 8
  ++ "❓ 请列出可能的问题，每个问题单独一行：" ++ Py.nl ++ Py.spaces 8.

(** [[f"{role}: {content}" for role, content in history[-MAX:]]] joined by
    newlines goes into the prompt. *)
Definition predict_next_questions (current_input : string)
    (history : list (string * string)) (max_questions : nat)
    : M (list string) :=
  let history_context :=
    Py.join Py.nl
      (map (fun rc => fst rc ++ ": " ++ snd rc)
           (Py.last_n Config.MAX_CHAT_HISTORY history)) in
  let prompt := predict_prompt current_input history_context max_questions in
  let* response := generate_text prompt 200 (5 # 10) in
  let questions :=
    List.filter (fun q => negb (String.eqb q EmptyString))
           (map Py.strip (Py.split_char (ascii_of_nat 10) response)) in
  ret (firstn max_questions questions).

(** ** modules/chat_management.py *)

Definition get_messages (sid : string) (limit : option nat)
    : M (list MsgRow) :=
  try_except (db_get_messages sid limit) (fun _ => ret []).

Definition count_sessions (phone : string) : M nat :=
  let* sessions := db_get_sessions phone in
  ret (length sessions).

Definition rename_prompt (first_user_msg first_assistant_msg : string)
    : string :=
  Py.nl ++ Py.spaces 12
  ++ "请根据以下对话内容，为这个聊天会话生成一个简洁有意义的名称（2-8个字）："
  ++ Py.nl ++ Py.spaces 12 ++ Py.nl ++ Py.spaces 12 ++ "用户问题："
  ++ first_user_msg ++ Py.nl ++ Py.spaces 12 ++ "助手回复："
  ++ first_assistant_msg ++ Py.nl ++ Py.spaces 12 ++ Py.nl
  ++ Py.spaces 12 ++ "要求：" ++ Py.nl ++ Py.spaces 12 ++ "1. 名称要准确反映对话主题"
  ++ Py.nl ++ Py.spaces 12 ++ "2. 简洁明了，易于理解" ++ Py.nl ++ Py.spaces 12
  ++ "3. 使用中文" ++ Py.nl ++ Py.spaces 12 ++ "4. 不要包含特殊字符" ++ Py.nl
  ++ Py.spaces 12 ++ Py.nl ++ Py.spaces 12 ++ "只返回生成的名称，不要其他解释："
  ++ Py.nl ++ Py.spaces 12.

(** The entry into the function is recorded in the trace. *)
Definition auto_rename_session (sid : string) : M bool :=
  emit (EvRename sid) ;;
  try_except
    (let* messages := get_messages sid (Some 10) in
     if (length messages <? 2)%nat then ret false
     else
       let user_messages :=
         map m_content
             (List.filter (fun m => String.eqb (m_role m) "user") messages) in
       let assistant_messages :=
         map m_content
             (List.filter (fun m => String.eqb (m_role m) "assistant") messages) in
       match user_messages with
       | [] => ret false
       | u :: _ =>
           let first_user_msg := Py.take 200 u in
           let first_assistant_msg :=
             match assistant_messages with
             | a :: _ => Py.take 200 a
             | [] => EmptyString
             end in
           let* generated :=
             generate_text (rename_prompt first_user_msg first_assistant_msg)
                           20 (3 # 10) in
           let new_title := Py.strip generated in
           let new_title :=
             Py.strip (Py.remove_char Py.squote
                         (Py.remove_char Py.dquote new_title)) in
           if (Py.len new_title <? 2)%nat then ret false
           else sql_update_title new_title sid ;; ret true
       end)
    (fun _ => ret false).

Definition add_message (sid role content : string) : M bool :=
  try_except
    (let* ts_tick := next_tick in
     let* success := db_add_message sid role content (now E ts_tick) in
     (if success
      then
        if String.eqb role "assistant"
        then
          let* messages := get_messages sid None in
          if (length messages =? 2)%nat
          then (let* _ := auto_rename_session sid in ret tt)
          else ret tt
        else ret tt
      else ret tt) ;;
     ret success)
    (fun _ => ret false).

Definition create_session (phone : string) (title : option string)
    : M string :=
  let* id_tick := next_tick in
  let sid := uuid4 E id_tick in
  let* title :=
    match title with
    | Some t =>
        if String.eqb t EmptyString
        then (let* session_count := count_sessions phone in
              ret ("会话" ++ pretty (session_count + 1)))
        else ret t
    | None =>
        let* session_count := count_sessions phone in
        ret ("会话" ++ pretty (session_count + 1))
    end in
  let* created_tick := next_tick in
  let* ok := db_create_session sid phone title (now E created_tick) in
  if ok
  then
    let welcome_msg := Config.new_session_created in
    (let* _ := add_message sid "assistant" welcome_msg in ret sid)
  else ret EmptyString.

(** ** modules/web_search.py *)

Definition search_unavailable : string := "网络搜索功能不可用，请配置API密钥".
Definition search_no_results : string := "没有搜索到相关信息".
Definition search_failed : string := "多次尝试后，网络搜索仍然失败，请稍后再试".

(** [WebSearch()]: [self.api_key = api_key or config.SERPAPI_API_KEY] with
    no [api_key] argument. *)
Definition api_key : option string := SERPAPI_API_KEY E.

(** [requests.get(...)], [raise_for_status()] and [response.json()] *)
Definition http_get (query : string) (num_results attempt : nat)
    : M (option (list (option string))) :=
  emit (EvHttpGet query attempt) ;;
  let* t := next_tick in
  match requests_get E t query num_results with
  | HttpRaises e => raise e
  | HttpJson body => ret body
  end.

(** [time.sleep(retry_delay + random.uniform(0, 2))] *)
Definition backoff (retry_delay : nat) : M unit :=
  let* t := next_tick in
  emit (EvSleep (inject_Z (Z.of_nat retry_delay) + random_uniform E t)%Q).

(** The body of [for attempt in range(1, max_retries + 2)], with
    [remaining] iterations left; [Some] is a [return] from inside it. *)
Fixpoint search_loop (query : string) (num_results retry_delay : nat)
    (attempt remaining : nat) : M string :=
  match remaining with
  | O => ret search_failed
  | S remaining' =>
      let* returned :=
        try_except
          (let* organic_results := http_get query num_results attempt in
           match organic_results with
           | Some results =>
               let snippets :=
                 map (fun r => match r with Some s => s | None => EmptyString end)
                     (firstn num_results results) in
               ret (Some (Py.join (Py.nl ++ Py.nl) snippets))
           | None => ret (Some search_no_results)
           end)
          (fun e =>
             match e with
             | Timeout => backoff retry_delay ;; ret None
             | HTTPError _ => backoff retry_delay ;; ret None
             | _ => backoff retry_delay ;; ret None
             end) in
      match returned with
      | Some text => ret text
      | None => search_loop query num_results retry_delay (S attempt) remaining'
      end
  end.

Definition search (query : string) (num_results max_retries retry_delay : nat)
    : M string :=
  if Py.falsy api_key then ret search_unavailable
  else search_loop query num_results retry_delay 1 (max_retries + 1).

Definition summarize_prompt (query search_results : string) : string :=
  Py.nl ++ Py.spaces 8 ++ "根据以下网络搜索结果，回答用户的问题：" ++ Py.nl
  ++ Py.spaces 8 ++ Py.nl ++ Py.spaces 8 ++ "问题：" ++ query ++ Py.nl
  ++ Py.spaces 8 ++ Py.nl ++ Py.spaces 8 ++ "具体的搜索结果：" ++ Py.nl
  ++ Py.spaces 8 ++ search_results ++ Py.nl ++ Py.spaces 8 ++ Py.nl
  ++ Py.spaces 8 ++ "😊 请提取关键信息，提供简洁、准确的回答：" ++ Py.nl
  ++ Py.spaces 8.

Definition summarize_search_results (query : string) : M string :=
  let* search_results := search query 5 3 5 in
  generate_text_default (summarize_prompt query search_results).

(** ** The Chroma client *)

Definition chroma_error : exn := Exception "chromadb".

(** [client.get_collection(name)] raises when there is no such collection. *)
Definition get_collection (name : string) : M unit :=
  let* t := next_tick in
  let* w := get_world in
  if chroma_ok E t
  then match vstore w !! name with
       | Some _ => ret tt
       | None => raise chroma_error
       end
  else raise chroma_error.

Definition get_or_create_collection (name : string) : M unit :=
  let* t := next_tick in
  if chroma_ok E t
  then modify (fun w =>
                 match vstore w !! name with
                 | Some _ => w
                 | None => with_vstore (<[name := []]> (vstore w)) w
                 end)
  else raise chroma_error.

(** [collection.add(ids=..., documents=..., metadatas=...)] *)
Definition collection_add (name : string) (entries : list Chunk) : M unit :=
  let* t := next_tick in
  if chroma_ok E t
  then modify (fun w =>
                 with_vstore
                   (<[name := (default [] (vstore w !! name) ++ entries)%list]> (vstore w))
                   w)
  else raise chroma_error.

(** [collection.query(...)]: the documents of the nearest entries *)
Definition collection_query (name query : string) (top_k : nat)
    : M (list string) :=
  let* t := next_tick in
  let* w := get_world in
  match vstore w !! name with
  | None => raise chroma_error
  | Some entries =>
      let* hits := lift_result (nearest E t query top_k entries) in
      ret (map document hits)
  end.

(** ** modules/rag.py *)

Definition retrieve (query sid : string) (top_k : nat) : M (list string) :=
  try_except
    (match uuid_canonical E sid with
     | None => ret []
     | Some _ =>
         let sid_str := sid in
         let collection_name := "session_" ++ sid_str in
         let* found :=
           try_except
             (get_collection collection_name ;; ret true)
             (fun _ =>
                get_or_create_collection collection_name ;; ret false) in
         if found : bool
         then collection_query collection_name query top_k
         else ret []
     end)
    (fun _ => ret []).

Definition rag_apology : string := "抱歉，我暂时无法回答这个问题。😅".

Definition rag_prompt (query context_str : string) : string :=
  Py.nl ++ Py.spaces 12
  ++ "🤖 你是一个智能课程助手，请根据提供的课程资料回答问题。" ++ Py.nl
  ++ Py.spaces 12 ++ "如果上下文信息不足以回答问题，请如实告知。" ++ Py.nl
  ++ Py.spaces 12 ++ Py.nl ++ Py.spaces 12 ++ "❓ 问题：" ++ Py.nl
  ++ Py.spaces 12 ++ query ++ Py.nl ++ Py.spaces 12 ++ Py.nl
  ++ Py.spaces 12 ++ "📚 相关资料：" ++ Py.nl ++ Py.spaces 12 ++ context_str
  ++ Py.nl ++ Py.spaces 12 ++ Py.nl ++ Py.spaces 12
  ++ "💡 请根据以上信息提供准确、简洁的回答：" ++ Py.nl ++ Py.spaces 12.

Definition generate_answer (query : string) (context : list string)
    : M string :=
  try_except
    (let context_str :=
       match context with
       | [] => "📭 无相关上下文信息"
       | _ => Py.join (Py.nl ++ Py.nl) context
       end in
     generate_text_default (rag_prompt query context_str))
    (fun _ => ret rag_apology).

Definition rag_query (question sid : string) : M string :=
  let* context_docs := retrieve question sid 5 in
  generate_answer question context_docs.

(** ** modules/file_processing.py *)

(** [n] consecutive consultations of the environment *)
Fixpoint next_ticks (n : nat) : M (list nat) :=
  match n with
  | O => ret []
  | S n' =>
      let* t := next_tick in
      let* ts := next_ticks n' in
      ret (t :: ts)
  end.

(** Steps 4 of [process_file]: ids, texts and metadata of the chunks.  The
    three comprehensions run one after the other, so all ids are drawn
    before the first timestamp is read. *)
Definition prepare_entries (sid_str file_path file_name file_type : string)
    (chunks : list string) : M (list Chunk) :=
  let* id_ticks := next_ticks (length chunks) in
  let* ts_ticks := next_ticks (length chunks) in
  ret (map (fun x =>
              match x with
              | (i, text, id_tick, ts_tick) =>
                  mkChunk (uuid4 E id_tick) text file_name i
                          (resolve_path E file_path) file_type
                          (now E ts_tick) sid_str
              end)
           (zip (zip (zip (seq 0 (length chunks)) chunks) id_ticks) ts_ticks)).

Definition batch_size : nat := 50.

(** [for i in range(0, total_chunks, batch_size)] with [batches] iterations
    left, the next one starting at index [i]. *)
Fixpoint store_batches (sid_str collection_name : string)
    (entries : list Chunk) (total_chunks i batches : nat) : M unit :=
  match batches with
  | O => ret tt
  | S batches' =>
      let batch_end := Nat.min (i + batch_size) total_chunks in
      collection_add collection_name
        (firstn (batch_end - i) (skipn i entries)) ;;
      (if (100 <? total_chunks)%nat
       then
         let progress_msg :=
           "📊 处理中... " ++ format_progress E batch_end total_chunks ++ "%" in
         (let* _ := add_message sid_str "system" progress_msg in ret tt)
       else ret tt) ;;
      store_batches sid_str collection_name entries total_chunks
                    (i + batch_size) batches'
  end.

(** The number of elements of [range(0, total, batch_size)] *)
Definition batch_count (total : nat) : nat :=
  (total + (batch_size - 1)) / batch_size.

Definition process_file (sid file_path file_name file_type : string)
    : M bool :=
  match uuid_canonical E sid with
  | None => ret false
  | Some sid_str =>
      try_except
        (let progress_msg := "📄 正在处理文档: " ++ file_name ++ "..." in
         add_message sid_str "system" progress_msg ;;
         let* load_tick := next_tick in
         match load_document E load_tick file_path file_type with
         | None =>
             add_message sid_str "system" ("❌ 无法加载文档: " ++ file_name) ;;
             ret false
         | Some documents =>
             let* split :=
               try_except
                 (let* split_tick := next_tick in
                  let* chunks :=
                    lift_result (split_documents E split_tick documents) in
                  match chunks with
                  | [] =>
                      add_message sid_str "system"
                                  ("⚠️ 文档分块为空: " ++ file_name) ;;
                      ret None
                  | _ => ret (Some chunks)
                  end)
                 (fun _ =>
                    add_message sid_str "system"
                                ("❌ 文档分块失败: " ++ file_name) ;;
                    ret None) in
             match split with
             | None => ret false
             | Some chunks =>
                 let collection_name := "session_" ++ sid_str in
                 let* ready :=
                   try_except
                     (get_or_create_collection collection_name ;; ret true)
                     (fun _ =>
                        add_message sid_str "system" "❌ 向量数据库连接失败" ;;
                        ret false) in
                 if ready : bool
                 then
                   let* entries :=
                     prepare_entries sid_str file_path file_name file_type
                                     chunks in
                   let total_chunks := length chunks in
                   try_except
                     (store_batches sid_str collection_name entries
                                    total_chunks 0 (batch_count total_chunks) ;;
                      let success_msg :=
                        "✅ 文档处理完成: " ++ file_name ++ " ("
                        ++ pretty (length chunks) ++ " 个片段)" in
                      add_message sid_str "assistant" success_msg ;;
                      ret true)
                     (fun _ =>
                        add_message sid_str "system"
                                    ("❌ 向量存储失败: " ++ file_name) ;;
                        ret false)
                 else ret false
             end
         end)
        (fun _ =>
           add_message sid_str "system" ("💥 处理出错: " ++ file_name) ;;
           ret false)
  end.

(** ** modules/daily_chat.py *)

Definition realtime_keywords : list string :=
  ["今天"; "昨天"; "明天"; "刚刚"; "最新"; "实时"; "现在"; "刚刚"; "目前";
   "今天早上"; "今天下午"; "今天晚上"; "昨天早上"; "昨天下午"].

Definition _is_realtime_question (text : string) : bool :=
  existsb (fun keyword => Py.contains keyword text) realtime_keywords.

(** A history item is a tuple of strings of any length. *)
Definition _build_context (history : list (list string)) : string :=
  match history with
  | [] => "无对话历史"
  | _ =>
      let recent_history := Py.last_n 5 history in
      let context_lines :=
        flat_map (fun item =>
                    match item with
                    | role :: content :: _ => [role ++ ": " ++ content]
                    | _ => []
                    end)
                 recent_history in
      Py.join Py.nl context_lines
  end.

Definition daily_fallback : string := "嗯，我在听，你接着说...".

(** The prompt of the branch that is not about realtime information *)
Definition daily_prompt (context user_input : string) : string :=
  Py.nl ++ Py.spaces 12
  ++ "😊 你是一个友好的助手，请根据对话历史进行自然流畅的日常交流：" ++ Py.nl
  ++ Py.nl ++ Py.spaces 12 ++ "对话历史：" ++ Py.nl ++ Py.spaces 12 ++ context
  ++ Py.nl ++ Py.nl ++ Py.spaces 12 ++ "用户最新消息：" ++ Py.nl ++ Py.spaces 12
  ++ user_input ++ Py.nl ++ Py.nl ++ Py.spaces 12 ++ "😊 请用友好、自然的语气回复："
  ++ Py.nl ++ Py.spaces 12.

Definition generate_response (user_input : string)
    (history : list (list string)) : M string :=
  try_except
    (if _is_realtime_question user_input
     then
       let* search_result := summarize_search_results user_input in
       if Py.contains "不可用" search_result
          || Py.contains "错误" search_result
          || Py.contains "超时" search_result
       then
         generate_text_default
           (Py.nl ++ Py.spaces 20
            ++ "用户问了一个关于实时信息的问题，但网络搜索暂时不可用。" ++ Py.nl
            ++ Py.spaces 20 ++ Py.nl ++ Py.spaces 20 ++ "用户问题：" ++ user_input
            ++ Py.nl ++ Py.spaces 20 ++ Py.nl ++ Py.spaces 20
            ++ "😊 请用友好、自然的方式告诉用户暂时无法获取实时信息，并建议稍后再试或提供一些通用的建议："
            ++ Py.nl ++ Py.spaces 20)
       else ret search_result
     else
       let context := _build_context history in
       generate_text_default (daily_prompt context user_input))
    (fun _ => ret daily_fallback).

(** ** modules/professional_qa.py *)

Definition answer_comparison (question : string) : M string :=
  try_except
    (generate_text_default
       (Py.nl ++ Py.spaces 12 ++ "你是一个专业顾问，请比较以下选项并提供选择建议："
        ++ Py.nl ++ Py.spaces 12 ++ Py.nl ++ Py.spaces 12 ++ "问题：" ++ question
        ++ Py.nl ++ Py.spaces 12 ++ Py.nl ++ Py.spaces 12
        ++ "请分析各选项的优缺点，考虑以下因素：" ++ Py.nl
        ++ Py.spaces 12 ++ "1. 成本效益" ++ Py.nl
        ++ Py.spaces 12 ++ "2. 适用场景" ++ Py.nl
        ++ Py.spaces 12 ++ "3. 长期影响" ++ Py.nl
        ++ Py.spaces 12 ++ "4. 用户特定需求" ++ Py.nl
        ++ Py.spaces 12 ++ Py.nl ++ Py.spaces 12 ++ "最后给出推荐选择："
        ++ Py.nl ++ Py.spaces 12))
    (fun _ => ret "抱歉，处理比较问题时出现错误。请尝试重新提问。").

Definition answer_evaluation (question : string) : M string :=
  generate_text_default
    (Py.nl ++ Py.spaces 8 ++ "你是一个专业评估师，请对以下内容进行评估并提供建议："
     ++ Py.nl ++ Py.spaces 8 ++ Py.nl ++ Py.spaces 8 ++ "问题：" ++ question
     ++ Py.nl ++ Py.spaces 8 ++ Py.nl ++ Py.spaces 8
     ++ "请从以下角度进行全面评估：" ++ Py.nl
     ++ Py.spaces 8 ++ "1. 当前状态分析" ++ Py.nl
     ++ Py.spaces 8 ++ "2. 潜在风险" ++ Py.nl
     ++ Py.spaces 8 ++ "3. 改进机会" ++ Py.nl
     ++ Py.spaces 8 ++ "4. 最佳实践参考" ++ Py.nl
     ++ Py.spaces 8 ++ Py.nl ++ Py.spaces 8 ++ "最后给出具体、可操作的建议："
     ++ Py.nl ++ Py.spaces 8).

(** ** modules/intent_recognition.py *)

Definition recognize (user_input : string) : M string :=
  try_except
    (let* intent := classify_intent user_input in
     if negb (str_in intent Config.VALID_INTENTS)
     then ret "D"
     else ret intent)
    (fun _ => ret "D").

(** ** modules/intent_router.py *)

(** [handler(user_input, sid, history)]; [history] defaults to [None]. *)
Definition handler : Type :=
  string -> string -> option (list (list string)) -> M string.

Definition _handle_course_question : handler :=
  fun user_input sid history =>
    try_except (rag_query user_input sid)
               (fun _ => ret "抱歉，处理课程问题时出现错误。😅").

Definition _handle_daily_chat : handler :=
  fun user_input sid history =>
    let recent_history :=
      match history with
      | Some items =>
          flat_map (fun item =>
                      match item with
                      | role :: content :: _ => [[role; content]]
                      | _ => []
                      end)
                   items
      | None => []
      end in
    generate_response user_input recent_history.

Definition _handle_definition_question : handler :=
  fun user_input sid history => summarize_search_results user_input.

Definition _handle_method_question : handler :=
  fun user_input sid history => summarize_search_results user_input.

Definition _handle_comparison_question : handler :=
  fun user_input sid history => answer_comparison user_input.

Definition _handle_evaluation_question : handler :=
  fun user_input sid history => answer_evaluation user_input.

Definition _handle_other_question : handler :=
  fun user_input sid history => summarize_search_results user_input.

Definition _handle_file_question : handler :=
  fun user_input sid history =>
    try_except (rag_query user_input sid)
               (fun _ => ret "抱歉，处理文件问题时出现错误。😅").

Definition _handle_unknown_intent : string :=
  "抱歉，我暂时无法理解您的问题类型。🤔 请尝试用更清晰的方式提问。".

Definition _handle_error : string :=
  "抱歉，处理您的请求时遇到了问题。😅 请稍后再试。".

(** [IntentRouter.__init__] *)
Definition intent_handlers : gmap string handler :=
  <["A" := _handle_course_question]>
  (<["C" := _handle_daily_chat]>
  (<["E" := _handle_definition_question]>
  (<["F" := _handle_method_question]>
  (<["G" := _handle_comparison_question]>
  (<["H" := _handle_evaluation_question]>
  (<["J" := _handle_other_question]>
  (<["K" := _handle_file_question]> ∅))))))).

(** [IntentRouter.route] over a router whose table is [handlers] *)
Definition route_with (handlers : gmap string handler)
    (intent user_input sid : string) (history : option (list (list string)))
    : M string :=
  match handlers !! intent with
  | None => ret _handle_unknown_intent
  | Some handler =>
      try_except (handler user_input sid history)
                 (fun _ => ret _handle_error)
  end.

Definition route : string -> string -> string
                   -> option (list (list string)) -> M string :=
  route_with intent_handlers.

(** ** modules/next_questions.py *)

Definition predict (current_input : string) (history : list (list string))
    (max_questions : nat) : M (list string) :=
  try_except
    (let formatted_history :=
       flat_map (fun item =>
                   match item with
                   | role :: content :: _ => [(role, content)]
                   | _ => []
                   end)
                history in
     let history_context :=
       match formatted_history with
       | [] => []
       | _ => Py.last_n Config.MAX_CHAT_HISTORY formatted_history
       end in
     predict_next_questions current_input history_context max_questions)
    (fun _ => ret []).

(** ** modules/ui_handlers.py *)

(** [MessageHandler.process_message]; of the returned tuple the chat
    history and the session id are kept, the widget updates are left out. *)
Definition process_message (text sid phone : string)
    (chat_history : list (string * string))
    : M (list (string * string) * string) :=
  let text := Py.strip text in
  if String.eqb text EmptyString then ret (chat_history, sid)
  else
    let sid_str := sid in
    let* sid_str :=
      match uuid_canonical E sid_str with
      | Some _ => ret sid_str
      | None => create_session phone None
      end in
    let* new_history :=
      try_except
        (add_message sid "user" text ;;
         let* db_messages := get_messages sid None in
         let formatted_messages :=
           map (fun msg => [m_role msg; m_content msg]) db_messages in
         let* intent := recognize text in
         let* reply := route intent text sid (Some formatted_messages) in
         add_message sid "assistant" reply ;;
         let* updated_messages := get_messages sid None in
         let new_history :=
           map (fun msg => (m_role msg, m_content msg)) updated_messages in
         let recent_history :=
           map (fun msg => [m_role msg; m_content msg])
               (Py.last_n 10 updated_messages) in
         let* predicted_questions := predict text recent_history 3 in
         ret new_history)
        (fun _ =>
           add_message sid "assistant" Config.error_occurred ;;
           let* updated_messages := get_messages sid None in
           ret (map (fun msg => (m_role msg, m_content msg)) updated_messages)) in
    ret (new_history, sid).

End Model.

(** ** A concrete environment *)

(** The part of [str(uuid.UUID(s))] on strings of hexadecimal digits and
    hyphens: the hyphens are dropped, thirty-two digits are required, and
    the digits come back in lower case, grouped 8-4-4-4-12. *)
Module UuidHex.

Definition hex_lower (c : ascii) : option ascii :=
  let n := nat_of_ascii c in
  if ((48 <=? n) && (n <=? 57))%nat then Some c
  else if ((97 <=? n) && (n <=? 102))%nat then Some c
  else if ((65 <=? n) && (n <=? 70))%nat then Some (ascii_of_nat (n + 32))
  else None.

Fixpoint digits (s : string) : option (list ascii) :=
  match s with
  | EmptyString => Some []
  | String c s' =>
      if Ascii.eqb c "-"%char then digits s'
      else match hex_lower c, digits s' with
           | Some d, Some ds => Some (d :: ds)
           | _, _ => None
           end
  end.

Definition group (from len : nat) (ds : list ascii) : string :=
  string_of_list_ascii (firstn len (skipn from ds)).

Definition canonical (s : string) : option string :=
  match digits s with
  | Some ds =>
      if (length ds =? 32)%nat
      then Some (group 0 8 ds ++ "-" ++ group 8 4 ds ++ "-" ++ group 12 4 ds
                 ++ "-" ++ group 16 4 ds ++ "-" ++ group 20 12 ds)
      else None
  | None => None
  end.

End UuidHex.

(** An environment in which nothing fails: ids are numbered, the clock
    advances with the tick, the model answers ["A"], the provider returns
    one snippet, documents have one page and split into one chunk per
    page, and the index returns its first [k] entries. *)
Definition numbered_uuid (t : nat) : string :=
  let d := pretty t in
  "00000000-0000-4000-8000-"
  ++ string_of_list_ascii (repeat "0"%char (12 - String.length d)) ++ d.

Definition calm_env : Env :=
  {| uuid4 := numbered_uuid;
     now := fun t => 1000 + t;
     uuid_canonical := UuidHex.canonical;
     sql_ok := fun _ => true;
     sql_connected := fun _ => true;
     completion := fun _ _ _ _ => Ok "A";
     SERPAPI_API_KEY := Some "key";
     INTENT_PROMPT_format := fun user_input => "用户输入：" ++ user_input;
     requests_get := fun _ _ _ => HttpJson (Some [Some "snippet"]);
     random_uniform := fun _ => 1%Q;
     load_document := fun _ _ _ => Some ["page"];
     split_documents := fun _ docs => Ok docs;
     resolve_path := fun p => p;
     chroma_ok := fun _ => true;
     nearest := fun _ _ k entries => Ok (firstn k entries);
     format_progress := fun batch_end total => pretty (batch_end * 100 / total) |}.

(** [calm_env] with some of its collaborators replaced *)
Definition with_sql_ok (f : nat -> bool) (E : Env) : Env :=
  mkEnv (uuid4 E) (now E) (uuid_canonical E) f (sql_connected E) (completion E)
        (SERPAPI_API_KEY E) (INTENT_PROMPT_format E) (requests_get E)
        (random_uniform E) (load_document E) (split_documents E)
        (resolve_path E) (chroma_ok E) (nearest E) (format_progress E).

Definition with_sql_connected (f : nat -> bool) (E : Env) : Env :=
  mkEnv (uuid4 E) (now E) (uuid_canonical E) (sql_ok E) f (completion E)
        (SERPAPI_API_KEY E) (INTENT_PROMPT_format E) (requests_get E)
        (random_uniform E) (load_document E) (split_documents E)
        (resolve_path E) (chroma_ok E) (nearest E) (format_progress E).

Definition with_load_document
    (f : nat -> string -> string -> option (list string)) (E : Env) : Env :=
  mkEnv (uuid4 E) (now E) (uuid_canonical E) (sql_ok E) (sql_connected E)
        (completion E)
        (SERPAPI_API_KEY E) (INTENT_PROMPT_format E) (requests_get E)
        (random_uniform E) f (split_documents E)
        (resolve_path E) (chroma_ok E) (nearest E) (format_progress E).

Definition with_completion (f : nat -> string -> nat -> Q -> result string)
    (E : Env) : Env :=
  mkEnv (uuid4 E) (now E) (uuid_canonical E) (sql_ok E) (sql_connected E) f
        (SERPAPI_API_KEY E) (INTENT_PROMPT_format E) (requests_get E)
        (random_uniform E) (load_document E) (split_documents E)
        (resolve_path E) (chroma_ok E) (nearest E) (format_progress E).

Definition with_api_key (k : option string) (E : Env) : Env :=
  mkEnv (uuid4 E) (now E) (uuid_canonical E) (sql_ok E) (sql_connected E)
        (completion E)
        k (INTENT_PROMPT_format E) (requests_get E)
        (random_uniform E) (load_document E) (split_documents E)
        (resolve_path E) (chroma_ok E) (nearest E) (format_progress E).

Definition with_requests_get (f : nat -> string -> nat -> http_outcome)
    (E : Env) : Env :=
  mkEnv (uuid4 E) (now E) (uuid_canonical E) (sql_ok E) (sql_connected E)
        (completion E)
        (SERPAPI_API_KEY E) (INTENT_PROMPT_format E) f
        (random_uniform E) (load_document E) (split_documents E)
        (resolve_path E) (chroma_ok E) (nearest E) (format_progress E).

Definition with_now (f : nat -> nat) (E : Env) : Env :=
  mkEnv (uuid4 E) f (uuid_canonical E) (sql_ok E) (sql_connected E)
        (completion E)
        (SERPAPI_API_KEY E) (INTENT_PROMPT_format E) (requests_get E)
        (random_uniform E) (load_document E) (split_documents E)
        (resolve_path E) (chroma_ok E) (nearest E) (format_progress E).

(** ** Observations on traces *)

(** The number of [requests.get] calls and of [time.sleep] calls recorded. *)
Definition http_attempts (tr : list Event) : nat :=
  length (List.filter (fun ev => match ev with EvHttpGet _ _ => true | _ => false end) tr).

Definition sleeps (tr : list Event) : nat :=
  length (List.filter (fun ev => match ev with EvSleep _ => true | _ => false end) tr).

(** How often [auto_rename_session] was entered for session [sid]. *)
Definition rename_count (sid : string) (tr : list Event) : nat :=
  length (List.filter (fun ev => match ev with
                            | EvRename s => String.eqb s sid
                            | _ => false
                            end) tr).

(** What [remaining] failed attempts leave in the trace, the first of them
    numbered [attempt] and made at tick [t]: each is a request followed by
    a sleep of the base delay plus the jitter drawn at the next tick. *)
Fixpoint exhausted_trace (E : Env) (query : string) (retry_delay : nat)
    (t attempt remaining : nat) : list Event :=
  match remaining with
  | O => []
  | S remaining' =>
      EvHttpGet query attempt
      :: EvSleep (inject_Z (Z.of_nat retry_delay) + random_uniform E (S t))%Q
      :: exhausted_trace E query retry_delay (S (S t)) (S attempt) remaining'
  end.

(** An environment whose search provider times out on every attempt. *)
Definition timeout_env : Env :=
  with_requests_get (fun _ _ _ => HttpRaises Timeout) calm_env.

(** Two spellings of one session UUID. *)
Definition sid_lower : string := "123e4567-e89b-42d3-a456-426614174abc".
Definition sid_upper : string := "123E4567-E89B-42D3-A456-426614174ABC".
Definition sid_other : string := "123e4567-e89b-42d3-a456-426614174fff".

(** The database refuses the statement issued at tick 5 (the welcome
    insert of a first [create_session] with no title). *)
Definition refusing_env : Env :=
  with_sql_ok (fun t => negb (t =? 5)%nat) calm_env.

(** A wall clock that is set back between two readings. *)
Definition backward_clock_env : Env :=
  with_now (fun t => 1000 - t) calm_env.

(** ** Relations between worlds and readings of computations *)

(** Every run of [m] relates the world it starts in to the world it
    leaves, whether it returns or raises. *)
Definition steps {A} (R : relation World) (m : M A) : Prop :=
  forall w r w', m w = (r, w') -> R w w'.

(** The collections are left as they were. *)
Definition same_vstore : relation World := fun w w' => vstore w' = vstore w.

(** Every collection but [name] is left as it was. *)
Definition others_kept (name : string) : relation World :=
  fun w w' => forall n, n <> name -> vstore w' !! n = vstore w !! n.

(** Neither the message table nor the collections change. *)
Definition quiet : relation World :=
  fun w w' => messages w' = messages w /\ vstore w' = vstore w.

(** What [add_message] does after a successful insert: the check for the
    automatic rename. *)
Definition rename_check (E : Env) (sid role : string) : M unit :=
  if String.eqb role "assistant"
  then
    let* messages := get_messages E sid None in
    if (length messages =? 2)%nat
    then (let* _ := auto_rename_session E sid in ret tt)
    else ret tt
  else ret tt.

(** The world right after the insert of [add_message]. *)
Definition inserted (E : Env) (sid role content : string) (w : World) : World :=
  mkWorld (S (S (tick w)))
          (messages w ++ [mkMsg sid role content (now E (tick w))])
          (sessions w) (vstore w) (trace w).

Definition run {A} (m : M A) (w : World) (Q : result A -> World -> Prop) : Prop :=
  Q (fst (m w)) (snd (m w)).

(** The message table is left as it was. *)
Definition same_messages : relation World :=
  fun w w' => messages w' = messages w.



Definition success_entry (file_name : string) (n : nat) : string :=
  "✅ 文档处理完成: " ++ file_name ++ " (" ++ pretty n ++ " 个片段)".

(** Of the entries handed to [add_message], each with the tick at which
    its insert is issued, the ones the database accepts. *)
Definition stored (E : Env) (attempts : list (nat * MsgRow)) : list MsgRow :=
  map snd (List.filter (fun a => sql_ok E (fst a)) attempts).



(** The connection of a database method cannot be opened at tick [t]. *)
Definition unreachable_at (E : Env) (t : nat) : Prop :=
  sql_ok E t = false /\ sql_connected E t = false.

(** What is stored in the chat tables and the vector store is untouched. *)
Definition untouched (w w' : World) : Prop :=
  messages w' = messages w /\ sessions w' = sessions w /\ vstore w' = vstore w.

(** The database refuses the statement issued at tick 1: in the empty
    world that is the insert of a first [add_message], and the count of
    sessions of a first [create_session] without a title. *)
Definition tick_one_refused_env : Env :=
  with_sql_ok (fun t => negb (t =? 1)%nat) calm_env.

(** A database whose statements all fail on connections that open, and
    one whose connections do not open. *)
Definition failing_env : Env := with_sql_ok (fun _ => false) calm_env.
Definition unreachable_env : Env :=
  with_sql_connected (fun _ => false) failing_env.

(** Documents whose one page is their path. *)
Definition paged_env : Env :=
  with_load_document (fun _ path _ => Some [path]) calm_env.

(** Session [sid_lower] after the ingestion of one file. *)
Definition one_file_world : World :=
  snd (process_file paged_env sid_lower "/data/a.txt" "a.txt" "txt" empty_world).

(** A user with two sessions, created one after the other. *)
Definition two_sessions_world : World :=
  snd (create_session calm_env "13800000000" None
         (snd (create_session calm_env "13800000000" None empty_world))).

(** The tick at which [create_session], entered in world [w], issues the
    insert of the welcome message: it follows the id, the count of the
    user's sessions when no title is given, the reading of the clock, the
    insert of the session row and the reading of the clock that stamps the
    message. *)
Definition welcome_insert_tick (title : option string) (w : World) : nat :=
  tick w + (if Py.falsy title then 5 else 4).

(** No row of the message table belongs to session [sid]. *)
Definition fresh_session (sid : string) (w : World) : Prop :=
  (forall s, In s (sessions w) -> s_sid s <> sid)
  /\ (forall m, In m (messages w) -> m_sid m <> sid).

(** Neither table changes. *)
Definition same_tables : relation World :=
  fun w w' => messages w' = messages w /\ sessions w' = sessions w.

Definition same_trace : relation World := fun w w' => trace w' = trace w.

(** Whether this call of [add_message] enters [auto_rename_session]: the
    insert is accepted, the role is "assistant", the read that follows
    succeeds and finds exactly two messages in the session. *)
Definition rename_fires (E : Env) (sid role content : string) (w : World) : bool :=
  sql_ok E (S (tick w))
  && String.eqb role "assistant"
  && sql_ok E (S (S (tick w)))
  && (length (select_messages sid None
                (messages w ++ [mkMsg sid role content (now E (tick w))])) =? 2)%nat.

(** The number of rows of session [s] in the message table. *)
Definition session_size (s : string) (w : World) : nat :=
  length (List.filter (fun r => String.eqb (m_sid r) s) (messages w)).

(** Any sequence of calls of [add_message]. *)
Fixpoint add_messages (E : Env) (ops : list (string * string * string)) : M unit :=
  match ops with
  | [] => ret tt
  | (sid, role, content) :: rest =>
      let* _ := add_message E sid role content in
      add_messages E rest
  end.

(** Either the rename of session [s] has not fired, or it has fired once
    and the session holds at least two messages. *)
Definition rename_invariant (s : string) (w : World) : Prop :=
  rename_count s (trace w) = 0
  \/ (rename_count s (trace w) = 1 /\ 2 <= session_size s w).

(** Only the tick changes. *)
Definition only_tick : relation World :=
  fun w w' => exists n, w' = with_tick n w.

(** ** Observations on strings *)

(** Whether a string neither begins nor ends with a blank character. *)
Definition trimmed (s : string) : bool :=
  match hd_error (Py.chars s), hd_error (rev (Py.chars s)) with
  | Some a, Some b => negb (Py.is_space a) && negb (Py.is_space b)
  | _, _ => true
  end.

(** The shape of a character: a byte followed by continuation bytes. *)
Definition char_shape (g : string) : Prop :=
  match g with
  | String _ x => forallb Py.is_continuation (list_ascii_of_string x) = true
  | EmptyString => False
  end.

(** A character that begins with a byte that is no continuation byte. *)
Definition proper_char (g : string) : Prop :=
  match g with
  | String c x =>
      Py.is_continuation c = false
      /\ forallb Py.is_continuation (list_ascii_of_string x) = true
  | EmptyString => False
  end.

(** A run of characters as [Py.chars] cuts them: only the first may begin
    with a continuation byte. *)
Definition char_run (l : list string) : Prop :=
  match l with
  | [] => True
  | g :: rest => char_shape g /\ Forall proper_char rest
  end.

(** An environment whose search provider times out once and then answers. *)
Definition flaky_env : Env :=
  with_requests_get
    (fun t _ _ => if (t =? 0)%nat then HttpRaises Timeout
                  else HttpJson (Some [Some "first"; None; Some "third"]))
    calm_env.

(** What is stored stays as it is: neither table changes, and every
    collection that exists keeps its entries. *)
Definition stored_kept : relation World :=
  fun w w' =>
    messages w' = messages w
    /\ sessions w' = sessions w
    /\ forall name entries,
         vstore w !! name = Some entries -> vstore w' !! name = Some entries.

(** What identifies a session row; the title is the one column that
    [auto_rename_session] rewrites. *)
Definition session_key (s : SessionRow) : string * string * nat :=
  (s_sid s, s_phone s, s_created s).

(** What is stored only grows: messages are appended, session rows are
    appended (an existing row keeps its id, owner and creation time), and
    a collection that exists has entries appended. *)
Definition grows : relation World :=
  fun w w' =>
    (exists rows, messages w' = (messages w ++ rows)%list)
    /\ (exists new,
          map session_key (sessions w') = (map session_key (sessions w) ++ new)%list)
    /\ forall name entries,
         vstore w !! name = Some entries ->
         exists more, vstore w' !! name = Some (entries ++ more)%list.

(** Whether character [c] occurs in [s]. *)
Fixpoint has_char (c : ascii) (s : string) : bool :=
  match s with
  | EmptyString => false
  | String d s' => Ascii.eqb c d || has_char c s'
  end.

(** What [UPDATE sessions SET title = ? WHERE sid = ?] does to a row. *)
Definition retitle (sid new_title : string) (s : SessionRow) : SessionRow :=
  if String.eqb (s_sid s) sid
  then mkSession (s_sid s) (s_phone s) new_title (s_created s)
  else s.

(** ** The rest of modules/chat_management.py and its callers *)

(** A row of table [users]: [phone] is the primary key, [role] is 0 for an
    ordinary user and 1 for an administrator.  The table is threaded
    through the account functions as a list, beside the [World]. *)
Record UserRow : Type := mkUser {
  u_phone : string;
  u_pwd : string;
  u_name : string;
  u_role : nat
}.

(** What the account functions obtain from outside besides [Env]. *)
Record AccountEnv : Type := mkAccountEnv {
  (** [str.isdigit], whose table of Unicode digits is not spelled out *)
  isdigit : string -> bool;
  (** [str(e)] for the [sqlite3.Error] raised at this tick *)
  sqlite_error_text : nat -> string
}.

(** [gr.update(...)], as far as the handlers use it *)
Inductive Update : Type :=
| NoChange                      (* gr.update() *)
| Hide                          (* gr.update(visible=False) *)
| ShowValue (value : string).   (* gr.update(visible=True, value=...) *)

(** What a Gradio Radio hands to its change handler *)
Inductive radio_value : Type :=
| RadioNone                     (* None *)
| RadioEmptyList                (* [] *)
| RadioText (s : string).

Section Frontend.

Context (E : Env) (A : AccountEnv).

(** *** modules/chat_management.py *)

Definition get_sessions (phone : string) : M (list SessionRow) :=
  try_except
    (if String.eqb phone EmptyString then ret []
     else db_get_sessions E phone)
    (fun _ => ret []).

Definition ensure_user_has_session (phone : string) : M string :=
  if String.eqb phone EmptyString then ret EmptyString
  else
    let* existing_sessions := db_get_sessions E phone in
    match existing_sessions with
    | latest :: _ => ret (s_sid latest)
    | [] => create_session E phone (Some "欢迎使用")
    end.

Definition create_first_session_for_new_user (phone : string) : M string :=
  if String.eqb phone EmptyString then ret EmptyString
  else create_session E phone (Some "欢迎使用").

(** *** utils/database.py: the user table *)

(** [add_user] issues two statements on one connection, the [SELECT] and
    the [INSERT]; the connection is open when the second is issued. *)
Definition db_add_user (phone pwd name : string) (users : list UserRow)
    : M (bool * string * list UserRow) :=
  let* select_tick := next_tick in
  if sql_ok E select_tick
  then
    if existsb (fun u => String.eqb (u_phone u) phone) users
    then ret (false, "该手机号已注册", users)
    else
      let* insert_tick := next_tick in
      if sql_ok E insert_tick
      then
        ret (true, "用户添加成功",
             (users ++ [mkUser phone pwd
                          (if String.eqb name EmptyString then phone else name)
                          0])%list)
      else ret (false, "数据库错误: " ++ sqlite_error_text A insert_tick, users)
  else
    sql_failed E select_tick
               (false, "数据库错误: " ++ sqlite_error_text A select_tick, users).

(** [cursor.fetchone()] of the [SELECT] by primary key *)
Definition db_get_user (phone : string) (users : list UserRow)
    : M (option UserRow) :=
  let* t := next_tick in
  if sql_ok E t
  then ret (List.find (fun u => String.eqb (u_phone u) phone) users)
  else sql_failed E t None.

(** *** modules/user_management.py *)

Definition register_success : string := "✅ 注册成功，正在跳转聊天页...".

Definition register (phone pwd name : string) (users : list UserRow)
    : M (bool * string * list UserRow) :=
  if negb (isdigit A phone && (Py.len phone =? 11)%nat)
  then ret (false, "⚠️ 请输入11位手机号", users)
  else if (Py.len pwd <? 6)%nat
  then ret (false, "⚠️ 密码至少6位", users)
  else
    let* user := db_get_user phone users in
    match user with
    | Some _ => ret (false, "⚠️ 该手机号已注册，可直接登录", users)
    | None =>
        let* added :=
          db_add_user phone pwd
                      (if String.eqb name EmptyString then phone else name)
                      users in
        match added with
        | (true, _, users') =>
            try_except
              (let* sid := create_first_session_for_new_user phone in
               ret (true, register_success, users'))
              (fun _ => ret (true, register_success, users'))
        | (false, message, users') =>
            ret (false, "⚠️ 注册失败: " ++ message, users')
        end
    end.

Definition login (phone password : string) (users : list UserRow)
    : M (bool * string) :=
  let* user := db_get_user phone users in
  match user with
  | None => ret (false, "⚠️ 该手机号未注册，请先去注册")
  | Some u =>
      if negb (String.eqb (u_pwd u) password)
      then ret (false, "⚠️ 密码错误")
      else
        let* _ := ensure_user_has_session phone in
        let role_info :=
          if (u_role u =? 1)%nat then "管理员" else "普通用户" in
        ret (true,
             "✅ 登录成功，欢迎回来，" ++ u_name u ++ "！您是" ++ role_info
             ++ "。正在跳转聊天页...")
  end.


(** *** modules/ui_handlers.py *)

(** Of the tuples the session handlers return, the chat history and the
    session id are kept; the three button updates that follow are
    [gr.update(visible=False)] on every path. *)
Definition switch_session (new_sid : option string) (phone : string)
    : M (list (string * string) * string) :=
  match new_sid with
  | None => ret ([], EmptyString)
  | Some new_sid =>
      if String.eqb new_sid EmptyString || String.eqb new_sid "__GROUP__"
      then ret ([], EmptyString)
      else
        match uuid_canonical E new_sid with
        | None => ret ([], EmptyString)
        | Some _ =>
            let sid_str := new_sid in
            try_except
              (let* messages := get_messages E sid_str None in
               let chat_history :=
                 map (fun m => (m_role m, m_content m)) messages in
               ret (chat_history, sid_str))
              (fun _ => ret ([], EmptyString))
        end
  end.

Definition get_latest_or_create_session (phone : string) : M string :=
  if String.eqb phone EmptyString then ret EmptyString
  else try_except (ensure_user_has_session phone) (fun _ => ret EmptyString).

Definition safe_switch_session (new_sid : radio_value) (phone : string)
    : M (list (string * string) * string) :=
  let safe_phone := phone in
  let fallback :=
    let* sessions := get_sessions safe_phone in
    let* safe_sid :=
      match sessions with
      | latest :: _ => ret (s_sid latest)
      | [] => ensure_user_has_session safe_phone
      end in
    let* messages := get_messages E safe_sid None in
    ret (map (fun m => (m_role m, m_content m)) messages, safe_sid) in
  match new_sid with
  | RadioNone => fallback
  | RadioEmptyList => fallback
  | RadioText s =>
      if String.eqb s "__GROUP__" then fallback
      else
        match uuid_canonical E s with
        | None => ret ([], s)
        | Some _ => switch_session (Some s) safe_phone
        end
  end.

(** [while len(btn_updates) < 3: btn_updates.append(...)]: every turn adds
    one update, so three turns are enough from any list. *)
Fixpoint pad_buttons (turns : nat) (btn_updates : list Update) : list Update :=
  match turns with
  | O => btn_updates
  | S turns' =>
      if (length btn_updates <? 3)%nat
      then pad_buttons turns' (btn_updates ++ [Hide])
      else btn_updates
  end.

Definition _update_next_question_buttons (questions : list string)
    : list Update :=
  match questions with
  | [] => [Hide; Hide; Hide]
  | _ =>
      let questions := firstn 3 questions in
      let btn_updates := map ShowValue questions in
      pad_buttons 3 btn_updates
  end.

Definition select_next_question (question sid phone : string)
    (history : list (string * string))
    : M (list (string * string) * string) :=
  if String.eqb question EmptyString
     || String.eqb (Py.strip question) EmptyString
  then ret (history, sid)
  else process_message E question sid phone history.

End Frontend.

(** [str.isdigit] on ASCII strings, for the examples. *)
Definition ascii_isdigit (s : string) : bool :=
  negb (String.eqb s EmptyString)
  && forallb (fun c => let n := nat_of_ascii c in (48 <=? n)%nat && (n <=? 57)%nat)
             (list_ascii_of_string s).

Definition plain_accounts : AccountEnv :=
  {| isdigit := ascii_isdigit; sqlite_error_text := fun _ => "disk I/O error" |}.

(** * Properties *)

Ltac unfold_monad :=
  unfold bind, ret, raise, try_except, next_tick, get_world, modify,
         lift_result, emit in *.

(** ** Appending strings *)

Lemma append_cons c (a b : string) : String c a ++ b = String c (a ++ b).
Proof. reflexivity. Qed.

Lemma append_nil (b : string) : EmptyString ++ b = b.
Proof. reflexivity. Qed.

Lemma append_assoc (a b c : string) : (a ++ b) ++ c = a ++ (b ++ c).
Proof.
  induction a as [|x a IH]; [reflexivity|].
  now rewrite !append_cons, IH.
Qed.

Lemma append_empty_r s : s ++ EmptyString = s.
Proof.
  induction s as [|x s IH]; [reflexivity|]. now rewrite append_cons, IH.
Qed.

(** ** The text-generation wrapper never raises *)

Lemma generate_text_returns E prompt max_tokens temperature w :
  exists text,
    generate_text E prompt max_tokens temperature w
    = (Ok text, with_tick (S (tick w)) w)
    /\ (forall out, completion E (tick w) prompt max_tokens temperature = Ok out ->
                    text = Py.strip out)
    /\ (completion E (tick w) prompt max_tokens temperature = Raise APIError ->
        text = llm_api_error)
    /\ (forall e, completion E (tick w) prompt max_tokens temperature = Raise e ->
                  e <> APIError -> text = llm_other_error).
Proof.
  unfold generate_text, chat_completions_create. unfold_monad.
  destruct (completion E (tick w) prompt max_tokens temperature) as [out|e] eqn:Hc.
  - exists (Py.strip out). repeat split; intros; congruence.
  - destruct e; eexists; (split; [reflexivity|]); repeat split; intros; congruence.
Qed.

Lemma generate_text_result E prompt max_tokens temperature w :
  generate_text E prompt max_tokens temperature w
  = (Ok (match completion E (tick w) prompt max_tokens temperature with
         | Ok out => Py.strip out
         | Raise APIError => llm_api_error
         | Raise _ => llm_other_error
         end),
     with_tick (S (tick w)) w).
Proof.
  unfold generate_text, chat_completions_create. unfold_monad.
  cbn [tick with_tick].
  destruct (completion E (tick w) prompt max_tokens temperature) as [out|e];
    [reflexivity|destruct e; reflexivity].
Qed.

(** ** C3: the classifier *)

Lemma str_in_In x l : str_in x l = true <-> In x l.
Proof.
  unfold str_in. rewrite existsb_exists. split.
  - intros (y & Hy & Heq). apply String.eqb_eq in Heq. now subst.
  - intros H. exists x. split; [assumption|apply String.eqb_refl].
Qed.

Lemma classify_intent_returns E user_input w :
  exists text,
    generate_text E (INTENT_PROMPT_format E user_input) 2 (1 # 10) w
    = (Ok text, with_tick (S (tick w)) w)
    /\ classify_intent E user_input w
       = (Ok (if str_in (Py.upper (Py.strip text)) Config.VALID_INTENTS
              then Py.upper (Py.strip text) else "D"),
          with_tick (S (tick w)) w).
Proof.
  destruct (generate_text_returns E (INTENT_PROMPT_format E user_input) 2 (1 # 10) w)
    as (text & Hg & _).
  exists text. split; [exact Hg|].
  unfold classify_intent. unfold bind at 1. rewrite Hg.
  change ["A"; "B"; "C"; "D"; "E"; "F"; "G"; "H"; "J"; "K"] with Config.VALID_INTENTS.
  destruct (str_in _ _); reflexivity.
Qed.

(** C3. For every input string and every behaviour of the completion
    service, [recognize] returns (it does not raise) a member of the fixed
    set of intent codes.  When the completion call raises, and when its
    output, trimmed and upper-cased, is not a member of the set, the code
    returned is ["D"]; otherwise it is that trimmed, upper-cased output. *)
Theorem recognize_total_in_valid_set (E : Env) (user_input : string) (w : World) :
  let outcome := completion E (tick w) (INTENT_PROMPT_format E user_input) 2 (1 # 10) in
  exists intent w',
    recognize E user_input w = (Ok intent, w')
    /\ In intent Config.VALID_INTENTS
    /\ (forall e, outcome = Raise e -> intent = "D")
    /\ (forall out, outcome = Ok out ->
          str_in (Py.upper (Py.strip (Py.strip out))) Config.VALID_INTENTS = false ->
          intent = "D")
    /\ (forall out, outcome = Ok out ->
          str_in (Py.upper (Py.strip (Py.strip out))) Config.VALID_INTENTS = true ->
          intent = Py.upper (Py.strip (Py.strip out))).
Proof.
  intros outcome.
  destruct (generate_text_returns E (INTENT_PROMPT_format E user_input) 2 (1 # 10) w)
    as (text & Hg & Hok & Hapi & Hoth).
  destruct (classify_intent_returns E user_input w) as (text' & Hg' & Hc).
  rewrite Hg in Hg'. injection Hg' as <-.
  fold outcome in Hok, Hapi, Hoth.
  set (norm := Py.upper (Py.strip text)) in *.
  assert (Hrun : recognize E user_input w
                 = (Ok (if str_in norm Config.VALID_INTENTS then norm else "D"),
                    with_tick (S (tick w)) w)).
  { unfold recognize, try_except. unfold bind at 1. rewrite Hc.
    destruct (str_in norm Config.VALID_INTENTS) eqn:Hin; cbv beta iota.
    - rewrite Hin. reflexivity.
    - reflexivity. }
  exists (if str_in norm Config.VALID_INTENTS then norm else "D"),
         (with_tick (S (tick w)) w).
  split; [exact Hrun|]. split; [|split; [|split]].
  - destruct (str_in norm Config.VALID_INTENTS) eqn:Hin.
    + now apply str_in_In.
    + apply str_in_In. reflexivity.
  - intros e He.
    assert (Hnorm : str_in norm Config.VALID_INTENTS = false).
    { unfold norm. destruct e.
      - rewrite (Hapi He). vm_compute. reflexivity.
      - rewrite (Hoth _ He) by discriminate. vm_compute. reflexivity.
      - rewrite (Hoth _ He) by discriminate. vm_compute. reflexivity.
      - rewrite (Hoth _ He) by discriminate. vm_compute. reflexivity.
      - rewrite (Hoth _ He) by discriminate. vm_compute. reflexivity. }
    rewrite Hnorm. reflexivity.
  - intros out Hout Hnot. unfold norm. rewrite (Hok _ Hout), Hnot. reflexivity.
  - intros out Hout Hmem. unfold norm. rewrite (Hok _ Hout), Hmem. reflexivity.
Qed.

(** ** C6 and C10: web search *)

Lemma search_loop_exhausted E query num_results retry_delay remaining :
  forall attempt w,
    (forall k, k < remaining ->
       exists e, requests_get E (tick w + 2 * k) query num_results = HttpRaises e) ->
    search_loop E query num_results retry_delay attempt remaining w
    = (Ok search_failed,
       mkWorld (tick w + 2 * remaining) (messages w) (sessions w) (vstore w)
               (trace w ++ exhausted_trace E query retry_delay (tick w) attempt remaining)).
Proof.
  induction remaining as [|remaining IH]; intros attempt w Hfail.
  - simpl. unfold ret. destruct w; simpl. rewrite Nat.add_0_r, app_nil_r. reflexivity.
  - cbn [search_loop]. unfold http_get, backoff. unfold_monad. cbn.
    destruct (Hfail 0 ltac:(lia)) as [e He]. rewrite Nat.add_0_r in He. rewrite He.
    assert (Hstep : forall w1 : World,
               tick w1 = S (S (tick w)) ->
               search_loop E query num_results retry_delay (S attempt) remaining w1
               = (Ok search_failed,
                  mkWorld (tick w1 + 2 * remaining) (messages w1) (sessions w1) (vstore w1)
                          (trace w1 ++ exhausted_trace E query retry_delay (tick w1)
                                                       (S attempt) remaining))).
    { intros w1 Hw1. apply IH. intros k Hk.
      destruct (Hfail (S k) ltac:(lia)) as [e' He']. exists e'.
      rewrite <- He'. f_equal. lia. }
    destruct e; cbn; rewrite Hstep by reflexivity; cbn;
      (f_equal; f_equal; [lia | rewrite <- !app_assoc; reflexivity]).
Qed.

Lemma exhausted_trace_counts E query retry_delay remaining :
  forall t attempt,
    http_attempts (exhausted_trace E query retry_delay t attempt remaining) = remaining
    /\ sleeps (exhausted_trace E query retry_delay t attempt remaining) = remaining.
Proof.
  unfold http_attempts, sleeps.
  induction remaining as [|remaining IH]; intros t attempt; [now split|].
  destruct (IH (S (S t)) (S attempt)) as [Hh Hs].
  split; cbn; [rewrite Hh | rewrite Hs]; reflexivity.
Qed.

Lemma summarize_prompt_holds_results query :
  exists before after,
    forall results, summarize_prompt query results = before ++ results ++ after.
Proof.
  eexists (Py.nl ++ Py.spaces 8 ++ "根据以下网络搜索结果，回答用户的问题：" ++ Py.nl
           ++ Py.spaces 8 ++ Py.nl ++ Py.spaces 8 ++ "问题：" ++ query ++ Py.nl
           ++ Py.spaces 8 ++ Py.nl ++ Py.spaces 8 ++ "具体的搜索结果：" ++ Py.nl
           ++ Py.spaces 8), _.
  intros results. unfold summarize_prompt. rewrite !append_assoc. reflexivity.
Qed.

(** C6, as amended.  With an API key configured and a provider that fails
    on each of the [max_retries + 1] attempts (the attempt numbered [k + 1]
    is made at tick [tick w + 2 * k]), [search] makes [max_retries + 1]
    requests, sleeps after each of them for the base delay plus the jitter
    it drew, and returns the literal failure marker without raising.
    [summarize_search_results], which searches with five results, three
    retries and a delay of five seconds, does not hand that marker to its
    caller: it writes it into the summarisation prompt, the search results
    standing between two texts that do not depend on them, and returns
    what [generate_text] makes of the completion service's answer to that
    prompt, again without raising. *)
Theorem search_exhaustion_returns_marker (E : Env) (query : string)
    (num_results max_retries retry_delay : nat) (w : World) :
  Py.falsy (api_key E) = false ->
  (forall k, k <= max_retries ->
     exists e, requests_get E (tick w + 2 * k) query num_results = HttpRaises e) ->
  let attempts := exhausted_trace E query retry_delay (tick w) 1 (max_retries + 1) in
  let w1 := mkWorld (tick w + 2 * (max_retries + 1)) (messages w) (sessions w)
                    (vstore w) (trace w ++ attempts) in
  search E query num_results max_retries retry_delay w = (Ok search_failed, w1)
  /\ http_attempts attempts = max_retries + 1
  /\ sleeps attempts = max_retries + 1
  /\ (num_results = 5 -> max_retries = 3 -> retry_delay = 5 ->
      summarize_search_results E query w
      = (Ok (match completion E (tick w1) (summarize_prompt query search_failed)
                              1024 (7 # 10) with
             | Ok out => Py.strip out
             | Raise APIError => llm_api_error
             | Raise _ => llm_other_error
             end),
         with_tick (S (tick w1)) w1))
  /\ exists before after,
       forall results, summarize_prompt query results = before ++ results ++ after.
Proof.
  intros Hkey Hfail attempts w1.
  assert (Hsearch :
            search E query num_results max_retries retry_delay w
            = (Ok search_failed, w1)).
  { unfold search. rewrite Hkey. apply search_loop_exhausted.
    intros k Hk. apply Hfail. lia. }
  split; [exact Hsearch|].
  split; [apply exhausted_trace_counts|].
  split; [apply exhausted_trace_counts|].
  split; [|apply summarize_prompt_holds_results].
  intros -> -> ->.
  unfold summarize_search_results. unfold bind. rewrite Hsearch.
  apply generate_text_result.
Qed.

Lemma search_exhaustion_witness :
  Py.falsy (api_key timeout_env) = false
  /\ (forall k, k <= 3 ->
        exists e, requests_get timeout_env (0 + 2 * k) "rocq" 5 = HttpRaises e)
  /\ fst (search timeout_env "rocq" 5 3 5 empty_world) = Ok search_failed
  /\ fst (summarize_search_results timeout_env "rocq" empty_world) = Ok "A".
Proof.
  assert (Hfail : forall k, k <= 3 ->
            exists e, requests_get timeout_env (0 + 2 * k) "rocq" 5 = HttpRaises e)
    by (intros k _; now exists Timeout).
  split; [reflexivity|]. split; [exact Hfail|].
  destruct (search_exhaustion_returns_marker timeout_env "rocq" 5 3 5 empty_world
              eq_refl Hfail) as (Hsearch & _ & _ & Hsum & _).
  split; [rewrite Hsearch; reflexivity|].
  rewrite (Hsum eq_refl eq_refl eq_refl). reflexivity.
Defined.

(** C6 as stated fails: when the provider times out on every attempt,
    [search] returns the marker, but [summarize_search_results] returns the
    text of the generation service (here ["A"]), which is not the marker. *)
Lemma summarize_returns_generated_text_not_marker :
  (forall t, requests_get timeout_env t "rocq" 5 = HttpRaises Timeout)
  /\ fst (search timeout_env "rocq" 5 3 5 empty_world) = Ok search_failed
  /\ fst (summarize_search_results timeout_env "rocq" empty_world) = Ok "A"
  /\ "A" <> search_failed.
Proof.
  split; [reflexivity|]. split; [vm_compute; reflexivity|].
  split; [vm_compute; reflexivity|]. discriminate.
Qed.

(** C10.  With no API key configured ([None] or the empty string),
    [search] returns the fixed text at once: the world it leaves is the
    world it found, so no request was made, nothing was retried and nothing
    slept.  [summarize_search_results] then writes that fixed text into
    its prompt, where the search results stand between two texts that do
    not depend on them, and returns, without raising, what [generate_text]
    makes of the completion service's answer to that prompt; still no
    request is recorded. *)
Theorem search_without_api_key (E : Env) (query : string)
    (num_results max_retries retry_delay : nat) (w : World) :
  Py.falsy (api_key E) = true ->
  search E query num_results max_retries retry_delay w = (Ok search_unavailable, w)
  /\ summarize_search_results E query w
     = (Ok (match completion E (tick w) (summarize_prompt query search_unavailable)
                             1024 (7 # 10) with
            | Ok out => Py.strip out
            | Raise APIError => llm_api_error
            | Raise _ => llm_other_error
            end),
        with_tick (S (tick w)) w)
  /\ (exists before after,
        forall results, summarize_prompt query results = before ++ results ++ after)
  /\ http_attempts (trace (with_tick (S (tick w)) w)) = http_attempts (trace w)
  /\ sleeps (trace (with_tick (S (tick w)) w)) = sleeps (trace w).
Proof.
  intros Hkey.
  assert (Hsearch : forall n mr rd, search E query n mr rd w = (Ok search_unavailable, w)).
  { intros. unfold search. rewrite Hkey. reflexivity. }
  split; [apply Hsearch|].
  split; [|split; [apply summarize_prompt_holds_results|split; reflexivity]].
  unfold summarize_search_results. unfold bind. rewrite Hsearch.
  apply generate_text_result.
Qed.

Lemma search_without_api_key_witness :
  Py.falsy (api_key (with_api_key None calm_env)) = true
  /\ search (with_api_key None calm_env) "rocq" 5 3 5 empty_world
     = (Ok search_unavailable, empty_world)
  /\ fst (summarize_search_results (with_api_key None calm_env) "rocq" empty_world)
     = Ok "A".
Proof.
  split; [reflexivity|].
  destruct (search_without_api_key (with_api_key None calm_env) "rocq" 5 3 5
              empty_world eq_refl) as (Hsearch & Hsum & _).
  split; [exact Hsearch|]. rewrite Hsum. reflexivity.
Defined.

(** ** Computations that return *)

Lemma returns_ret {A} (a : A) w : returns (ret a) w.
Proof. now exists a, w. Qed.

Lemma returns_bind {A B} (m : M A) (k : A -> M B) w :
  returns m w -> (forall a w', returns (k a) w') -> returns (bind m k) w.
Proof.
  intros (a & w' & Hm) Hk. unfold returns, bind. rewrite Hm. apply Hk.
Qed.

Lemma returns_try_except {A} (m : M A) (h : exn -> M A) w :
  (forall e w', returns (h e) w') -> returns (try_except m h) w.
Proof.
  intros Hh. unfold returns, try_except.
  destruct (m w) as [[a|e] w'].
  - now exists a, w'.
  - apply Hh.
Qed.

Lemma try_except_returns {A} (m : M A) (h : exn -> M A) w :
  returns m w -> try_except m h w = m w.
Proof.
  intros (a & w' & Hm). unfold try_except. rewrite Hm. reflexivity.
Qed.

Lemma returns_generate_text E prompt max_tokens temperature w :
  returns (generate_text E prompt max_tokens temperature) w.
Proof.
  destruct (generate_text_returns E prompt max_tokens temperature w) as (text & H & _).
  now exists text, (with_tick (S (tick w)) w).
Qed.

Lemma returns_backoff E retry_delay w : returns (backoff E retry_delay) w.
Proof. unfold backoff. unfold_monad. eexists _, _. reflexivity. Qed.

Lemma returns_search_loop E query num_results retry_delay remaining :
  forall attempt w,
    returns (search_loop E query num_results retry_delay attempt remaining) w.
Proof.
  induction remaining as [|remaining IH]; intros attempt w.
  - apply returns_ret.
  - cbn [search_loop]. apply returns_bind.
    + apply returns_try_except. intros e w'.
      destruct e; (apply returns_bind; [apply returns_backoff|intros; apply returns_ret]).
    + intros [text|] w'; [apply returns_ret|apply IH].
Qed.

Lemma returns_search E query num_results max_retries retry_delay w :
  returns (search E query num_results max_retries retry_delay) w.
Proof.
  unfold search. destruct (Py.falsy (api_key E)).
  - apply returns_ret.
  - apply returns_search_loop.
Qed.

Lemma returns_summarize_search_results E query w :
  returns (summarize_search_results E query) w.
Proof.
  unfold summarize_search_results. apply returns_bind.
  - apply returns_search.
  - intros. apply returns_generate_text.
Qed.

Lemma returns_retrieve E query sid top_k w : returns (retrieve E query sid top_k) w.
Proof.
  unfold retrieve. apply returns_try_except. intros. apply returns_ret.
Qed.

Lemma returns_generate_answer E query context w :
  returns (generate_answer E query context) w.
Proof.
  unfold generate_answer. apply returns_try_except. intros. apply returns_ret.
Qed.

Lemma returns_rag_query E question sid w : returns (rag_query E question sid) w.
Proof.
  unfold rag_query. apply returns_bind.
  - apply returns_retrieve.
  - intros. apply returns_generate_answer.
Qed.

Lemma returns_generate_response E user_input history w :
  returns (generate_response E user_input history) w.
Proof.
  unfold generate_response. apply returns_try_except. intros. apply returns_ret.
Qed.

Lemma returns_answer_comparison E question w :
  returns (answer_comparison E question) w.
Proof.
  unfold answer_comparison. apply returns_try_except. intros. apply returns_ret.
Qed.

Lemma returns_answer_evaluation E question w :
  returns (answer_evaluation E question) w.
Proof. unfold answer_evaluation. apply returns_generate_text. Qed.

(** ** C2 and C9: the router *)

(** C2.  Over any table of handlers, and so over the table the router is
    built with, [route] returns a string and does not raise, whatever the
    intent code, the text, the session id and the history: a code with no
    entry gives the static clarification message and touches nothing, a
    handler that raises gives the static apology message, and a handler
    that returns has its reply passed on. *)
Theorem route_never_raises (E : Env) (handlers : gmap string handler)
    (intent user_input sid : string) (history : option (list (list string)))
    (w : World) :
  (exists reply w',
     route_with handlers intent user_input sid history w = (Ok reply, w')
     /\ (handlers !! intent = None -> reply = _handle_unknown_intent /\ w' = w)
     /\ (forall h e w1,
           handlers !! intent = Some h ->
           h user_input sid history w = (Raise e, w1) ->
           reply = _handle_error /\ w' = w1)
     /\ (forall h r w1,
           handlers !! intent = Some h ->
           h user_input sid history w = (Ok r, w1) ->
           reply = r /\ w' = w1))
  /\ returns (route E intent user_input sid history) w.
Proof.
  assert (Hgen : forall hs : gmap string handler,
             exists reply w',
               route_with hs intent user_input sid history w = (Ok reply, w')
               /\ (hs !! intent = None -> reply = _handle_unknown_intent /\ w' = w)
               /\ (forall h e w1,
                      hs !! intent = Some h ->
                      h user_input sid history w = (Raise e, w1) ->
                      reply = _handle_error /\ w' = w1)
               /\ (forall h r w1,
                      hs !! intent = Some h ->
                      h user_input sid history w = (Ok r, w1) ->
                      reply = r /\ w' = w1)).
  { intros hs. unfold route_with, try_except.
    destruct (hs !! intent) as [h|] eqn:Hlook.
    - destruct (h user_input sid history w) as [[r|e] w1] eqn:Hrun.
      + exists r, w1. repeat split; try congruence;
          intros h' ? ? Hh' Hrun'; injection Hh' as <-; congruence.
      + exists _handle_error, w1. repeat split; try congruence;
          intros h' ? ? Hh' Hrun'; injection Hh' as <-; congruence.
    - exists _handle_unknown_intent, w. repeat split; congruence. }
  split; [apply Hgen|].
  destruct (Hgen (intent_handlers E)) as (reply & w' & Hrun & _).
  now exists reply, w'.
Qed.

Lemma intent_handlers_lookup E :
  intent_handlers E !! "A" = Some (_handle_course_question E)
  /\ intent_handlers E !! "C" = Some (_handle_daily_chat E)
  /\ intent_handlers E !! "E" = Some (_handle_definition_question E)
  /\ intent_handlers E !! "F" = Some (_handle_method_question E)
  /\ intent_handlers E !! "G" = Some (_handle_comparison_question E)
  /\ intent_handlers E !! "H" = Some (_handle_evaluation_question E)
  /\ intent_handlers E !! "J" = Some (_handle_other_question E)
  /\ intent_handlers E !! "K" = Some (_handle_file_question E).
Proof.
  unfold intent_handlers.
  repeat split;
    repeat (first [ rewrite lookup_insert_eq; reflexivity
                  | rewrite lookup_insert_ne by discriminate ]).
Qed.

Lemma intent_handlers_unmapped E intent :
  ~ In intent ["A"; "C"; "E"; "F"; "G"; "H"; "J"; "K"] ->
  intent_handlers E !! intent = None.
Proof.
  intros Hnot. unfold intent_handlers.
  repeat (rewrite lookup_insert_ne
            by (intros <-; apply Hnot; cbn; tauto)).
  apply lookup_empty.
Qed.

(** C9.  The router's table sends A and K to the RAG engine, C to the
    daily-chat generator (on the role/content pairs of the history), E, F
    and J to web-search summarisation, G and H to the two direct
    professional prompts; what [route] returns for these codes is what
    that engine returns.  Every other code, the unrecognised code D and the
    valid code B among them, has no entry and yields the static
    clarification message, leaving the world as it was. *)
Theorem route_dispatch_table (E : Env) (user_input sid : string)
    (history : option (list (list string))) (w : World) :
  route E "A" user_input sid history w = rag_query E user_input sid w
  /\ route E "K" user_input sid history w = rag_query E user_input sid w
  /\ route E "C" user_input sid history w
     = generate_response E user_input
         (match history with
          | Some items =>
              flat_map (fun item =>
                          match item with
                          | role :: content :: _ => [[role; content]]
                          | _ => []
                          end) items
          | None => []
          end) w
  /\ route E "E" user_input sid history w = summarize_search_results E user_input w
  /\ route E "F" user_input sid history w = summarize_search_results E user_input w
  /\ route E "J" user_input sid history w = summarize_search_results E user_input w
  /\ route E "G" user_input sid history w = answer_comparison E user_input w
  /\ route E "H" user_input sid history w = answer_evaluation E user_input w
  /\ (forall intent,
        ~ In intent ["A"; "C"; "E"; "F"; "G"; "H"; "J"; "K"] ->
        route E intent user_input sid history w = (Ok _handle_unknown_intent, w))
  /\ route E "D" user_input sid history w = (Ok _handle_unknown_intent, w)
  /\ route E "B" user_input sid history w = (Ok _handle_unknown_intent, w).
Proof.
  destruct (intent_handlers_lookup E)
    as (HA & HC & HE & HF & HG & HH & HJ & HK).
  assert (Hunmapped : forall intent,
             ~ In intent ["A"; "C"; "E"; "F"; "G"; "H"; "J"; "K"] ->
             route E intent user_input sid history w = (Ok _handle_unknown_intent, w)).
  { intros intent Hnot. unfold route, route_with.
    pose proof (intent_handlers_unmapped E intent Hnot) as Hnone.
    unfold handler in *. rewrite Hnone. reflexivity. }
  unfold route, route_with. unfold handler in *.
  rewrite HA, HC, HE, HF, HG, HH, HJ, HK.
  unfold _handle_course_question, _handle_daily_chat, _handle_definition_question,
    _handle_method_question, _handle_comparison_question,
    _handle_evaluation_question, _handle_other_question, _handle_file_question.
  split; [|split]; [| |split; [|split; [|split; [|split; [|split; [|split]]]]]].
  - rewrite !try_except_returns;
      auto using returns_rag_query, returns_try_except, returns_ret.
  - rewrite !try_except_returns;
      auto using returns_rag_query, returns_try_except, returns_ret.
  - apply try_except_returns, returns_generate_response.
  - apply try_except_returns, returns_summarize_search_results.
  - apply try_except_returns, returns_summarize_search_results.
  - apply try_except_returns, returns_summarize_search_results.
  - apply try_except_returns, returns_answer_comparison.
  - apply try_except_returns, returns_answer_evaluation.
  - split; [exact Hunmapped|].
    split; apply Hunmapped; cbn; intros H;
      repeat (destruct H as [H|H]; [discriminate|]); exact H.
Qed.

(** ** What a computation may change *)

Section Steps.

Context (R : relation World) `{!PreOrder R}.

Lemma steps_ret {A} (a : A) : steps R (ret a).
Proof. intros w r w' [= <- <-]. reflexivity. Qed.

Lemma steps_raise {A} (e : exn) : steps R (@raise A e).
Proof. intros w r w' [= <- <-]. reflexivity. Qed.

Lemma steps_get_world : steps R get_world.
Proof. intros w r w' [= <- <-]. reflexivity. Qed.

Lemma steps_lift_result {A} (r : result A) : steps R (lift_result r).
Proof. destruct r; [apply steps_ret|apply steps_raise]. Qed.

Lemma steps_bind {A B} (m : M A) (k : A -> M B) :
  steps R m -> (forall a, steps R (k a)) -> steps R (bind m k).
Proof.
  intros Hm Hk w r w'. unfold bind.
  destruct (m w) as [[a|e] w1] eqn:Hrun; intros Hrest.
  - transitivity w1; [eapply Hm; eauto|eapply Hk; eauto].
  - injection Hrest as <- <-. eapply Hm; eauto.
Qed.

Lemma steps_try_except {A} (m : M A) (h : exn -> M A) :
  steps R m -> (forall e, steps R (h e)) -> steps R (try_except m h).
Proof.
  intros Hm Hh w r w'. unfold try_except.
  destruct (m w) as [[a|e] w1] eqn:Hrun; intros Hrest.
  - injection Hrest as <- <-. eapply Hm; eauto.
  - transitivity w1; [eapply Hm; eauto|eapply Hh; eauto].
Qed.

Lemma steps_modify (f : World -> World) :
  (forall w, R w (f w)) -> steps R (modify f).
Proof. intros Hf w r w' [= <- <-]. apply Hf. Qed.

Lemma steps_sql_failed {A} E t (fallback : A) :
  steps R (sql_failed E t fallback).
Proof.
  unfold sql_failed. destruct (sql_connected E t);
    [apply steps_ret|apply steps_raise].
Qed.

End Steps.

Lemma steps_weaken {A} (R R' : relation World) (m : M A) :
  (forall w w', R w w' -> R' w w') -> steps R m -> steps R' m.
Proof. intros Hsub Hm w r w' Hrun. eapply Hsub, Hm, Hrun. Qed.

#[local] Instance same_vstore_preorder : PreOrder same_vstore.
Proof.
  split; [intros w; reflexivity|].
  intros a b c Hab Hbc. unfold same_vstore in *. congruence.
Qed.

#[local] Instance others_kept_preorder name : PreOrder (others_kept name).
Proof.
  split; [intros w n _; reflexivity|].
  intros a b c Hab Hbc n Hn. rewrite (Hbc n Hn). apply Hab, Hn.
Qed.

Lemma same_vstore_others_kept name w w' :
  same_vstore w w' -> others_kept name w w'.
Proof. intros H n _. unfold same_vstore in H. now rewrite H. Qed.

(** One structural step of a frame proof. *)
Ltac steps_step :=
  match goal with
  | |- steps _ (bind _ _) => apply steps_bind; [typeclasses eauto| |intros; cbv beta]
  | |- steps _ (try_except _ _) => apply steps_try_except; [typeclasses eauto| |intros; cbv beta]
  | |- steps _ (ret _) => apply steps_ret; typeclasses eauto
  | |- steps _ (raise _) => apply steps_raise; typeclasses eauto
  | |- steps _ get_world => apply steps_get_world; typeclasses eauto
  | |- steps _ (lift_result _) => apply steps_lift_result; typeclasses eauto
  | |- steps _ (sql_failed _ _ _) => apply steps_sql_failed; typeclasses eauto
  | |- steps _ (if ?b then _ else _) => destruct b
  | |- steps _ (match ?x with _ => _ end) => destruct x
  end.

Lemma same_vstore_next_tick : steps same_vstore next_tick.
Proof. intros w r w' [= <- <-]. reflexivity. Qed.

Lemma same_vstore_emit ev : steps same_vstore (emit ev).
Proof. intros w r w' [= <- <-]. reflexivity. Qed.

Lemma same_vstore_generate_text E prompt max_tokens temperature :
  steps same_vstore (generate_text E prompt max_tokens temperature).
Proof.
  intros w r w' Hrun.
  destruct (generate_text_returns E prompt max_tokens temperature w) as (t & Hg & _).
  rewrite Hg in Hrun. injection Hrun as <- <-. reflexivity.
Qed.

Lemma same_vstore_db_add_message E sid role content ts :
  steps same_vstore (db_add_message E sid role content ts).
Proof.
  unfold db_add_message.
  repeat first [ apply same_vstore_next_tick
               | apply steps_modify; intros; reflexivity
               | steps_step ].
Qed.

Lemma same_vstore_get_messages E sid limit :
  steps same_vstore (get_messages E sid limit).
Proof.
  unfold get_messages, db_get_messages.
  repeat first [ apply same_vstore_next_tick | steps_step ].
Qed.

Lemma same_vstore_sql_update_title E new_title sid :
  steps same_vstore (sql_update_title E new_title sid).
Proof.
  unfold sql_update_title.
  repeat first [ apply same_vstore_next_tick
               | apply steps_modify; intros; reflexivity
               | steps_step ].
Qed.

Lemma same_vstore_auto_rename_session E sid :
  steps same_vstore (auto_rename_session E sid).
Proof.
  unfold auto_rename_session.
  repeat first [ apply same_vstore_emit
               | apply same_vstore_get_messages
               | apply same_vstore_generate_text
               | apply same_vstore_sql_update_title
               | steps_step ].
Qed.

Lemma same_vstore_add_message E sid role content :
  steps same_vstore (add_message E sid role content).
Proof.
  unfold add_message.
  repeat first [ apply same_vstore_next_tick
               | apply same_vstore_db_add_message
               | apply same_vstore_get_messages
               | apply same_vstore_auto_rename_session
               | steps_step ].
Qed.

Lemma others_kept_of_same_vstore {A} name (m : M A) :
  steps same_vstore m -> steps (others_kept name) m.
Proof. apply steps_weaken. intros w w'. apply same_vstore_others_kept. Qed.

Lemma others_kept_get_or_create_collection E name :
  steps (others_kept name) (get_or_create_collection E name).
Proof.
  unfold get_or_create_collection.
  repeat first [ apply others_kept_of_same_vstore, same_vstore_next_tick
               | steps_step ].
  apply steps_modify. intros w n Hn.
  destruct (vstore w !! name); [reflexivity|].
  cbn. now rewrite lookup_insert_ne by congruence.
Qed.

Lemma others_kept_collection_add E name entries :
  steps (others_kept name) (collection_add E name entries).
Proof.
  unfold collection_add.
  repeat first [ apply others_kept_of_same_vstore, same_vstore_next_tick
               | steps_step ].
  apply steps_modify. intros w n Hn. cbn.
  now rewrite lookup_insert_ne by congruence.
Qed.

Lemma same_vstore_next_ticks n : steps same_vstore (next_ticks n).
Proof.
  induction n as [|n IH]; cbn [next_ticks].
  - apply steps_ret. typeclasses eauto.
  - repeat first [ apply same_vstore_next_tick | apply IH | steps_step ].
Qed.

Lemma same_vstore_prepare_entries E sid_str file_path file_name file_type chunks :
  steps same_vstore
        (prepare_entries E sid_str file_path file_name file_type chunks).
Proof.
  unfold prepare_entries.
  repeat first [ apply same_vstore_next_ticks | steps_step ].
Qed.

Lemma others_kept_store_batches E sid_str name entries total batches :
  forall i,
    steps (others_kept name) (store_batches E sid_str name entries total i batches).
Proof.
  induction batches as [|batches IH]; intros i; cbn [store_batches].
  - apply steps_ret. typeclasses eauto.
  - repeat first [ apply others_kept_collection_add
                 | apply others_kept_of_same_vstore, same_vstore_add_message
                 | apply IH
                 | steps_step ].
Qed.

(** Ingestion under [sid] changes no collection but the one named after the
    canonical form of [sid]; under an id that is no UUID it changes none. *)
Lemma process_file_frame E sid file_path file_name file_type :
  match uuid_canonical E sid with
  | Some sid_str =>
      steps (others_kept ("session_" ++ sid_str))
            (process_file E sid file_path file_name file_type)
  | None =>
      steps same_vstore (process_file E sid file_path file_name file_type)
  end.
Proof.
  unfold process_file.
  destruct (uuid_canonical E sid) as [sid_str|].
  - repeat first [ apply others_kept_of_same_vstore, same_vstore_add_message
                 | apply others_kept_of_same_vstore, same_vstore_next_tick
                 | apply others_kept_of_same_vstore, same_vstore_prepare_entries
                 | apply others_kept_get_or_create_collection
                 | apply others_kept_store_batches
                 | steps_step ].
  - apply steps_ret. typeclasses eauto.
Qed.

Lemma returns_add_message E sid role content w :
  returns (add_message E sid role content) w.
Proof.
  unfold add_message. apply returns_try_except. intros. apply returns_ret.
Qed.

Lemma returns_process_file E sid file_path file_name file_type w :
  returns (process_file E sid file_path file_name file_type) w.
Proof.
  unfold process_file. destruct (uuid_canonical E sid).
  - apply returns_try_except. intros.
    apply returns_bind; [apply returns_add_message|intros; apply returns_ret].
  - apply returns_ret.
Qed.

(** Whatever a query for [sid] returns is the text of an entry of the
    collection named after [sid] as it stands when the query is made,
    provided the index returns entries of the collection it is asked
    about. *)
Lemma retrieve_reads_own_collection E query sid top_k w docs w' :
  (forall t q k entries hits,
      nearest E t q k entries = Ok hits -> incl hits entries) ->
  retrieve E query sid top_k w = (Ok docs, w') ->
  forall d, In d docs ->
    exists entries c,
      vstore w !! ("session_" ++ sid) = Some entries
      /\ In c entries /\ document c = d.
Proof.
  intros Hnearest. unfold retrieve.
  destruct (uuid_canonical E sid) as [c|].
  2:{ unfold_monad. intros [= <- <-] d []. }
  unfold get_collection, get_or_create_collection, collection_query.
  unfold_monad. cbn.
  destruct (chroma_ok E (tick w)); cbn.
  2:{ destruct (chroma_ok E (S (tick w))); cbn; intros [= <- <-] d []. }
  destruct (vstore w !! _) as [entries|] eqn:Hlook; cbn.
  2:{ destruct (chroma_ok E (S (tick w))); cbn; intros [= <- <-] d []. }
  rewrite Hlook.
  destruct (nearest E (S (tick w)) query top_k entries) as [hits|e] eqn:Hn; cbn.
  - intros [= <- <-] d Hd. apply in_map_iff in Hd as (c0 & Hdoc & Hin).
    exists entries, c0. repeat split; [|exact Hdoc].
    eapply Hnearest; eauto.
  - intros [= <- <-] d [].
Qed.

Lemma In_firstn {A} (x : A) k : forall l, In x (firstn k l) -> In x l.
Proof.
  induction k as [|k IH]; intros [|y l]; cbn; try tauto.
  intros [->|Hin]; [now left|right; now apply IH].
Qed.

Lemma session_name_inj a b : "session_" ++ a = "session_" ++ b -> a = b.
Proof. intros H. cbn in H. injection H as H. exact H. Qed.

(** ** C1: isolation of retrieval *)

(** Ingestion under a session id whose canonical form is not [A] leaves
    the collection that queries for [A] read as it was. *)
Lemma retrieve_after_ingestion (E : Env)
    (query A B file_path file_name file_type : string) (top_k : nat) (w : World) :
  (forall t q k entries hits,
      nearest E t q k entries = Ok hits -> incl hits entries) ->
  uuid_canonical E B <> Some A ->
  exists ok w1,
    process_file E B file_path file_name file_type w = (Ok ok, w1)
    /\ vstore w1 !! ("session_" ++ A) = vstore w !! ("session_" ++ A)
    /\ exists docs w2,
         retrieve E query A top_k w1 = (Ok docs, w2)
         /\ forall d, In d docs ->
              exists entries c,
                vstore w !! ("session_" ++ A) = Some entries
                /\ In c entries /\ document c = d.
Proof.
  intros Hnearest Hcanon.
  destruct (returns_process_file E B file_path file_name file_type w)
    as (ok & w1 & Hrun).
  assert (Hkept : vstore w1 !! ("session_" ++ A) = vstore w !! ("session_" ++ A)).
  { pose proof (process_file_frame E B file_path file_name file_type) as Hframe.
    destruct (uuid_canonical E B) as [c|].
    - apply (Hframe _ _ _ Hrun).
      intros Heq. apply session_name_inj in Heq. congruence.
    - apply (f_equal (fun vs => vs !! ("session_" ++ A))), (Hframe _ _ _ Hrun). }
  exists ok, w1. split; [exact Hrun|]. split; [exact Hkept|].
  destruct (returns_retrieve E query A top_k w1) as (docs & w2 & Hret).
  exists docs, w2. split; [exact Hret|].
  intros d Hd.
  destruct (retrieve_reads_own_collection E query A top_k w1 docs w2 Hnearest Hret d Hd)
    as (entries & c & Hlook & Hin & Hdoc).
  exists entries, c. rewrite <- Hkept. auto.
Qed.

(** C1.  Let [A] and [B] be two distinct session ids, [B] spelled as
    [create_session] mints ids, which is the canonical form [uuid.UUID]
    prints (or [B] no UUID at all, which [process_file] rejects).
    Ingesting a file under [B] returns without raising and leaves the
    collection that queries for [A] read exactly as it was; and, the index
    returning entries of the collection it is asked about, every text a
    later query for [A] returns is the text of an entry that was in [A]'s
    collection before that ingestion, so none of the chunks ingested under
    [B] is returned. *)
Theorem retrieve_isolated_from_other_session (E : Env)
    (query A B file_path file_name file_type : string) (top_k : nat) (w : World) :
  (forall t q k entries hits,
      nearest E t q k entries = Ok hits -> incl hits entries) ->
  A <> B ->
  (forall c, uuid_canonical E B = Some c -> c = B) ->
  exists ok w1,
    process_file E B file_path file_name file_type w = (Ok ok, w1)
    /\ vstore w1 !! ("session_" ++ A) = vstore w !! ("session_" ++ A)
    /\ exists docs w2,
         retrieve E query A top_k w1 = (Ok docs, w2)
         /\ forall d, In d docs ->
              exists entries c,
                vstore w !! ("session_" ++ A) = Some entries
                /\ In c entries /\ document c = d.
Proof.
  intros Hnearest Hdistinct Hcanon.
  apply retrieve_after_ingestion; [exact Hnearest|].
  intros HB. apply Hdistinct. now apply Hcanon.
Qed.

(** Session [sid_lower] holds the one page of its own file; a file is then
    ingested under [sid_other], and the query for [sid_lower] returns its
    own page and nothing else. *)
Lemma retrieve_isolated_witness :
  sid_lower <> sid_other
  /\ (forall c, uuid_canonical paged_env sid_other = Some c -> c = sid_other)
  /\ exists ok w1 docs w2,
       process_file paged_env sid_other "/data/b.txt" "b.txt" "txt" one_file_world
       = (Ok ok, w1)
       /\ ok = true
       /\ retrieve paged_env "question" sid_lower 5 w1 = (Ok docs, w2)
       /\ docs = ["/data/a.txt"].
Proof.
  assert (Hcanon : forall c, uuid_canonical paged_env sid_other = Some c ->
                             c = sid_other)
    by (intros c [= <-]; reflexivity).
  split; [discriminate|]. split; [exact Hcanon|].
  destruct (retrieve_isolated_from_other_session paged_env "question" sid_lower
              sid_other "/data/b.txt" "b.txt" "txt" 5 one_file_world)
    as (ok & w1 & Hrun & _ & docs & w2 & Hret & _).
  - intros t q k entries hits [= <-] x. apply In_firstn.
  - discriminate.
  - exact Hcanon.
  - exists ok, w1, docs, w2. split; [exact Hrun|].
    assert (Hw1 : w1 = snd (process_file paged_env sid_other "/data/b.txt" "b.txt"
                                         "txt" one_file_world))
      by now rewrite Hrun.
    split; [apply (f_equal fst) in Hrun; cbn [fst] in Hrun;
            vm_compute in Hrun; now injection Hrun|].
    split; [exact Hret|].
    apply (f_equal fst) in Hret. cbn [fst] in Hret. rewrite Hw1 in Hret.
    vm_compute in Hret. now injection Hret.
Defined.

(** ** The message log under a healthy database *)

#[local] Instance quiet_preorder : PreOrder quiet.
Proof.
  split; [intros w; now split|].
  intros a b c [Hm1 Hv1] [Hm2 Hv2]. split; congruence.
Qed.

Lemma quiet_next_tick : steps quiet next_tick.
Proof. intros w r w' [= <- <-]. now split. Qed.

Lemma quiet_emit ev : steps quiet (emit ev).
Proof. intros w r w' [= <- <-]. now split. Qed.

Lemma quiet_generate_text E prompt max_tokens temperature :
  steps quiet (generate_text E prompt max_tokens temperature).
Proof.
  intros w r w' Hrun.
  destruct (generate_text_returns E prompt max_tokens temperature w) as (t & Hg & _).
  rewrite Hg in Hrun. injection Hrun as <- <-. now split.
Qed.

Lemma quiet_get_messages E sid limit : steps quiet (get_messages E sid limit).
Proof.
  unfold get_messages, db_get_messages.
  repeat first [ apply quiet_next_tick | steps_step ].
Qed.

Lemma quiet_sql_update_title E new_title sid :
  steps quiet (sql_update_title E new_title sid).
Proof.
  unfold sql_update_title.
  repeat first [ apply quiet_next_tick
               | apply steps_modify; intros; now split
               | steps_step ].
Qed.

Lemma quiet_auto_rename_session E sid : steps quiet (auto_rename_session E sid).
Proof.
  unfold auto_rename_session.
  repeat first [ apply quiet_emit
               | apply quiet_get_messages
               | apply quiet_generate_text
               | apply quiet_sql_update_title
               | steps_step ].
Qed.

Lemma returns_get_messages E sid limit w : returns (get_messages E sid limit) w.
Proof.
  unfold get_messages. apply returns_try_except. intros. apply returns_ret.
Qed.

Lemma returns_auto_rename_session E sid w : returns (auto_rename_session E sid) w.
Proof.
  unfold auto_rename_session. apply returns_bind.
  - unfold emit, modify. eexists _, _. reflexivity.
  - intros. apply returns_try_except. intros. apply returns_ret.
Qed.

Lemma quiet_rename_check E sid role : steps quiet (rename_check E sid role).
Proof.
  unfold rename_check.
  repeat first [ apply quiet_get_messages
               | apply quiet_auto_rename_session
               | steps_step ].
Qed.

Lemma returns_rename_check E sid role w : returns (rename_check E sid role) w.
Proof.
  unfold rename_check. destruct (String.eqb role "assistant").
  - apply returns_bind; [apply returns_get_messages|].
    intros msgs w'. destruct (length msgs =? 2)%nat.
    + apply returns_bind; [apply returns_auto_rename_session|intros; apply returns_ret].
    + apply returns_ret.
  - apply returns_ret.
Qed.

Lemma add_message_accepted E sid role content w :
  sql_ok E (S (tick w)) = true ->
  add_message E sid role content w
  = (let (r, w') := rename_check E sid role (inserted E sid role content w) in
     match r with
     | Ok _ => (Ok true, w')
     | Raise _ => (Ok false, w')
     end).
Proof.
  intros Hok.
  change (add_message E sid role content)
    with (try_except
            (let* ts_tick := next_tick in
             let* success := db_add_message E sid role content (now E ts_tick) in
             (if success then rename_check E sid role else ret tt) ;;
             ret success)
            (fun _ => ret false)).
  unfold inserted, db_add_message. unfold_monad. cbn -[rename_check].
  rewrite Hok. cbn -[rename_check].
  destruct (rename_check E sid role _) as [[[]|e] w']; reflexivity.
Qed.

Lemma add_message_refused E sid role content w :
  sql_ok E (S (tick w)) = false ->
  add_message E sid role content w
  = (Ok false, with_tick (S (S (tick w))) w).
Proof.
  intros Hok. unfold add_message, db_add_message, sql_failed.
  unfold_monad. cbn. rewrite Hok.
  destruct (sql_connected E (S (tick w))); reflexivity.
Qed.

(** Under a database that accepts the insert, [add_message] returns [True]
    and the message table has grown by exactly the new row. *)
Lemma add_message_appends E sid role content w :
  sql_ok E (S (tick w)) = true ->
  exists w',
    add_message E sid role content w = (Ok true, w')
    /\ messages w' = (messages w ++ [mkMsg sid role content (now E (tick w))])%list
    /\ vstore w' = vstore w.
Proof.
  intros Hok. rewrite (add_message_accepted E sid role content w Hok).
  destruct (returns_rename_check E sid role (inserted E sid role content w))
    as ([] & w' & Hrun).
  rewrite Hrun. exists w'. split; [reflexivity|].
  destruct (quiet_rename_check E sid role _ _ _ Hrun) as [Hm Hv].
  now rewrite Hm, Hv.
Qed.

(** ** A weakest-precondition reading of the monad *)

Lemma run_elim {A} (m : M A) w Q :
  run m w Q -> exists r w', m w = (r, w') /\ Q r w'.
Proof. unfold run. destruct (m w) as [r w']. now exists r, w'. Qed.

Lemma run_of_eq {A} (m : M A) w r w' (Q : result A -> World -> Prop) :
  m w = (r, w') -> Q r w' -> run m w Q.
Proof. unfold run. now intros ->. Qed.

Lemma run_consequence {A} (m : M A) w (Q Q' : result A -> World -> Prop) :
  run m w Q -> (forall r w', Q r w' -> Q' r w') -> run m w Q'.
Proof. unfold run. auto. Qed.

Lemma run_ret {A} (a : A) w (Q : result A -> World -> Prop) :
  Q (Ok a) w -> run (ret a) w Q.
Proof. auto. Qed.

Lemma run_bind {A B} (m : M A) (k : A -> M B) w (Q : result B -> World -> Prop) :
  run m w (fun r w' =>
             match r with
             | Ok a => run (k a) w' Q
             | Raise e => Q (Raise e) w'
             end) ->
  run (bind m k) w Q.
Proof. unfold run, bind. destruct (m w) as [[a|e] w']; auto. Qed.

Lemma run_try_except {A} (m : M A) (h : exn -> M A) w
    (Q : result A -> World -> Prop) :
  run m w (fun r w' =>
             match r with
             | Ok a => Q (Ok a) w'
             | Raise e => run (h e) w' Q
             end) ->
  run (try_except m h) w Q.
Proof. unfold run, try_except. destruct (m w) as [[a|e] w']; auto. Qed.

Lemma run_steps {A} (R : relation World) (m : M A) w
    (Q : result A -> World -> Prop) :
  steps R m -> (forall r w', R w w' -> Q r w') -> run m w Q.
Proof.
  intros Hm HQ. unfold run. destruct (m w) as [r w'] eqn:Hrun.
  apply HQ. eapply Hm, Hrun.
Qed.

#[local] Instance same_messages_preorder : PreOrder same_messages.
Proof.
  split; [intros w; reflexivity|].
  intros a b c Hab Hbc. unfold same_messages in *. congruence.
Qed.






Lemma run_add_message E sid role content w (Q : result bool -> World -> Prop) :
  (forall t, sql_ok E t = true) ->
  (forall w',
      messages w' = (messages w ++ [mkMsg sid role content (now E (tick w))])%list ->
      Q (Ok true) w') ->
  run (add_message E sid role content) w Q.
Proof.
  intros Hsql HQ.
  destruct (add_message_appends E sid role content w (Hsql _)) as (w' & Hrun & Hm & _).
  eapply run_of_eq; eauto.
Qed.

(** ** C7: the status entries of an ingestion *)


Lemma run_add_message_any E sid role content w (Q : result bool -> World -> Prop) :
  (forall w',
      messages w'
      = (messages w
         ++ stored E [(S (tick w), mkMsg sid role content (now E (tick w)))])%list ->
      Q (Ok (sql_ok E (S (tick w)))) w') ->
  run (add_message E sid role content) w Q.
Proof.
  intros HQ. unfold stored in HQ. cbn [List.filter map fst snd] in HQ.
  destruct (sql_ok E (S (tick w))) eqn:Hok.
  - destruct (add_message_appends E sid role content w Hok) as (w' & Hrun & Hm & _).
    eapply run_of_eq; [exact Hrun|]. apply HQ. exact Hm.
  - eapply run_of_eq; [apply add_message_refused; exact Hok|].
    apply HQ. cbn. now rewrite app_nil_r.
Qed.



Lemma run_raise {A} (e : exn) w (Q : result A -> World -> Prop) :
  Q (Raise e) w -> run (raise e) w Q.
Proof. auto. Qed.

Lemma run_next_tick w (Q : result nat -> World -> Prop) :
  Q (Ok (tick w)) (with_tick (S (tick w)) w) -> run next_tick w Q.
Proof. auto. Qed.

Lemma run_steps_returns {A} (R : relation World) (m : M A) w
    (Q : result A -> World -> Prop) :
  steps R m -> returns m w -> (forall a w', R w w' -> Q (Ok a) w') -> run m w Q.
Proof.
  intros Hm (a & w' & Hrun) HQ. eapply run_of_eq; [exact Hrun|].
  apply HQ. eapply Hm, Hrun.
Qed.



Ltac run_rets :=
  cbv beta iota;
  repeat (first [apply run_ret | apply run_raise]; cbv beta iota).

Ltac run_message Hsql w Hm :=
  apply run_bind, run_add_message; [exact Hsql|]; intros w Hm; run_rets.




(** Each entry stands or falls with its own insert: when the database
    refuses the insert of the start entry and nothing else, the ingestion
    succeeds and the log holds the terminal entry alone. *)
Example status_entry_refused_alone :
  exists w1,
    process_file tick_one_refused_env sid_lower "/data/notes.txt" "notes.txt"
                 "txt" empty_world
    = (Ok true, w1)
    /\ map (fun m => (m_role m, m_content m)) (messages w1)
       = [("assistant", success_entry "notes.txt" 1)].
Proof. eexists. split; vm_compute; reflexivity. Qed.


(** ** C5: the welcome message *)

Lemma order_by_head {A} (le : A -> A -> bool) (x : A) (rest : list A) :
  Forall (fun r => le x r = true) rest ->
  forall acc,
    exists tl,
      fold_left (fun acc r => insert_sorted le r acc) rest (x :: acc) = x :: tl.
Proof.
  induction 1 as [|r rest Hr Hrest IH]; intros acc; cbn.
  - now exists acc.
  - rewrite Hr. apply IH.
Qed.

Lemma filter_none {A} (p : A -> bool) (l : list A) :
  (forall x, In x l -> p x = false) -> List.filter p l = [].
Proof.
  induction l as [|y l IH]; intros Hl; cbn; [reflexivity|].
  rewrite (Hl y) by now left. apply IH. intros x Hx. apply Hl. now right.
Qed.

Lemma select_messages_fresh sid rows row later :
  (forall m, In m rows -> m_sid m <> sid) ->
  m_sid row = sid ->
  Forall (fun m => m_sid m = sid -> m_ts row <= m_ts m) later ->
  exists tl,
    select_messages sid None ((rows ++ [row]) ++ later) = row :: tl
    /\ (later = [] -> tl = []).
Proof.
  intros Hfresh Hrow Hlater. unfold select_messages, apply_limit, order_by.
  rewrite !List.filter_app.
  rewrite (filter_none _ rows).
  2:{ intros m Hm. apply String.eqb_neq. now apply Hfresh. }
  cbn [List.filter app]. rewrite (proj2 (String.eqb_eq _ _) Hrow).
  cbn [app fold_left insert_sorted].
  destruct (order_by_head (fun a b => (m_ts a <=? m_ts b)%nat) row
              (List.filter (fun r => String.eqb (m_sid r) sid) later)) with (acc := @nil MsgRow)
    as [tl Htl].
  - apply List.Forall_forall. intros m Hm. apply filter_In in Hm as [Hin Hsid].
    apply Nat.leb_le. rewrite List.Forall_forall in Hlater.
    apply Hlater; [exact Hin|]. now apply String.eqb_eq.
  - exists tl. split; [exact Htl|].
    intros ->. cbn in Htl. now injection Htl as <-.
Qed.

#[local] Instance same_tables_preorder : PreOrder same_tables.
Proof.
  split; [intros w; now split|].
  intros a b c [Hm1 Hs1] [Hm2 Hs2]. split; congruence.
Qed.

Lemma same_tables_count_sessions E phone : steps same_tables (count_sessions E phone).
Proof.
  unfold count_sessions, db_get_sessions.
  repeat first [ apply steps_ret; typeclasses eauto | steps_step ].
  intros w r w' [= <- <-]. now split.
Qed.

Lemma count_sessions_reads E phone w :
  sql_ok E (tick w) = true ->
  count_sessions E phone w
  = (Ok (length (select_sessions phone (sessions w))), with_tick (S (tick w)) w).
Proof.
  intros Hok. unfold count_sessions, db_get_sessions. unfold_monad. cbn.
  now rewrite Hok.
Qed.

Lemma returns_count_sessions E phone w :
  sql_ok E (tick w) = true -> returns (count_sessions E phone) w.
Proof. intros Hok. eexists _, _. now apply count_sessions_reads. Qed.

Lemma run_db_create_session E sid phone title created w
    (Q : result bool -> World -> Prop) :
  sql_ok E (tick w) = true ->
  (forall s, In s (sessions w) -> s_sid s <> sid) ->
  Q (Ok true)
    (mkWorld (S (tick w)) (messages w)
             (sessions w ++ [mkSession sid phone title created])
             (vstore w) (trace w)) ->
  run (db_create_session E sid phone title created) w Q.
Proof.
  intros Hok Hfresh HQ. unfold run, db_create_session. unfold_monad. cbn.
  rewrite Hok.
  assert (Hex : existsb (fun s => String.eqb (s_sid s) sid) (sessions w) = false).
  { apply not_true_is_false. intros Hex. apply existsb_exists in Hex as (s & Hin & Heq).
    apply String.eqb_eq in Heq. exact (Hfresh s Hin Heq). }
  rewrite Hex. cbn. exact HQ.
Qed.

(** The ways [count_sessions] and [db_create_session] can come out,
    whatever the database does. *)
Lemma run_count_sessions_any E phone w (Q : result nat -> World -> Prop) :
  (forall r, Q r (with_tick (S (tick w)) w)) ->
  run (count_sessions E phone) w Q.
Proof.
  intros HQ. unfold run, count_sessions, db_get_sessions, sql_failed.
  unfold_monad. cbn.
  destruct (sql_ok E (tick w)); [apply HQ|].
  destruct (sql_connected E (tick w)); apply HQ.
Qed.

Lemma run_db_create_session_any E sid phone title created w
    (Q : result bool -> World -> Prop) :
  Q (Ok true)
    (mkWorld (S (tick w)) (messages w)
             (sessions w ++ [mkSession sid phone title created])
             (vstore w) (trace w)) ->
  (forall r, r <> Ok true -> Q r (with_tick (S (tick w)) w)) ->
  run (db_create_session E sid phone title created) w Q.
Proof.
  intros Hyes Hno. unfold run, db_create_session, sql_failed.
  unfold_monad. cbn.
  destruct (sql_ok E (tick w)).
  - destruct (existsb _ _); cbn; [now apply Hno|exact Hyes].
  - destruct (sql_connected E (tick w)); now apply Hno.
Qed.

(** What [create_session] leaves when it returns an id: the id is the one
    drawn at entry, and the message table has grown by the welcome message
    when the insert of that message is accepted, and not at all when it is
    refused. *)
Lemma create_session_returns_id E phone title w sid w1 :
  create_session E phone title w = (Ok sid, w1) ->
  sid <> EmptyString ->
  sid = uuid4 E (tick w)
  /\ exists ts,
       messages w1
       = (messages w
          ++ if sql_ok E (welcome_insert_tick title w)
             then [mkMsg sid "assistant" Config.new_session_created ts]
             else [])%list.
Proof.
  intros Hrun Hsid.
  assert (Hmain : run (create_session E phone title) w
            (fun r w1 =>
               forall sid, r = Ok sid -> sid <> EmptyString ->
                 sid = uuid4 E (tick w)
                 /\ exists ts,
                      messages w1
                      = (messages w
                         ++ if sql_ok E (welcome_insert_tick title w)
                            then [mkMsg sid "assistant" Config.new_session_created ts]
                            else [])%list)).
  { unfold create_session. apply run_bind, run_next_tick.
    apply run_bind.
    assert (Htitle : forall (Q : result string -> World -> Prop),
               (forall r,
                   Q r (with_tick (tick w + (if Py.falsy title then 2 else 1)) w)) ->
               run (match title with
                    | Some t =>
                        if String.eqb t EmptyString
                        then (let* session_count := count_sessions E phone in
                              ret ("会话" ++ pretty (session_count + 1)))
                        else ret t
                    | None =>
                        let* session_count := count_sessions E phone in
                        ret ("会话" ++ pretty (session_count + 1))
                    end) (with_tick (S (tick w)) w) Q).
    { assert (Hw : with_tick (S (tick (with_tick (S (tick w)) w)))
                             (with_tick (S (tick w)) w)
                   = with_tick (tick w + 2) w)
        by (unfold with_tick; cbn; f_equal; lia).
      assert (Hplain : with_tick (S (tick w)) w = with_tick (tick w + 1) w)
        by (unfold with_tick; f_equal; lia).
      intros Q.
      destruct title as [t|]; cbn [Py.falsy];
        [destruct (String.eqb t EmptyString)|]; intros HQ.
      - apply run_bind, run_count_sessions_any.
        intros [k|e]; [apply run_ret|]; rewrite Hw; apply HQ.
      - apply run_ret. rewrite Hplain. apply HQ.
      - apply run_bind, run_count_sessions_any.
        intros [k|e]; [apply run_ret|]; rewrite Hw; apply HQ. }
    apply Htitle. intros [title'|e]; [|intros; discriminate].
    set (n := if Py.falsy title then 2 else 1).
    apply run_bind, run_next_tick. cbn [tick with_tick].
    apply run_bind, run_db_create_session_any.
    2:{ intros [[]|e] Hr; [congruence| |]; intros sid' Heq; [|discriminate].
        injection Heq as <-. intros Hne. now destruct Hne. }
    cbv beta iota. cbn [tick messages sessions vstore trace with_tick].
    apply run_bind, run_add_message_any. cbn [tick messages].
    assert (Htick : S (S (S (tick w + n))) = welcome_insert_tick title w).
    { unfold welcome_insert_tick, n. destruct (Py.falsy title); lia. }
    rewrite Htick. unfold stored. cbn [List.filter map fst snd].
    intros w3 Hm3. run_rets. intros sid' [= <-] _.
    split; [reflexivity|].
    eexists. rewrite Hm3.
    destruct (sql_ok E (welcome_insert_tick title w)); reflexivity. }
  apply run_elim in Hmain. destruct Hmain as (r & w1' & Hrun' & HQ).
  rewrite Hrun in Hrun'. injection Hrun' as <- <-. now apply HQ.
Qed.

(** C5, as amended.  Take any call of [create_session] that returns an
    id, whatever the database did with the statements before (the count of
    the user's sessions among them), the id being freshly minted (no
    message carries it yet).  When the database accepts the insert of the
    welcome message, the log of the new session is, when [create_session]
    returns, exactly the welcome message, with role "assistant": it was
    appended inside [create_session], before any other message of that
    session could be.  It stays the first message of the
    timestamp-ascending log whatever rows are appended afterwards, as long
    as none of the session's later rows carries an earlier timestamp.
    When the database refuses that insert, the session starts with an
    empty log. *)
Theorem create_session_welcome_first (E : Env) (phone : string)
    (title : option string) (w : World) (sid : string) (w1 : World) :
  create_session E phone title w = (Ok sid, w1) ->
  sid <> EmptyString ->
  (forall m, In m (messages w) -> m_sid m <> sid) ->
  (sql_ok E (welcome_insert_tick title w) = true ->
   exists ts,
     select_messages sid None (messages w1)
     = [mkMsg sid "assistant" Config.new_session_created ts]
     /\ forall later,
          Forall (fun m => m_sid m = sid -> ts <= m_ts m) later ->
          exists tl,
            select_messages sid None (messages w1 ++ later)
            = mkMsg sid "assistant" Config.new_session_created ts :: tl)
  /\ (sql_ok E (welcome_insert_tick title w) = false ->
      select_messages sid None (messages w1) = []).
Proof.
  intros Hrun Hsid Hfresh.
  destruct (create_session_returns_id E phone title w sid w1 Hrun Hsid)
    as (_ & ts & Hm).
  split; intros Hins; rewrite Hins in Hm.
  - exists ts. split.
    + destruct (select_messages_fresh sid (messages w)
                  (mkMsg sid "assistant" Config.new_session_created ts) [])
        as (tl & Hsel & Htl); [exact Hfresh|reflexivity|constructor|].
      rewrite app_nil_r in Hsel. rewrite Hm, Hsel, Htl; reflexivity.
    + intros later Hlater.
      destruct (select_messages_fresh sid (messages w)
                  (mkMsg sid "assistant" Config.new_session_created ts) later)
        as (tl & Hsel & _); [exact Hfresh|reflexivity|exact Hlater|].
      exists tl. rewrite Hm. exact Hsel.
  - rewrite Hm, app_nil_r. unfold select_messages, apply_limit.
    rewrite (filter_none _ (messages w)); [reflexivity|].
    intros m Hin. apply String.eqb_neq. now apply Hfresh.
Qed.

(** The database fails the count of the user's sessions (tick 1) and
    accepts everything after it: the session is created under the title
    of a first session, with the welcome message as its log. *)
Lemma create_session_welcome_witness :
  exists sid w1 ts,
    create_session tick_one_refused_env "13800000000" None empty_world = (Ok sid, w1)
    /\ sid <> EmptyString
    /\ (forall m, In m (messages empty_world) -> m_sid m <> sid)
    /\ sql_ok tick_one_refused_env 1 = false
    /\ sql_ok tick_one_refused_env (welcome_insert_tick None empty_world) = true
    /\ select_messages sid None (messages w1)
       = [mkMsg sid "assistant" Config.new_session_created ts].
Proof.
  destruct (create_session tick_one_refused_env "13800000000" None empty_world)
    as [r w1] eqn:Hrun.
  assert (Hr : r = Ok (uuid4 tick_one_refused_env 0))
    by (pose proof (f_equal fst Hrun) as Hfst; cbn [fst] in Hfst;
        rewrite <- Hfst; vm_compute; reflexivity).
  subst r.
  assert (Hsid : uuid4 tick_one_refused_env 0 <> EmptyString) by discriminate.
  assert (Hfresh : forall m, In m (messages empty_world) ->
                             m_sid m <> uuid4 tick_one_refused_env 0)
    by (intros m []).
  destruct (create_session_welcome_first tick_one_refused_env "13800000000" None
              empty_world (uuid4 tick_one_refused_env 0) w1 Hrun Hsid Hfresh)
    as [Hyes _].
  destruct (Hyes eq_refl) as (ts & Hlog & _).
  exists (uuid4 tick_one_refused_env 0), w1, ts.
  repeat split; try assumption; reflexivity.
Defined.

(** C5 as stated fails in two ways.  When the database accepts the session
    row but refuses the welcome insert, [create_session] still returns the
    new id and the session has no welcome message: the first message then
    is whatever is added next.  And since the log is ordered by wall-clock
    timestamps, a later message stamped earlier than the welcome message
    comes before it. *)
Lemma welcome_missing_or_displaced :
  (exists sid w1 w2,
      create_session refusing_env "13800000000" None empty_world = (Ok sid, w1)
      /\ sid <> EmptyString
      /\ select_messages sid None (messages w1) = []
      /\ add_message refusing_env sid "user" "hello" w1 = (Ok true, w2)
      /\ map m_role (select_messages sid None (messages w2)) = ["user"])
  /\ (exists sid w1 w2,
        create_session backward_clock_env "13800000000" None empty_world
        = (Ok sid, w1)
        /\ add_message backward_clock_env sid "user" "hello" w1 = (Ok true, w2)
        /\ map m_role (select_messages sid None (messages w2))
           = ["user"; "assistant"]).
Proof.
  split.
  - eexists _, _, _. split; [vm_compute; reflexivity|].
    split; [discriminate|]. split; [vm_compute; reflexivity|].
    split; vm_compute; reflexivity.
  - eexists _, _, _. split; [vm_compute; reflexivity|].
    split; vm_compute; reflexivity.
Qed.

(** ** C4: the trigger of the automatic rename *)

(** C4, at the first exchange of a session made by [create_session].  The
    welcome message is the session's first row, so after the first user
    turn and the first reply the session holds three messages, not two:
    the test [len(messages) == 2] fails and [auto_rename_session] is not
    entered, neither then nor at any earlier insert. *)
Theorem first_exchange_never_renames :
  exists sid w1 w2 w3,
    create_session calm_env "13800000000" None empty_world = (Ok sid, w1)
    /\ add_message calm_env sid "user" "hello" w1 = (Ok true, w2)
    /\ add_message calm_env sid "assistant" "hi there" w2 = (Ok true, w3)
    /\ map m_role (select_messages sid None (messages w3))
       = ["assistant"; "user"; "assistant"]
    /\ rename_count sid (trace w3) = 0.
Proof.
  eexists _, _, _, _. split; [vm_compute; reflexivity|].
  split; [vm_compute; reflexivity|]. split; [vm_compute; reflexivity|].
  split; vm_compute; reflexivity.
Qed.

(** ** C8: a session id that is not a UUID *)

(** C8, at a session id that is not a UUID.  [process_message] creates a
    fresh session, but goes on with the id it was given: the user turn and
    the reply are stored under that id, which is also the id it returns,
    and the fresh session holds nothing but its welcome message. *)
Theorem invalid_sid_turns_miss_fresh_session :
  exists fresh history w1,
    process_message calm_env "hello" "not-a-uuid" "13800000000" [] empty_world
    = (Ok (history, "not-a-uuid"), w1)
    /\ map s_sid (sessions w1) = [fresh]
    /\ fresh <> "not-a-uuid"
    /\ map (fun m => (m_role m, m_content m))
           (select_messages fresh None (messages w1))
       = [("assistant", Config.new_session_created)]
    /\ map (fun m => (m_role m, m_content m))
           (select_messages "not-a-uuid" None (messages w1))
       = [("user", "hello"); ("assistant", "A")].
Proof.
  eexists _, _, _. split; [vm_compute; reflexivity|].
  split; [vm_compute; reflexivity|]. split; [discriminate|].
  split; vm_compute; reflexivity.
Qed.

(** ** When the automatic rename fires *)

#[local] Instance same_trace_preorder : PreOrder same_trace.
Proof.
  split; [intros w; reflexivity|].
  intros a b c Hab Hbc. unfold same_trace in *. congruence.
Qed.

Lemma same_trace_next_tick : steps same_trace next_tick.
Proof. intros w r w' [= <- <-]. reflexivity. Qed.

Lemma same_trace_generate_text E prompt max_tokens temperature :
  steps same_trace (generate_text E prompt max_tokens temperature).
Proof.
  intros w r w' Hrun.
  destruct (generate_text_returns E prompt max_tokens temperature w) as (t & Hg & _).
  rewrite Hg in Hrun. injection Hrun as <- <-. reflexivity.
Qed.

Lemma same_trace_get_messages E sid limit :
  steps same_trace (get_messages E sid limit).
Proof.
  unfold get_messages, db_get_messages.
  repeat first [ apply same_trace_next_tick | steps_step ].
Qed.

Lemma same_trace_sql_update_title E new_title sid :
  steps same_trace (sql_update_title E new_title sid).
Proof.
  unfold sql_update_title.
  repeat first [ apply same_trace_next_tick
               | apply steps_modify; intros; reflexivity
               | steps_step ].
Qed.

Lemma auto_rename_session_trace E sid w :
  exists renamed w',
    auto_rename_session E sid w = (Ok renamed, w')
    /\ trace w' = (trace w ++ [EvRename sid])%list
    /\ messages w' = messages w.
Proof.
  destruct (returns_auto_rename_session E sid w) as (renamed & w' & Hrun).
  exists renamed, w'. split; [exact Hrun|].
  split; [|exact (proj1 (quiet_auto_rename_session E sid _ _ _ Hrun))].
  revert Hrun. unfold auto_rename_session. unfold bind at 1, emit, modify.
  match goal with
  | |- try_except ?body ?h ?w0 = _ -> _ =>
      assert (Hsteps : steps same_trace (try_except body h))
  end.
  { repeat first [ apply same_trace_get_messages
                 | apply same_trace_generate_text
                 | apply same_trace_sql_update_title
                 | steps_step ]. }
  intros Hrun. apply Hsteps in Hrun. exact Hrun.
Qed.

Lemma rename_count_app s tr tr' :
  rename_count s (tr ++ tr') = rename_count s tr + rename_count s tr'.
Proof. unfold rename_count. now rewrite List.filter_app, length_app. Qed.

Lemma get_messages_reads E sid limit w :
  get_messages E sid limit w
  = (Ok (if sql_ok E (tick w) then select_messages sid limit (messages w) else []),
     with_tick (S (tick w)) w).
Proof.
  unfold get_messages, db_get_messages, sql_failed. unfold_monad. cbn.
  destruct (sql_ok E (tick w)); [reflexivity|].
  destruct (sql_connected E (tick w)); reflexivity.
Qed.

Lemma add_message_effect (E : Env) (sid role content : string)
    (w : World) :
  exists w',
    add_message E sid role content w = (Ok (sql_ok E (S (tick w))), w')
    /\ messages w'
       = (if sql_ok E (S (tick w))
          then messages w ++ [mkMsg sid role content (now E (tick w))]
          else messages w)%list
    /\ trace w'
       = (if rename_fires E sid role content w
          then trace w ++ [EvRename sid]
          else trace w)%list.
Proof.
  unfold rename_fires.
  destruct (sql_ok E (S (tick w))) eqn:Hins.
  2:{ rewrite (add_message_refused E sid role content w Hins).
      eexists. split; [reflexivity|]. split; reflexivity. }
  rewrite (add_message_accepted E sid role content w Hins).
  unfold rename_check. cbn [andb].
  destruct (String.eqb role "assistant").
  2:{ eexists. split; [reflexivity|]. split; reflexivity. }
  unfold bind at 1. rewrite get_messages_reads.
  cbn [inserted tick messages andb].
  destruct (sql_ok E (S (S (tick w)))); cbn [andb].
  2:{ eexists. split; [reflexivity|]. split; reflexivity. }
  destruct (length _ =? 2)%nat.
  2:{ eexists. split; [reflexivity|]. split; reflexivity. }
  unfold bind.
  destruct (auto_rename_session_trace E sid
              (with_tick (S (S (S (tick w)))) (inserted E sid role content w)))
    as (renamed & w' & Hrun & Htr & Hm).
  unfold inserted in *. rewrite Hrun.
  exists w'. split; [reflexivity|]. split; [exact Hm|exact Htr].
Qed.

(** [add_message] never raises; it returns whether the insert was accepted,
    appends the row exactly then, and enters [auto_rename_session] exactly
    when [rename_fires] holds: after an accepted insert of an
    assistant-role message that brings the session to two messages. *)
Theorem add_message_rename_trigger (E : Env) (sid role content : string)
    (w : World) :
  exists w',
    add_message E sid role content w = (Ok (sql_ok E (S (tick w))), w')
    /\ messages w'
       = (if sql_ok E (S (tick w))
          then messages w ++ [mkMsg sid role content (now E (tick w))]
          else messages w)%list
    /\ trace w'
       = (if rename_fires E sid role content w
          then trace w ++ [EvRename sid]
          else trace w)%list.
Proof. apply add_message_effect. Qed.

Lemma length_insert_sorted {A} (le : A -> A -> bool) (x : A) (l : list A) :
  length (insert_sorted le x l) = S (length l).
Proof.
  induction l as [|y l IH]; cbn; [reflexivity|].
  destruct (le y x); cbn; [now rewrite IH|reflexivity].
Qed.

Lemma length_order_by {A} (le : A -> A -> bool) (rows : list A) :
  length (order_by le rows) = length rows.
Proof.
  unfold order_by.
  assert (H : forall acc,
             length (fold_left (fun acc r => insert_sorted le r acc) rows acc)
             = length rows + length acc).
  { induction rows as [|r rows IH]; intros acc; cbn; [reflexivity|].
    rewrite IH, length_insert_sorted. lia. }
  rewrite H. cbn. lia.
Qed.

Lemma length_select_messages s w :
  length (select_messages s None (messages w)) = session_size s w.
Proof. unfold select_messages, session_size, apply_limit. apply length_order_by. Qed.

Lemma rename_count_one s sid :
  rename_count s [EvRename sid] = if String.eqb sid s then 1 else 0.
Proof. unfold rename_count. cbn. destruct (String.eqb sid s); reflexivity. Qed.

Lemma add_message_keeps_rename_invariant E s sid role content w ok w' :
  rename_invariant s w ->
  add_message E sid role content w = (Ok ok, w') ->
  rename_invariant s w'.
Proof.
  intros Hinv Hrun.
  destruct (add_message_effect E sid role content w)
    as (w'' & Hrun' & Hm & Htr).
  rewrite Hrun in Hrun'. injection Hrun' as Hok <-.
  assert (Hgrow : session_size s w <= session_size s w').
  { unfold session_size. rewrite Hm. destruct (sql_ok E (S (tick w))); [|lia].
    rewrite List.filter_app, length_app. lia. }
  unfold rename_invariant in *. rewrite Htr.
  destruct (rename_fires E sid role content w) eqn:Hfires.
  2:{ destruct Hinv as [H0|[H1 Hsize]]; [now left|right; split; [exact H1|lia]]. }
  rewrite rename_count_app, rename_count_one.
  destruct (String.eqb sid s) eqn:Hsid.
  2:{ rewrite Nat.add_0_r.
      destruct Hinv as [H0|[H1 Hsize]]; [now left|right; split; [exact H1|lia]]. }
  apply String.eqb_eq in Hsid. subst sid.
  unfold rename_fires in Hfires.
  apply andb_prop in Hfires as [Hfires Hlen].
  apply andb_prop in Hfires as [Hfires _].
  apply andb_prop in Hfires as [Hins _].
  apply Nat.eqb_eq in Hlen.
  assert (Hsize' : session_size s w' = 2).
  { rewrite <- length_select_messages, Hm, Hins. exact Hlen. }
  assert (Hsize : session_size s w = 1).
  { unfold session_size in *. rewrite Hm, Hins, List.filter_app, length_app in Hsize'.
    cbn in Hsize'. rewrite String.eqb_refl in Hsize'. cbn in Hsize'. lia. }
  destruct Hinv as [H0|[_ Hbig]]; [|lia].
  right. split; [rewrite H0; reflexivity|lia].
Qed.

(** Over any sequence of [add_message] calls, on any sessions and under
    any behaviour of the database and the clock, the automatic rename of a
    session is entered at most once. *)
Theorem rename_fires_at_most_once (E : Env) (s : string)
    (ops : list (string * string * string)) :
  forall w,
    rename_count s (trace w) = 0 ->
    exists w',
      add_messages E ops w = (Ok tt, w')
      /\ rename_count s (trace w') <= 1.
Proof.
  assert (Hgen : forall w, rename_invariant s w ->
                           exists w', add_messages E ops w = (Ok tt, w')
                                      /\ rename_invariant s w').
  { induction ops as [|[[sid role] content] ops IH]; intros w Hinv.
    - exists w. now split.
    - cbn [add_messages]. unfold bind.
      destruct (add_message_effect E sid role content w) as (w1 & Hrun & _).
      rewrite Hrun.
      apply IH. eapply add_message_keeps_rename_invariant; eauto. }
  intros w H0. destruct (Hgen w (or_introl H0)) as (w' & Hrun & Hinv).
  exists w'. split; [exact Hrun|].
  destruct Hinv as [->|[-> _]]; lia.
Qed.

#[local] Instance only_tick_preorder : PreOrder only_tick.
Proof.
  split.
  - intros [t m s v tr]. now exists t.
  - intros a b c [n ->] [n' ->]. now exists n'.
Qed.

Lemma only_tick_count_sessions E phone : steps only_tick (count_sessions E phone).
Proof.
  unfold count_sessions, db_get_sessions.
  repeat first [ apply steps_ret; typeclasses eauto | steps_step ].
  intros w r w' [= <- <-]. now exists (S (tick w)).
Qed.

Lemma create_session_effect E phone title w :
  (forall t, sql_ok E t = true) ->
  fresh_session (uuid4 E (tick w)) w ->
  exists w1 ts,
    create_session E phone title w = (Ok (uuid4 E (tick w)), w1)
    /\ messages w1
       = (messages w
          ++ [mkMsg (uuid4 E (tick w)) "assistant" Config.new_session_created ts])%list
    /\ trace w1 = trace w.
Proof.
  intros Hsql [Hfresh_s Hfresh_m].
  set (sid := uuid4 E (tick w)) in *.
  assert (Hrun : run (create_session E phone title) w
                   (fun r w1 =>
                      r = Ok sid
                      /\ (exists ts,
                             messages w1
                             = (messages w
                                ++ [mkMsg sid "assistant" Config.new_session_created ts])%list)
                      /\ trace w1 = trace w)).
  { unfold create_session. apply run_bind, run_next_tick. fold sid.
    apply run_bind.
    apply (run_steps_returns only_tick).
    - destruct title as [t|];
        [destruct (String.eqb t EmptyString)|];
        repeat first [ apply only_tick_count_sessions | steps_step ].
    - destruct title as [t|]; [destruct (String.eqb t EmptyString)|];
        try apply returns_ret;
        (apply returns_bind; [apply returns_count_sessions, Hsql|intros; apply returns_ret]).
    - intros title' w2 [n ->].
      apply run_bind, run_next_tick. apply run_bind, run_db_create_session.
      + apply Hsql.
      + exact Hfresh_s.
      + cbv beta iota. apply run_bind.
        match goal with
        | |- run (add_message E sid ?role ?content) ?w3 _ =>
            destruct (add_message_effect E sid role content w3)
              as (w4 & Hadd & Hm & Htr)
        end.
        eapply run_of_eq; [exact Hadd|]. rewrite Hsql in *.
        run_rets. split; [reflexivity|].
        split; [eexists; exact Hm|].
        rewrite Htr. unfold rename_fires. rewrite !Hsql. cbn [andb String.eqb].
        match goal with
        | |- context [select_messages ?s None (?rows ++ [?row])] =>
            destruct (select_messages_fresh s rows row []) as (tl & Hsel & Htl);
              [exact Hfresh_m|reflexivity|constructor|]
        end.
        rewrite app_nil_r in Hsel. cbn in Hsel |- *. rewrite Hsel, Htl; reflexivity. }
  apply run_elim in Hrun.
  destruct Hrun as (r & w1 & Hrun & -> & (ts & Hm) & Htr).
  now exists w1, ts.
Qed.

Lemma no_rename_from_two_messages E s ops :
  forall w,
    2 <= session_size s w ->
    exists w',
      add_messages E ops w = (Ok tt, w')
      /\ rename_count s (trace w') = rename_count s (trace w).
Proof.
  induction ops as [|[[sid role] content] ops IH]; intros w Hsize.
  - exists w. now split.
  - cbn [add_messages]. unfold bind.
    destruct (add_message_effect E sid role content w)
      as (w1 & Hrun & Hm & Htr).
    rewrite Hrun.
    assert (Hgrow : session_size s w <= session_size s w1).
    { unfold session_size. rewrite Hm. destruct (sql_ok E (S (tick w))); [|lia].
      rewrite List.filter_app, length_app. lia. }
    destruct (IH w1) as (w' & Hrest & Hcount); [lia|].
    exists w'. split; [exact Hrest|]. rewrite Hcount, Htr.
    destruct (rename_fires E sid role content w) eqn:Hfires; [|reflexivity].
    rewrite rename_count_app, rename_count_one.
    destruct (String.eqb sid s) eqn:Hsid; [|lia].
    apply String.eqb_eq in Hsid. subst sid. exfalso.
    unfold rename_fires in Hfires.
    apply andb_prop in Hfires as [Hfires Hlen].
    apply andb_prop in Hfires as [Hfires _].
    apply andb_prop in Hfires as [Hins _].
    apply Nat.eqb_eq in Hlen.
    assert (Hsize1 : session_size s w1 = 2).
    { rewrite <- length_select_messages, Hm, Hins. exact Hlen. }
    unfold session_size in Hsize1, Hsize.
    rewrite Hm, Hins, List.filter_app, length_app in Hsize1.
    cbn in Hsize1. rewrite String.eqb_refl in Hsize1. cbn in Hsize1. lia.
Qed.

(** C4, in general.  Under a database that accepts every statement, a
    session made by [create_session] holds its welcome message as row 1;
    once the first user turn is stored it holds two rows, and from then on
    no [add_message], the first reply included, finds exactly two: whatever
    is appended afterwards, [auto_rename_session] is never entered for the
    session. *)
Theorem created_session_is_never_renamed (E : Env) (phone : string)
    (title : option string) (user_text : string)
    (ops : list (string * string * string)) (w : World) :
  (forall t, sql_ok E t = true) ->
  fresh_session (uuid4 E (tick w)) w ->
  exists w1 w2 w3,
    create_session E phone title w = (Ok (uuid4 E (tick w)), w1)
    /\ add_message E (uuid4 E (tick w)) "user" user_text w1 = (Ok true, w2)
    /\ add_messages E ops w2 = (Ok tt, w3)
    /\ rename_count (uuid4 E (tick w)) (trace w3)
       = rename_count (uuid4 E (tick w)) (trace w).
Proof.
  intros Hsql Hfresh.
  destruct (create_session_effect E phone title w Hsql Hfresh)
    as (w1 & ts & Hcreate & Hm1 & Htr1).
  set (sid := uuid4 E (tick w)) in *.
  destruct (add_message_effect E sid "user" user_text w1)
    as (w2 & Huser & Hm2 & Htr2).
  rewrite Hsql in Huser, Hm2.
  assert (Hfires : rename_fires E sid "user" user_text w1 = false).
  { unfold rename_fires. rewrite !Hsql. reflexivity. }
  rewrite Hfires in Htr2.
  assert (Hsize : session_size sid w2 = 2).
  { unfold session_size. rewrite Hm2, Hm1, !List.filter_app, !length_app.
    rewrite (filter_none _ (messages w)).
    - cbn. rewrite String.eqb_refl. reflexivity.
    - intros m Hin. apply String.eqb_neq. now apply (proj2 Hfresh). }
  destruct (no_rename_from_two_messages E sid ops w2) as (w3 & Hops & Hcount); [lia|].
  exists w1, w2, w3. split; [exact Hcreate|]. split; [exact Huser|].
  split; [exact Hops|]. now rewrite Hcount, Htr2, Htr1.
Qed.

Lemma created_session_is_never_renamed_witness :
  (forall t, sql_ok calm_env t = true)
  /\ fresh_session (uuid4 calm_env 0) empty_world
  /\ exists w1 w2 w3,
       create_session calm_env "13800000000" None empty_world
       = (Ok (uuid4 calm_env 0), w1)
       /\ add_message calm_env (uuid4 calm_env 0) "user" "hello" w1 = (Ok true, w2)
       /\ add_messages calm_env [(uuid4 calm_env 0, "assistant", "hi there")] w2
          = (Ok tt, w3)
       /\ rename_count (uuid4 calm_env 0) (trace w3) = 0.
Proof.
  assert (Hfresh : fresh_session (uuid4 calm_env 0) empty_world)
    by (split; intros x []).
  split; [reflexivity|]. split; [exact Hfresh|].
  destruct (created_session_is_never_renamed calm_env "13800000000" None "hello"
              [(uuid4 calm_env 0, "assistant", "hi there")] empty_world
              (fun _ => eq_refl) Hfresh)
    as (w1 & w2 & w3 & H1 & H2 & H3 & H4).
  exists w1, w2, w3. repeat split; assumption.
Defined.

Lemma rename_fires_at_most_once_witness :
  rename_count "s" (trace empty_world) = 0
  /\ exists w',
       add_messages calm_env [("s", "user", "a"); ("s", "assistant", "b");
                              ("s", "assistant", "c")] empty_world
       = (Ok tt, w')
       /\ rename_count "s" (trace w') <= 1.
Proof.
  split; [reflexivity|].
  exact (rename_fires_at_most_once calm_env "s"
           [("s", "user", "a"); ("s", "assistant", "b"); ("s", "assistant", "c")]
           empty_world eq_refl).
Defined.

(** Without a welcome message the rename does fire, at the first reply. *)
Example rename_fires_without_welcome :
  exists w',
    add_messages calm_env [("s", "user", "a"); ("s", "assistant", "b");
                           ("s", "assistant", "c")] empty_world
    = (Ok tt, w')
    /\ rename_count "s" (trace w') = 1.
Proof. eexists. split; vm_compute; reflexivity. Qed.

(** ** Trimming *)

Lemma concat_app (a b : list string) :
  Py.concat (a ++ b) = Py.concat a ++ Py.concat b.
Proof.
  induction a as [|x a IH]; cbn [Py.concat app]; [reflexivity|].
  now rewrite IH, append_assoc.
Qed.

Lemma concat_chars s : Py.concat (Py.chars s) = s.
Proof.
  induction s as [|c s IH]; [reflexivity|]. cbn [Py.chars].
  destruct (Py.chars s) as [|[|d x] rest]; cbn [Py.concat] in *.
  - now rewrite <- IH.
  - now rewrite <- IH.
  - destruct (Py.is_continuation d); now rewrite <- IH.
Qed.

Lemma proper_char_shape g : proper_char g -> char_shape g.
Proof. destruct g; [tauto|]. now intros [_ H]. Qed.

Lemma char_run_tail g rest : char_run (g :: rest) -> char_run rest.
Proof.
  intros [_ Hrest]. destruct rest as [|h rest]; [exact I|].
  inversion Hrest; subst. split; [now apply proper_char_shape|assumption].
Qed.

Lemma chars_char_run s : char_run (Py.chars s).
Proof.
  induction s as [|c s IH]; [exact I|]. cbn [Py.chars].
  destruct (Py.chars s) as [|[|d x] rest].
  - split; [reflexivity|constructor].
  - destruct IH as [[] _].
  - destruct IH as [Hshape Hrest].
    destruct (Py.is_continuation d) eqn:Hd.
    + split; [|exact Hrest]. cbn. rewrite Hd. exact Hshape.
    + split; [reflexivity|]. constructor; [|exact Hrest]. now split.
Qed.

Lemma chars_char_cons c x rest :
  forallb Py.is_continuation (list_ascii_of_string x) = true ->
  Forall proper_char rest ->
  Py.chars (Py.concat rest) = rest ->
  Py.chars (String c x ++ Py.concat rest) = String c x :: rest.
Proof.
  revert c. induction x as [|d x IH]; intros c Hx Hrest Hchars.
  - rewrite append_cons, append_nil. cbn [Py.chars]. rewrite Hchars.
    destruct rest as [|[|e y] rest]; [reflexivity|reflexivity|].
    apply List.Forall_inv in Hrest. destruct Hrest as [He _]. now rewrite He.
  - cbn in Hx. apply andb_prop in Hx as [Hd Hx].
    rewrite append_cons. cbn [Py.chars].
    rewrite (IH d Hx Hrest Hchars), Hd. reflexivity.
Qed.

Lemma chars_concat l : char_run l -> Py.chars (Py.concat l) = l.
Proof.
  induction l as [|g rest IH]; intros Hrun; [reflexivity|].
  pose proof (char_run_tail _ _ Hrun) as Htail.
  destruct Hrun as [Hshape Hrest]. destruct g as [|c x]; [destruct Hshape|].
  cbn [Py.concat]. apply chars_char_cons; auto.
Qed.

Lemma drop_spaces_suffix cs : exists pre, cs = (pre ++ Py.drop_spaces cs)%list.
Proof.
  induction cs as [|g cs [pre IH]]; cbn [Py.drop_spaces].
  - now exists [].
  - destruct (Py.is_space g).
    + exists (g :: pre). cbn. congruence.
    + now exists [].
Qed.

Lemma drop_spaces_head cs g rest :
  Py.drop_spaces cs = g :: rest -> Py.is_space g = false.
Proof.
  induction cs as [|h cs IH]; cbn [Py.drop_spaces]; [discriminate|].
  destruct (Py.is_space h) eqn:Hh; [exact IH|]. now intros [= <- <-].
Qed.

(** What [strip] keeps is a run of consecutive characters of the string. *)
Lemma strip_chars_segment cs :
  exists pre post, cs = (pre ++ Py.strip_chars cs ++ post)%list.
Proof.
  unfold Py.strip_chars.
  destruct (drop_spaces_suffix cs) as [pre Hpre].
  destruct (drop_spaces_suffix (rev (Py.drop_spaces cs))) as [post Hpost].
  exists pre, (rev post).
  rewrite <- rev_app_distr, <- Hpost, rev_involutive. exact Hpre.
Qed.

Lemma char_run_app_l a b : char_run (a ++ b) -> char_run a.
Proof.
  destruct a as [|g a]; [intros; exact I|]. cbn. intros [Hg Hrest].
  split; [exact Hg|]. now apply Forall_app in Hrest as [Ha _].
Qed.

Lemma char_run_app_r a b : char_run (a ++ b) -> char_run b.
Proof.
  induction a as [|g a IH]; [auto|].
  intros H. apply IH. exact (char_run_tail _ _ H).
Qed.

Lemma strip_chars_run cs : char_run cs -> char_run (Py.strip_chars cs).
Proof.
  intros Hrun. destruct (strip_chars_segment cs) as (pre & post & Hseg).
  rewrite Hseg in Hrun.
  apply char_run_app_r in Hrun. now apply char_run_app_l in Hrun.
Qed.

Lemma chars_strip s : Py.chars (Py.strip s) = Py.strip_chars (Py.chars s).
Proof. apply chars_concat, strip_chars_run, chars_char_run. Qed.

Lemma strip_substring s : exists pre post, s = pre ++ Py.strip s ++ post.
Proof.
  destruct (strip_chars_segment (Py.chars s)) as (pre & post & Hseg).
  exists (Py.concat pre), (Py.concat post).
  rewrite <- (concat_chars s) at 1. rewrite Hseg at 1.
  now rewrite !concat_app.
Qed.

Lemma trimmed_strip s : trimmed (Py.strip s) = true.
Proof.
  unfold trimmed. rewrite chars_strip. unfold Py.strip_chars.
  rewrite rev_involutive.
  set (d := Py.drop_spaces (Py.chars s)).
  set (e := Py.drop_spaces (rev d)).
  destruct (hd_error (rev e)) as [a|] eqn:Ha; [|reflexivity].
  destruct e as [|b e'] eqn:He; [discriminate|]. cbn [hd_error].
  assert (Hb : Py.is_space b = false) by exact (drop_spaces_head _ _ _ He).
  assert (Hfa : Py.is_space a = false).
  { destruct (drop_spaces_suffix (rev d)) as [pre Hpre]. fold e in Hpre.
    rewrite He in Hpre.
    apply (f_equal (@rev string)) in Hpre.
    rewrite rev_involutive, rev_app_distr in Hpre.
    destruct (rev (b :: e')) as [|a' tl] eqn:Hrev; [discriminate|].
    injection Ha as ->. unfold d in Hpre.
    exact (drop_spaces_head _ _ _ Hpre). }
  now rewrite Hfa, Hb.
Qed.

(** ** The text-generation wrapper and the question predictor *)

(** [LLMUtils.generate_text] never raises and touches nothing (the world it
    leaves differs from the one it found by one consultation of the
    completion service).  What it returns is the service's text with the
    blanks around it stripped, the fixed apology when the service raises
    [openai.APIError], and the fixed error text when it raises anything
    else; in each case a string that neither begins nor ends with a
    blank. *)
Theorem generate_text_never_raises (E : Env) (prompt : string)
    (max_tokens : nat) (temperature : Q) (w : World) :
  exists text,
    generate_text E prompt max_tokens temperature w
    = (Ok text, with_tick (S (tick w)) w)
    /\ text = match completion E (tick w) prompt max_tokens temperature with
              | Ok out => Py.strip out
              | Raise APIError => llm_api_error
              | Raise _ => llm_other_error
              end
    /\ trimmed text = true.
Proof.
  unfold generate_text, chat_completions_create. unfold_monad.
  cbn [tick with_tick].
  destruct (completion E (tick w) prompt max_tokens temperature) as [out|e].
  - exists (Py.strip out). repeat split. apply trimmed_strip.
  - destruct e; eexists; (split; [reflexivity|]); split; reflexivity.
Qed.



(** ** [ORDER BY] sorts *)

Lemma insert_sorted_perm {A} (le : A -> A -> bool) (x : A) (l : list A) :
  Permutation (insert_sorted le x l) (x :: l).
Proof.
  induction l as [|y l IH]; cbn; [reflexivity|].
  destruct (le y x); [|reflexivity].
  rewrite IH. apply perm_swap.
Qed.

Lemma order_by_perm {A} (le : A -> A -> bool) (rows : list A) :
  Permutation (order_by le rows) rows.
Proof.
  unfold order_by.
  assert (H : forall acc,
             Permutation (fold_left (fun acc r => insert_sorted le r acc) rows acc)
                         (rows ++ acc)).
  { induction rows as [|r rows IH]; intros acc; cbn; [reflexivity|].
    rewrite IH, insert_sorted_perm. symmetry. apply Permutation_middle. }
  rewrite H, app_nil_r. reflexivity.
Qed.

Section Sorting.

Context {A : Type} (le : A -> A -> bool).
Hypothesis le_total : forall a b, le a b = false -> le b a = true.
Hypothesis le_trans : forall a b c, le a b = true -> le b c = true -> le a c = true.

Lemma insert_sorted_sorted (x : A) (l : list A) :
  StronglySorted (fun a b => le a b = true) l ->
  StronglySorted (fun a b => le a b = true) (insert_sorted le x l).
Proof.
  induction 1 as [|y l Hl IH Hy]; cbn.
  - constructor; constructor.
  - destruct (le y x) eqn:Hyx.
    + constructor; [exact IH|].
      rewrite (insert_sorted_perm le x l). constructor; assumption.
    + constructor; [constructor; assumption|].
      pose proof (le_total _ _ Hyx) as Hxy.
      constructor; [exact Hxy|].
      eapply List.Forall_impl; [|exact Hy]. intros z Hz. cbv beta in *.
      eapply le_trans; eauto.
Qed.

Lemma order_by_sorted (rows : list A) :
  StronglySorted (fun a b => le a b = true) (order_by le rows).
Proof.
  unfold order_by.
  assert (H : forall acc,
             StronglySorted (fun a b => le a b = true) acc ->
             StronglySorted (fun a b => le a b = true)
               (fold_left (fun acc r => insert_sorted le r acc) rows acc)).
  { induction rows as [|r rows IH]; intros acc Hacc; cbn; [exact Hacc|].
    apply IH, insert_sorted_sorted, Hacc. }
  apply H. constructor.
Qed.

End Sorting.

Lemma StronglySorted_weaken {A} (R R' : A -> A -> Prop) (l : list A) :
  (forall a b, R a b -> R' a b) -> StronglySorted R l -> StronglySorted R' l.
Proof.
  intros HR. induction 1 as [|x l Hl IH Hx]; constructor; [exact IH|].
  eapply List.Forall_impl; [|exact Hx]. intros y. apply HR.
Qed.

Lemma select_messages_sorted sid rows :
  StronglySorted (fun a b => m_ts a <= m_ts b) (select_messages sid None rows).
Proof.
  unfold select_messages, apply_limit.
  eapply StronglySorted_weaken; [|apply order_by_sorted].
  - intros a b Hab. cbv beta in Hab. now apply Nat.leb_le.
  - intros a b Hab. apply Nat.leb_gt in Hab. apply Nat.leb_le. lia.
  - intros a b c Hab Hbc. apply Nat.leb_le in Hab, Hbc. apply Nat.leb_le. lia.
Qed.

(** [ChatManager.get_messages] never raises and changes nothing.  When the
    database answers, what it returns is a prefix (the first [limit] rows,
    or all of them when no limit is given) of the messages of session
    [sid], every one of them and no other, in ascending order of their
    timestamps; when the database fails, it returns the empty list. *)
Theorem get_messages_in_time_order (E : Env) (sid : string)
    (limit : option nat) (w : World) :
  exists rows every,
    get_messages E sid limit w = (Ok rows, with_tick (S (tick w)) w)
    /\ Permutation every
         (List.filter (fun r => String.eqb (m_sid r) sid) (messages w))
    /\ StronglySorted (fun a b => m_ts a <= m_ts b) every
    /\ rows = (if sql_ok E (tick w)
               then match limit with
                    | Some n => firstn n every
                    | None => every
                    end
               else [])
    /\ (forall r, In r rows -> In r (messages w) /\ m_sid r = sid)
    /\ (forall n, limit = Some n -> length rows <= n).
Proof.
  exists (if sql_ok E (tick w) then select_messages sid limit (messages w) else []),
         (select_messages sid None (messages w)).
  split; [apply get_messages_reads|].
  split; [apply order_by_perm|].
  split; [apply select_messages_sorted|].
  split; [destruct limit; reflexivity|].
  split.
  - intros r Hr. destruct (sql_ok E (tick w)); [|destruct Hr].
    assert (Hin : In r (select_messages sid None (messages w))).
    { destruct limit as [n|]; [|exact Hr].
      unfold select_messages, apply_limit in *. eapply In_firstn, Hr. }
    unfold select_messages, apply_limit in Hin.
    apply (Permutation_in _ (order_by_perm _ _)) in Hin.
    apply filter_In in Hin as [Hin Hsid].
    split; [exact Hin|now apply String.eqb_eq].
  - intros n ->. destruct (sql_ok E (tick w)); [|cbn; lia].
    unfold select_messages, apply_limit. rewrite length_firstn. lia.
Qed.

(** ** The retry loop of the web search *)

Lemma http_attempts_app tr tr' :
  http_attempts (tr ++ tr') = http_attempts tr + http_attempts tr'.
Proof. unfold http_attempts. now rewrite List.filter_app, length_app. Qed.

Lemma sleeps_app tr tr' : sleeps (tr ++ tr') = sleeps tr + sleeps tr'.
Proof. unfold sleeps. now rewrite List.filter_app, length_app. Qed.

Lemma search_loop_trace E query num_results retry_delay remaining :
  forall attempt w,
    exists text w' tr,
      search_loop E query num_results retry_delay attempt remaining w = (Ok text, w')
      /\ trace w' = (trace w ++ tr)%list
      /\ messages w' = messages w /\ sessions w' = sessions w
      /\ vstore w' = vstore w
      /\ ((sleeps tr = remaining /\ http_attempts tr = remaining
           /\ text = search_failed)
          \/ (S (sleeps tr) = http_attempts tr /\ http_attempts tr <= remaining)).
Proof.
  induction remaining as [|remaining IH]; intros attempt w.
  - exists search_failed, w, []. cbn. rewrite app_nil_r. repeat split. now left.
  - cbn [search_loop]. unfold http_get, backoff. unfold_monad. cbn.
    destruct (requests_get E (tick w) query num_results) as [e|body] eqn:Hget.
    + assert (Hfailed :
                forall w1, w1 = mkWorld (S (S (tick w))) (messages w) (sessions w)
                                  (vstore w)
                                  ((trace w ++ [EvHttpGet query attempt])
                                   ++ [EvSleep (inject_Z (Z.of_nat retry_delay)
                                                + random_uniform E (S (tick w)))%Q]) ->
                exists text w' tr,
                  search_loop E query num_results retry_delay (S attempt) remaining w1
                  = (Ok text, w')
                  /\ trace w' = (trace w ++ tr)%list
                  /\ messages w' = messages w /\ sessions w' = sessions w
                  /\ vstore w' = vstore w
                  /\ ((sleeps tr = S remaining /\ http_attempts tr = S remaining
                       /\ text = search_failed)
                      \/ (S (sleeps tr) = http_attempts tr
                          /\ http_attempts tr <= S remaining))).
      { intros w1 ->.
        match goal with
        | |- context [search_loop E query num_results retry_delay (S attempt) remaining ?w1] =>
            destruct (IH (S attempt) w1)
              as (text & w' & tr & Hrun & Htr & Hm & Hs & Hv & Hcount)
        end.
        exists text, w',
          (EvHttpGet query attempt
             :: EvSleep (inject_Z (Z.of_nat retry_delay) + random_uniform E (S (tick w)))%Q
             :: tr).
        split; [exact Hrun|].
        cbn in Htr, Hm, Hs, Hv.
        split; [rewrite Htr, <- !app_assoc; reflexivity|].
        repeat (split; [assumption|]).
        change (EvHttpGet query attempt :: ?x :: tr)
          with ([EvHttpGet query attempt; x] ++ tr)%list.
        rewrite sleeps_app, http_attempts_app.
        change (sleeps [EvHttpGet query attempt; _]) with 1.
        change (http_attempts [EvHttpGet query attempt; _]) with 1.
        destruct Hcount as [(Hsl & Hat & Htext)|[Hsl Hat]]; [left|right]; repeat split;
          try assumption; lia. }
      destruct e; cbn; apply Hfailed; reflexivity.
    + destruct body as [results|]; cbn;
        eexists _, _, [EvHttpGet query attempt]; repeat split;
        right; split; cbn; lia.
Qed.

(** [WebSearch.search] never raises and writes to no table and no
    collection; what it adds to the trace is at most [max_retries + 1]
    requests, each failed one followed by one sleep, so the sleeps are as
    many as the requests or one fewer.  Without a key it adds nothing.
    With a key, when every request was followed by a sleep, all
    [max_retries + 1] requests were made and the failure marker is
    returned. *)
Theorem search_attempts_bounded (E : Env) (query : string)
    (num_results max_retries retry_delay : nat) (w : World) :
  exists text w' tr,
    search E query num_results max_retries retry_delay w = (Ok text, w')
    /\ trace w' = (trace w ++ tr)%list
    /\ messages w' = messages w /\ sessions w' = sessions w
    /\ vstore w' = vstore w
    /\ http_attempts tr <= max_retries + 1
    /\ (sleeps tr = http_attempts tr \/ S (sleeps tr) = http_attempts tr)
    /\ (Py.falsy (api_key E) = true -> tr = [] /\ text = search_unavailable)
    /\ (Py.falsy (api_key E) = false ->
        sleeps tr = http_attempts tr ->
        http_attempts tr = max_retries + 1 /\ text = search_failed).
Proof.
  unfold search. destruct (Py.falsy (api_key E)).
  - exists search_unavailable, w, []. rewrite app_nil_r.
    repeat split; try reflexivity; try (cbn; lia); try discriminate.
  - destruct (search_loop_trace E query num_results retry_delay (max_retries + 1) 1 w)
      as (text & w' & tr & Hrun & Htr & Hm & Hs & Hv & Hcount).
    exists text, w', tr. repeat (split; [assumption|]).
    split; [destruct Hcount as [(_ & -> & _)|[_ Hle]]; lia|].
    split; [destruct Hcount as [(-> & -> & _)|[Heq _]]; [now left|now right]|].
    split; [discriminate|].
    intros _ Heq. destruct Hcount as [(_ & Hat & Htext)|[Hneq _]]; [now split|lia].
Qed.

Lemma search_loop_first_success E query num_results retry_delay body k :
  forall remaining attempt w,
    k < remaining ->
    (forall j, j < k ->
       exists e, requests_get E (tick w + 2 * j) query num_results = HttpRaises e) ->
    requests_get E (tick w + 2 * k) query num_results = HttpJson body ->
    search_loop E query num_results retry_delay attempt remaining w
    = (Ok match body with
          | Some results =>
              Py.join (Py.nl ++ Py.nl)
                (map (fun r => match r with Some s => s | None => EmptyString end)
                     (firstn num_results results))
          | None => search_no_results
          end,
       mkWorld (tick w + 2 * k + 1) (messages w) (sessions w) (vstore w)
               (trace w ++ exhausted_trace E query retry_delay (tick w) attempt k
                ++ [EvHttpGet query (attempt + k)])).
Proof.
  induction k as [|k IH]; intros remaining attempt w Hk Hfail Hok.
  - destruct remaining as [|remaining]; [lia|].
    cbn [search_loop]. unfold http_get. unfold_monad. cbn.
    rewrite Nat.mul_0_r, !Nat.add_0_r in *. rewrite Hok.
    replace (tick w + 1) with (S (tick w)) by lia.
    destruct body; reflexivity.
  - destruct remaining as [|remaining]; [lia|].
    cbn [search_loop]. unfold http_get, backoff. unfold_monad. cbn.
    destruct (Hfail 0) as [e He]; [lia|].
    rewrite Nat.mul_0_r, Nat.add_0_r in He. rewrite He.
    set (w1 := mkWorld (S (S (tick w))) (messages w) (sessions w) (vstore w)
                 ((trace w ++ [EvHttpGet query attempt])
                  ++ [EvSleep (inject_Z (Z.of_nat retry_delay)
                               + random_uniform E (S (tick w)))%Q])).
    assert (Hrun := IH remaining (S attempt) w1 ltac:(lia)).
    cbn [tick trace messages sessions vstore w1] in Hrun.
    specialize (Hrun
              ltac:(intros j Hj; destruct (Hfail (S j)) as [e' He']; [lia|];
                    exists e'; rewrite <- He'; f_equal; lia)
              ltac:(rewrite <- Hok; f_equal; lia)).
    assert (Hgoal :
              search_loop E query num_results retry_delay (S attempt) remaining w1
              = (Ok match body with
                    | Some results =>
                        Py.join (Py.nl ++ Py.nl)
                          (map (fun r => match r with Some s => s | None => EmptyString end)
                               (firstn num_results results))
                    | None => search_no_results
                    end,
                 mkWorld (tick w + 2 * S k + 1) (messages w) (sessions w) (vstore w)
                         (trace w
                          ++ exhausted_trace E query retry_delay (tick w) attempt (S k)
                          ++ [EvHttpGet query (attempt + S k)]))).
    { rewrite Hrun. f_equal. f_equal; [lia|].
      cbn [exhausted_trace]. rewrite <- !app_assoc. cbn [app].
      replace (S attempt + k) with (attempt + S k) by lia. reflexivity. }
    destruct e; cbn; exact Hgoal.
Qed.

(** When a key is configured, the first [k] requests fail and the next one
    is answered, with [k] at most [max_retries], [WebSearch.search] returns
    what that answer holds: the snippets of its first [num_results] organic
    results joined by blank lines (the empty string standing for a result
    without a snippet), or the fixed no-result text when the answer has no
    [organic_results].  It has then made [k + 1] requests and slept [k]
    times, after each failure. *)
Theorem search_returns_first_success (E : Env) (query : string)
    (num_results max_retries retry_delay k : nat)
    (body : option (list (option string))) (w : World) :
  Py.falsy (api_key E) = false ->
  k <= max_retries ->
  (forall j, j < k ->
     exists e, requests_get E (tick w + 2 * j) query num_results = HttpRaises e) ->
  requests_get E (tick w + 2 * k) query num_results = HttpJson body ->
  exists w',
    search E query num_results max_retries retry_delay w
    = (Ok match body with
          | Some results =>
              Py.join (Py.nl ++ Py.nl)
                (map (fun r => match r with Some s => s | None => EmptyString end)
                     (firstn num_results results))
          | None => search_no_results
          end, w')
    /\ trace w'
       = (trace w ++ exhausted_trace E query retry_delay (tick w) 1 k
          ++ [EvHttpGet query (1 + k)])%list
    /\ http_attempts (exhausted_trace E query retry_delay (tick w) 1 k
                      ++ [EvHttpGet query (1 + k)]) = k + 1
    /\ sleeps (exhausted_trace E query retry_delay (tick w) 1 k
               ++ [EvHttpGet query (1 + k)]) = k.
Proof.
  intros Hkey Hk Hfail Hok. unfold search. rewrite Hkey.
  rewrite (search_loop_first_success E query num_results retry_delay body k
             (max_retries + 1) 1 w ltac:(lia) Hfail Hok).
  eexists. split; [reflexivity|]. split; [reflexivity|].
  rewrite http_attempts_app, sleeps_app.
  destruct (exhausted_trace_counts E query retry_delay k (tick w) 1) as [-> ->].
  split; cbn; lia.
Qed.

Lemma search_returns_first_success_witness :
  Py.falsy (api_key flaky_env) = false
  /\ 1 <= 3
  /\ fst (search flaky_env "rocq" 2 3 5 empty_world)
     = Ok ("first" ++ Py.nl ++ Py.nl ++ "").
Proof.
  split; [reflexivity|]. split; [lia|].
  destruct (search_returns_first_success flaky_env "rocq" 2 3 5 1
              (Some [Some "first"; None; Some "third"]) empty_world)
    as (w' & Hrun & _).
  - reflexivity.
  - lia.
  - intros j Hj. exists Timeout. destruct j; [reflexivity|lia].
  - reflexivity.
  - rewrite Hrun. reflexivity.
Defined.

(** ** Retrieval reads *)

(** [RAGSystem.retrieve] never raises.  It writes to neither table and adds
    nothing to the trace, and it leaves every existing collection exactly
    as it was: the one thing it may do to the vector store is to create
    the collection of its own session, empty, when that collection is
    missing, and then it returns no document.  For a session id that is not
    a UUID it returns no document and touches nothing at all. *)
Theorem retrieve_read_only (E : Env) (query sid : string) (top_k : nat)
    (w : World) :
  exists docs w',
    retrieve E query sid top_k w = (Ok docs, w')
    /\ messages w' = messages w /\ sessions w' = sessions w
    /\ trace w' = trace w
    /\ (forall name entries,
          vstore w !! name = Some entries -> vstore w' !! name = Some entries)
    /\ (forall name,
          vstore w !! name = None -> vstore w' !! name <> None ->
          name = "session_" ++ sid /\ vstore w' !! name = Some [] /\ docs = [])
    /\ (uuid_canonical E sid = None -> docs = [] /\ w' = w).
Proof.
  unfold retrieve.
  destruct (uuid_canonical E sid) as [c|].
  2:{ exists [], w. unfold_monad. repeat split; auto; congruence. }
  unfold get_collection, get_or_create_collection, collection_query.
  unfold_monad. cbn.
  assert (Hcreate :
            forall t,
              exists w',
                (if chroma_ok E (S (tick w))
                 then (Ok [],
                       match vstore w !! ("session_" ++ sid) with
                       | Some _ => with_tick t w
                       | None =>
                           with_vstore (<["session_" ++ sid := []]> (vstore w))
                                       (with_tick t w)
                       end)
                 else (Ok [], with_tick t w)) = (Ok (@nil string), w')
                /\ messages w' = messages w /\ sessions w' = sessions w
                /\ trace w' = trace w
                /\ (forall name entries,
                      vstore w !! name = Some entries ->
                      vstore w' !! name = Some entries)
                /\ (forall name,
                      vstore w !! name = None -> vstore w' !! name <> None ->
                      name = "session_" ++ sid /\ vstore w' !! name = Some []
                      /\ @nil string = [])).
  { intros t. destruct (chroma_ok E (S (tick w))).
    2:{ eexists. split; [reflexivity|]. cbn. repeat split; auto; congruence. }
    destruct (vstore w !! ("session_" ++ sid)) as [old|] eqn:Hold.
    { eexists. split; [reflexivity|]. cbn. repeat split; auto; congruence. }
    eexists. split; [reflexivity|]. cbn. repeat split; auto.
    - intros name entries Hname.
      rewrite lookup_insert_ne; [exact Hname|]. intros <-. congruence.
    - destruct (decide (name = "session_" ++ sid)) as [->|Hne]; [reflexivity|].
      rewrite lookup_insert_ne in H0 by congruence. contradiction.
    - destruct (decide (name = "session_" ++ sid)) as [->|Hne].
      + apply lookup_insert_eq.
      + rewrite lookup_insert_ne in H0 by congruence. contradiction. }
  destruct (chroma_ok E (tick w)); cbn.
  2:{ destruct (Hcreate (S (S (tick w)))) as (w' & Hrun & Hrest).
      exists [], w'. split; [|intuition congruence].
      rewrite <- Hrun. destruct (chroma_ok E (S (tick w))); cbn; [|reflexivity].
      destruct (vstore w !! ("session_" ++ sid)); reflexivity. }
  destruct (vstore w !! ("session_" ++ sid)) as [entries|] eqn:Hlook; cbn.
  2:{ destruct (Hcreate (S (S (tick w)))) as (w' & Hrun & Hrest).
      exists [], w'. split; [|intuition congruence].
      rewrite <- Hrun, ?Hlook.
      destruct (chroma_ok E (S (tick w))); cbn; rewrite ?Hlook; reflexivity. }
  rewrite Hlook.
  destruct (nearest E (S (tick w)) query top_k entries) as [hits|e]; cbn;
    eexists _, _; (split; [reflexivity|]); cbn; repeat split; auto; congruence.
Qed.

(** ** What an ingestion stores *)

Lemma next_ticks_run n :
  forall w, next_ticks n w = (Ok (seq (tick w) n), with_tick (tick w + n) w).
Proof.
  induction n as [|n IH]; intros w; cbn [next_ticks seq].
  - unfold ret. rewrite Nat.add_0_r. now destruct w.
  - unfold bind at 1, next_tick. unfold bind. rewrite IH. unfold ret.
    replace (tick w + S n) with (S (tick w) + n) by lia. reflexivity.
Qed.

Lemma prepared_entries E sid_str file_path file_name file_type :
  forall chunks a t1 t2,
    let entries :=
      map (fun x : nat * string * nat * nat =>
             match x with
             | (i, text, id_tick, ts_tick) =>
                 mkChunk (uuid4 E id_tick) text file_name i
                         (resolve_path E file_path) file_type
                         (now E ts_tick) sid_str
             end)
          (zip (zip (zip (seq a (length chunks)) chunks) (seq t1 (length chunks)))
               (seq t2 (length chunks))) in
    map document entries = chunks
    /\ map chunk_index entries = seq a (length chunks)
    /\ Forall (fun c => session_id c = sid_str /\ source c = file_name
                        /\ file_type_of c = file_type
                        /\ file_path_of c = resolve_path E file_path) entries.
Proof.
  induction chunks as [|c chunks IH]; intros a t1 t2; cbn.
  - repeat split. constructor.
  - destruct (IH (S a) (S t1) (S t2)) as (Hdoc & Hidx & Hall).
    cbn in Hdoc, Hidx, Hall. rewrite Hdoc, Hidx.
    repeat split. constructor; [repeat split|exact Hall].
Qed.

Lemma firstn_plus {A} (a b : nat) (l : list A) :
  firstn (a + b) l = (firstn a l ++ firstn b (skipn a l))%list.
Proof.
  revert l. induction a as [|a IH]; intros [|x l]; cbn; try reflexivity.
  - now rewrite firstn_nil.
  - now rewrite IH.
Qed.

Lemma batch_concat {A} (l : list A) (i total b : nat) :
  (firstn (Nat.min (i + batch_size) total - i) (skipn i l)
   ++ firstn (Nat.min (i + batch_size + batch_size * b) total - (i + batch_size))
        (skipn (i + batch_size) l))%list
  = firstn (Nat.min (i + batch_size * S b) total - i) (skipn i l).
Proof.
  unfold batch_size.
  replace (skipn (i + 50) l) with (skipn 50 (skipn i l))
    by (rewrite skipn_skipn; f_equal; lia).
  destruct (le_lt_dec (i + 50) total) as [Hle|Hgt].
  - replace (Nat.min (i + 50) total - i) with 50 by lia.
    replace (Nat.min (i + 50 * S b) total - i)
      with (50 + (Nat.min (i + 50 + 50 * b) total - (i + 50))) by lia.
    now rewrite firstn_plus.
  - replace (Nat.min (i + 50 + 50 * b) total - (i + 50)) with 0 by lia.
    replace (Nat.min (i + 50 * S b) total) with (Nat.min (i + 50) total) by lia.
    cbn [firstn]. now rewrite app_nil_r.
Qed.

Lemma run_collection_add E name entries w (Q : result unit -> World -> Prop) :
  (chroma_ok E (tick w) = true ->
   forall w', vstore w' = <[name := (default [] (vstore w !! name) ++ entries)%list]> (vstore w) ->
              Q (Ok tt) w') ->
  (forall e w', chroma_ok E (tick w) = false -> Q (Raise e) w') ->
  run (collection_add E name entries) w Q.
Proof.
  intros Hok Hfail. unfold run, collection_add. unfold_monad. cbn.
  destruct (chroma_ok E (tick w)); cbn; [apply Hok|apply Hfail]; reflexivity.
Qed.

Lemma run_get_or_create_collection E name w (Q : result unit -> World -> Prop) :
  (forall w', vstore w' !! name = Some (default [] (vstore w !! name)) -> Q (Ok tt) w') ->
  (forall e w', Q (Raise e) w') ->
  run (get_or_create_collection E name) w Q.
Proof.
  intros Hok Hfail. unfold run, get_or_create_collection. unfold_monad. cbn.
  destruct (chroma_ok E (tick w)); cbn; [apply Hok|apply Hfail].
  destruct (vstore w !! name) as [old|] eqn:Hold; cbn.
  - exact Hold.
  - apply lookup_insert_eq.
Qed.

Lemma prepare_entries_run E sid_str file_path file_name file_type chunks w :
  exists entries,
    prepare_entries E sid_str file_path file_name file_type chunks w
    = (Ok entries, with_tick (tick w + length chunks + length chunks) w)
    /\ map document entries = chunks
    /\ map chunk_index entries = seq 0 (length chunks)
    /\ Forall (fun c => session_id c = sid_str /\ source c = file_name
                        /\ file_type_of c = file_type
                        /\ file_path_of c = resolve_path E file_path) entries.
Proof.
  eexists. split.
  - unfold prepare_entries. unfold bind.
    rewrite next_ticks_run. cbn [tick with_tick]. rewrite next_ticks_run.
    unfold ret. reflexivity.
  - apply prepared_entries.
Qed.

Lemma run_store_batches_vstore E sid_str name entries total batches :
  forall i w old (Q : result unit -> World -> Prop),
    vstore w !! name = Some old ->
    (forall r w',
        (r = Ok tt ->
         vstore w' !! name
         = Some (old ++ firstn (Nat.min (i + batch_size * batches) total - i)
                          (skipn i entries))%list) ->
        Q r w') ->
    run (store_batches E sid_str name entries total i batches) w Q.
Proof.
  induction batches as [|batches IH]; intros i w old Q Hold HQ; cbn [store_batches].
  - apply run_ret, HQ. intros _.
    rewrite Nat.mul_0_r, Nat.add_0_r.
    replace (Nat.min i total - i) with 0 by lia. cbn. now rewrite app_nil_r.
  - set (batch := firstn (Nat.min (i + batch_size) total - i) (skipn i entries)).
    apply run_bind, run_collection_add; [|intros; apply HQ; discriminate].
    intros _ w1 Hv1. rewrite Hold in Hv1. cbn [default] in Hv1.
    assert (Hw1 : vstore w1 !! name = Some (old ++ batch)%list)
      by (rewrite Hv1; apply lookup_insert_eq).
    cbv beta iota.
    assert (Hnext : forall w2,
               vstore w2 = vstore w1 ->
               run (store_batches E sid_str name entries total
                      (i + batch_size) batches) w2 Q).
    { intros w2 Hw2. apply (IH _ _ (old ++ batch)%list).
      - now rewrite Hw2.
      - intros r w' Hr. apply HQ. intros ->.
        rewrite (Hr eq_refl), <- app_assoc. subst batch.
        now rewrite batch_concat. }
    apply run_bind. destruct (100 <? total)%nat.
    + apply run_bind.
      eapply run_steps; [apply same_vstore_add_message|].
      intros [ok|e] w2 Hw2; [|apply HQ; discriminate].
      apply run_ret, Hnext, Hw2.
    + apply run_ret, Hnext. reflexivity.
Qed.

Lemma batches_cover total :
  Nat.min (0 + batch_size * batch_count total) total - 0 = total.
Proof.
  unfold batch_count, batch_size. cbn [Nat.add Nat.sub].
  pose proof (Nat.div_mod_eq (total + 49) 50) as Hdiv.
  pose proof (Nat.mod_upper_bound (total + 49) 50 ltac:(lia)) as Hmod.
  lia.
Qed.

Ltac run_status :=
  apply run_bind;
  eapply run_steps_returns;
    [apply same_vstore_add_message|apply returns_add_message|];
  intros ? ? ?; run_rets.

(** When [FileProcessor.process_file] returns [True], the session id was a
    UUID and the collection named after its canonical form holds what it
    held before followed by one entry per chunk of the document, all of
    them, in the order of the chunks: the batches of fifty lose nothing and
    reorder nothing.  Each entry carries the canonical session id, the file
    name, the file type and the resolved path, and its index in the
    document; the texts are the chunks the splitter returned for the
    loaded document. *)
Theorem process_file_stores_every_chunk (E : Env)
    (sid file_path file_name file_type : string) (w w' : World) :
  process_file E sid file_path file_name file_type w = (Ok true, w') ->
  exists sid_str entries,
    uuid_canonical E sid = Some sid_str
    /\ entries <> []
    /\ vstore w' !! ("session_" ++ sid_str)
       = Some (default [] (vstore w !! ("session_" ++ sid_str)%string) ++ entries)%list
    /\ map chunk_index entries = seq 0 (length entries)
    /\ Forall (fun c => session_id c = sid_str /\ source c = file_name
                        /\ file_type_of c = file_type
                        /\ file_path_of c = resolve_path E file_path) entries
    /\ exists t t' documents,
         load_document E t file_path file_type = Some documents
         /\ split_documents E t' documents = Ok (map document entries).
Proof.
  unfold process_file.
  destruct (uuid_canonical E sid) as [sid_str|]; [|discriminate].
  intros Hrun. exists sid_str.
  set (name := "session_" ++ sid_str) in *.
  set (stored := fun (w1 : World) =>
         exists entries,
           entries <> []
           /\ vstore w1 !! name = Some (default [] (vstore w !! name) ++ entries)%list
           /\ map chunk_index entries = seq 0 (length entries)
           /\ Forall (fun c => session_id c = sid_str /\ source c = file_name
                               /\ file_type_of c = file_type
                               /\ file_path_of c = resolve_path E file_path) entries
           /\ exists t t' documents,
                load_document E t file_path file_type = Some documents
                /\ split_documents E t' documents = Ok (map document entries)).
  match type of Hrun with
  | try_except ?body ?h w = _ =>
      assert (Hbody : run body w (fun r w1 => r = Ok true -> stored w1))
  end.
  { apply run_bind.
    eapply run_steps_returns;
      [apply same_vstore_add_message|apply returns_add_message|].
    intros ok w1 Hv1. unfold same_vstore in Hv1.
    apply run_bind, run_next_tick.
    destruct (load_document E (tick w1) file_path file_type) as [documents|] eqn:Hload.
    2:{ run_status. discriminate. }
    apply run_bind, run_try_except, run_bind, run_next_tick.
    cbn [tick with_tick]. apply run_bind.
    destruct (split_documents E (S (tick w1)) documents) as [chunks|e] eqn:Hsplit;
      cbn [lift_result].
    2:{ run_rets. run_status. discriminate. }
    run_rets. destruct chunks as [|c chunks].
    { run_status. discriminate. }
    run_rets. remember (c :: chunks) as cs eqn:Hcs.
    apply run_bind, run_try_except, run_bind.
    apply run_get_or_create_collection.
    2:{ intros e w2. run_rets. run_status. discriminate. }
    intros w2 Hw2. cbn [tick with_tick vstore] in Hw2. rewrite Hv1 in Hw2.
    run_rets. apply run_bind.
    destruct (prepare_entries_run E sid_str file_path file_name file_type cs w2)
      as (entries & Hprep & Hdoc & Hidx & Hall).
    eapply run_of_eq; [exact Hprep|]. cbv beta iota.
    set (w3 := with_tick _ w2).
    assert (Hw3 : vstore w3 !! name = Some (default [] (vstore w !! name)))
      by exact Hw2.
    clearbody w3.
    assert (Hlen : length entries = length cs)
      by (pose proof (f_equal (@length string) Hdoc) as Hl;
          now rewrite length_map in Hl).
    apply run_try_except, run_bind.
    apply (run_store_batches_vstore E sid_str name entries (length cs)
             (batch_count (length cs)) 0 w3 _ _ Hw3).
    intros r w4 Hr. destruct r as [[]|e]; cbv beta iota.
    2:{ run_status. discriminate. }
    apply run_bind.
    eapply run_steps_returns;
      [apply same_vstore_add_message|apply returns_add_message|].
    intros ok' w5 Hv5. run_rets.
    intros _. exists entries.
    split; [intros Hnil; rewrite Hnil, Hcs in Hlen; discriminate|].
    split.
    { unfold same_vstore in Hv5. rewrite Hv5, (Hr eq_refl), batches_cover.
      cbn [skipn]. rewrite <- Hlen, firstn_all. reflexivity. }
    split; [now rewrite Hidx, Hlen|]. split; [exact Hall|].
    exists (tick w1), (S (tick w1)), documents. rewrite Hdoc. now split. }
  apply run_elim in Hbody. destruct Hbody as (r & w1 & Hrun' & HQ).
  unfold try_except at 1 in Hrun. rewrite Hrun' in Hrun.
  destruct r as [ok|e].
  - injection Hrun as -> <-. destruct (HQ eq_refl) as (entries & H).
    exists entries. split; [reflexivity|exact H].
  - exfalso. revert Hrun. unfold bind.
    destruct (add_message E sid_str "system" _ w1) as [[ok|e'] w2]; discriminate.
Qed.

Lemma process_file_stores_every_chunk_witness :
  exists w' entries,
    process_file calm_env sid_upper "/data/notes.txt" "notes.txt" "txt" empty_world
    = (Ok true, w')
    /\ vstore w' !! ("session_" ++ sid_lower) = Some entries
    /\ map chunk_index entries = seq 0 (length entries).
Proof.
  destruct (process_file calm_env sid_upper "/data/notes.txt" "notes.txt" "txt"
              empty_world) as [r w'] eqn:Hrun.
  assert (Hr : r = Ok true)
    by (apply (f_equal fst) in Hrun; vm_compute in Hrun; congruence).
  subst r.
  destruct (process_file_stores_every_chunk calm_env sid_upper "/data/notes.txt"
              "notes.txt" "txt" empty_world w' Hrun)
    as (sid_str & entries & Hsid & _ & Hstore & Hidx & _).
  injection Hsid as <-.
  exists w', entries. split; [reflexivity|]. split; [exact Hstore|exact Hidx].
Defined.

(** ** What the reply engines leave alone *)

#[local] Instance stored_kept_preorder : PreOrder stored_kept.
Proof.
  split.
  - intros w. repeat split; auto.
  - intros a b c (Hm1 & Hs1 & Hv1) (Hm2 & Hs2 & Hv2).
    repeat split; [congruence|congruence|].
    intros name entries Hn. apply Hv2, Hv1, Hn.
Qed.

Lemma stored_kept_of_tick_trace (f : World -> World) :
  (forall w, messages (f w) = messages w /\ sessions (f w) = sessions w
             /\ vstore (f w) = vstore w) ->
  steps stored_kept (modify f).
Proof.
  intros Hf. apply steps_modify. intros w. destruct (Hf w) as (Hm & Hs & Hv).
  repeat split; [assumption|assumption|]. intros name entries. now rewrite Hv.
Qed.

Lemma stored_kept_next_tick : steps stored_kept next_tick.
Proof. intros w r w' [= <- <-]. repeat split; auto. Qed.

Lemma stored_kept_emit ev : steps stored_kept (emit ev).
Proof. intros w r w' [= <- <-]. repeat split; auto. Qed.

Lemma stored_kept_generate_text E prompt max_tokens temperature :
  steps stored_kept (generate_text E prompt max_tokens temperature).
Proof.
  intros w r w' Hrun.
  destruct (generate_text_returns E prompt max_tokens temperature w) as (t & Hg & _).
  rewrite Hg in Hrun. injection Hrun as <- <-. repeat split; auto.
Qed.

Lemma stored_kept_get_messages E sid limit :
  steps stored_kept (get_messages E sid limit).
Proof.
  unfold get_messages, db_get_messages.
  repeat first [ apply stored_kept_next_tick | steps_step ].
Qed.

Lemma stored_kept_search_loop E query num_results retry_delay remaining :
  forall attempt,
    steps stored_kept (search_loop E query num_results retry_delay attempt remaining).
Proof.
  induction remaining as [|remaining IH]; intros attempt; cbn [search_loop].
  - apply steps_ret. typeclasses eauto.
  - unfold http_get, backoff.
    repeat first [ apply stored_kept_next_tick
                 | apply stored_kept_emit
                 | apply IH
                 | steps_step ].
Qed.

Lemma stored_kept_summarize_search_results E query :
  steps stored_kept (summarize_search_results E query).
Proof.
  unfold summarize_search_results, search, generate_text_default.
  repeat first [ apply stored_kept_search_loop
               | apply stored_kept_generate_text
               | steps_step ].
Qed.

Lemma stored_kept_retrieve E query sid top_k :
  steps stored_kept (retrieve E query sid top_k).
Proof.
  unfold retrieve, get_collection, get_or_create_collection, collection_query.
  repeat first [ apply stored_kept_next_tick | steps_step ].
  apply steps_modify. intros w.
  destruct (vstore w !! ("session_" ++ sid)) as [old|] eqn:Hold;
    [reflexivity|].
  repeat split; auto. intros name entries Hname. cbn.
  rewrite lookup_insert_ne; [exact Hname|]. intros <-. congruence.
Qed.

Lemma stored_kept_rag_query E question sid :
  steps stored_kept (rag_query E question sid).
Proof.
  unfold rag_query, generate_answer, generate_text_default.
  repeat first [ apply stored_kept_retrieve
               | apply stored_kept_generate_text
               | steps_step ].
Qed.

Lemma stored_kept_generate_response E user_input history :
  steps stored_kept (generate_response E user_input history).
Proof.
  unfold generate_response, generate_text_default.
  repeat first [ apply stored_kept_summarize_search_results
               | apply stored_kept_generate_text
               | steps_step ].
Qed.

Lemma intent_handlers_cases E intent h :
  intent_handlers E !! intent = Some h ->
  h = _handle_course_question E \/ h = _handle_daily_chat E
  \/ h = _handle_definition_question E \/ h = _handle_method_question E
  \/ h = _handle_comparison_question E \/ h = _handle_evaluation_question E
  \/ h = _handle_other_question E \/ h = _handle_file_question E.
Proof.
  unfold intent_handlers. unfold handler in *.
  repeat (rewrite lookup_insert_Some; intros [[_ Heq]|[_ H]];
          [rewrite <- Heq; tauto|revert H]).
  rewrite lookup_empty. discriminate.
Qed.

Lemma stored_kept_route E intent user_input sid history :
  steps stored_kept (route E intent user_input sid history).
Proof.
  unfold route, route_with.
  destruct (intent_handlers E !! intent) as [h|] eqn:Hlook.
  2:{ apply steps_ret. typeclasses eauto. }
  apply steps_try_except; [typeclasses eauto| |intros; apply steps_ret; typeclasses eauto].
  apply intent_handlers_cases in Hlook.
  destruct Hlook as [-> | [-> | [-> | [-> | [-> | [-> | [-> | ->]]]]]]];
    unfold _handle_course_question, _handle_daily_chat,
      _handle_definition_question, _handle_method_question,
      _handle_comparison_question, _handle_evaluation_question,
      _handle_other_question, _handle_file_question,
      answer_comparison, answer_evaluation, generate_text_default;
    repeat first [ apply stored_kept_rag_query
                 | apply stored_kept_generate_response
                 | apply stored_kept_summarize_search_results
                 | apply stored_kept_generate_text
                 | steps_step ].
Qed.

Lemma returns_route E intent user_input sid history w :
  returns (route E intent user_input sid history) w.
Proof.
  unfold route, route_with. destruct (intent_handlers E !! intent).
  - apply returns_try_except. intros. apply returns_ret.
  - apply returns_ret.
Qed.

(** Whatever the intent code, the engine [IntentRouter.route] dispatches to
    writes nothing that is stored: it returns a reply and leaves the
    message table and the session table as they were, and every existing
    collection of the vector store with the entries it had. *)
Theorem route_writes_nothing_stored (E : Env) (intent user_input sid : string)
    (history : option (list (list string))) (w : World) :
  exists reply w',
    route E intent user_input sid history w = (Ok reply, w')
    /\ messages w' = messages w
    /\ sessions w' = sessions w
    /\ forall name entries,
         vstore w !! name = Some entries -> vstore w' !! name = Some entries.
Proof.
  destruct (returns_route E intent user_input sid history w) as (reply & w' & Hrun).
  exists reply, w'. split; [exact Hrun|].
  exact (stored_kept_route E intent user_input sid history _ _ _ Hrun).
Qed.

(** ** Daily chat without a realtime keyword *)

Lemma last_n_short {A} (n : nat) (l : list A) :
  length l <= n -> Py.last_n n l = l.
Proof.
  intros Hn. unfold Py.last_n.
  replace (length l - n) with 0 by lia. reflexivity.
Qed.

Lemma length_last_n {A} (n : nat) (l : list A) :
  length (Py.last_n n l) = Nat.min n (length l).
Proof. unfold Py.last_n. rewrite length_skipn. lia. Qed.

Lemma build_context_last_five history :
  _build_context (Py.last_n 5 history) = _build_context history.
Proof.
  unfold _build_context.
  destruct history as [|item history]; [reflexivity|].
  destruct (Py.last_n 5 (item :: history)) as [|x rest] eqn:Hlast.
  - apply (f_equal (@length _)) in Hlast. rewrite length_last_n in Hlast.
    cbn in Hlast. lia.
  - rewrite <- Hlast. rewrite (last_n_short 5 (Py.last_n 5 (item :: history)));
      [reflexivity|].
    rewrite length_last_n. lia.
Qed.

(** For an input that contains none of the realtime keywords, and for
    every history, the empty one included,
    [DailyChat.generate_response] makes no web search: it consults the
    completion service once, with the prompt built from the context of
    the history and the input, returns without raising what
    [generate_text] makes of the answer, and leaves everything else
    (tables, collections, trace) untouched.  Of the history it reads the
    last five items only: on the last five items alone it does the
    same. *)
Theorem daily_chat_without_realtime_keyword (E : Env) (user_input : string)
    (history : list (list string)) (w : World) :
  _is_realtime_question user_input = false ->
  let reply :=
    match completion E (tick w)
                     (daily_prompt (_build_context history) user_input)
                     1024 (7 # 10) with
    | Ok out => Py.strip out
    | Raise APIError => llm_api_error
    | Raise _ => llm_other_error
    end in
  generate_response E user_input history w
  = (Ok reply, with_tick (S (tick w)) w)
  /\ generate_response E user_input (Py.last_n 5 history) w
     = (Ok reply, with_tick (S (tick w)) w).
Proof.
  intros Hplain reply.
  assert (Hrun : forall h,
             _build_context h = _build_context history ->
             generate_response E user_input h w
             = (Ok reply, with_tick (S (tick w)) w)).
  { intros h Hctx. unfold generate_response, try_except. rewrite Hplain, Hctx.
    unfold generate_text_default. rewrite generate_text_result. reflexivity. }
  split; [now apply Hrun|apply Hrun, build_context_last_five].
Qed.

Lemma daily_chat_without_realtime_keyword_witness :
  _is_realtime_question "hello" = false
  /\ generate_response calm_env "hello"
       [["user"; "zero"]; ["user"; "one"]; ["assistant"; "two"]; ["user"; "three"];
        ["assistant"; "four"]; ["user"; "five"]] empty_world
     = generate_response calm_env "hello"
         [["user"; "one"]; ["assistant"; "two"]; ["user"; "three"];
          ["assistant"; "four"]; ["user"; "five"]] empty_world
  /\ generate_response calm_env "hello" [] empty_world
     = (Ok "A", with_tick 1 empty_world).
Proof.
  split; [reflexivity|].
  destruct (daily_chat_without_realtime_keyword calm_env "hello"
              [["user"; "zero"]; ["user"; "one"]; ["assistant"; "two"];
               ["user"; "three"]; ["assistant"; "four"]; ["user"; "five"]]
              empty_world eq_refl) as [H1 H2].
  destruct (daily_chat_without_realtime_keyword calm_env "hello" [] empty_world
              eq_refl) as [H3 _].
  split; [rewrite H1; symmetry; exact H2|exact H3].
Defined.

(** ** A turn of conversation *)

Lemma stored_kept_recognize E user_input : steps stored_kept (recognize E user_input).
Proof.
  unfold recognize, classify_intent.
  repeat first [ apply stored_kept_generate_text | steps_step ].
Qed.

Lemma returns_recognize E user_input w : returns (recognize E user_input) w.
Proof. unfold recognize. apply returns_try_except. intros. apply returns_ret. Qed.

Lemma stored_kept_predict E current_input history max_questions :
  steps stored_kept (predict E current_input history max_questions).
Proof.
  unfold predict, predict_next_questions.
  repeat first [ apply stored_kept_generate_text | steps_step ].
Qed.

Lemma returns_predict E current_input history max_questions w :
  returns (predict E current_input history max_questions) w.
Proof. unfold predict. apply returns_try_except. intros. apply returns_ret. Qed.

(** Under a database that accepts every statement, a call of
    [MessageHandler.process_message] with a text that is not blank and a
    session id that is a UUID returns, without raising, that same id; it
    appends exactly two rows to the message table, both under that id:
    the user's text, stripped, with role "user", and then one reply with
    role "assistant".  The history it returns is the timestamp-ordered
    log of the session as it stands after these two inserts. *)
Theorem process_message_stores_both_turns (E : Env) (text sid phone : string)
    (chat_history : list (string * string)) (w : World) :
  (forall t, sql_ok E t = true) ->
  uuid_canonical E sid <> None ->
  Py.strip text <> EmptyString ->
  exists reply ts w',
    process_message E text sid phone chat_history w
    = (Ok (map (fun m => (m_role m, m_content m))
               (select_messages sid None (messages w')), sid), w')
    /\ messages w'
       = (messages w
          ++ [mkMsg sid "user" (Py.strip text) (now E (tick w));
              mkMsg sid "assistant" reply ts])%list.
Proof.
  intros Hsql Hsid Htext.
  assert (Hrun : run (process_message E text sid phone chat_history) w
                   (fun r w' =>
                      exists reply ts,
                        r = Ok (map (fun m => (m_role m, m_content m))
                                    (select_messages sid None (messages w')), sid)
                        /\ messages w'
                           = (messages w
                              ++ [mkMsg sid "user" (Py.strip text) (now E (tick w));
                                  mkMsg sid "assistant" reply ts])%list)).
  { unfold process_message.
    destruct (String.eqb (Py.strip text) EmptyString) eqn:Hblank;
      [apply String.eqb_eq in Hblank; contradiction|].
    destruct (uuid_canonical E sid) as [c|]; [|contradiction].
    apply run_bind, run_ret. cbv beta iota.
    apply run_bind, run_try_except.
    apply run_bind, run_add_message; [exact Hsql|]. intros w1 Hm1. cbv beta iota.
    apply run_bind.
    eapply run_steps_returns;
      [apply stored_kept_get_messages|apply returns_get_messages|].
    intros db_messages w2 (Hm2 & _). cbv beta iota.
    apply run_bind.
    eapply run_steps_returns; [apply stored_kept_recognize|apply returns_recognize|].
    intros intent w3 (Hm3 & _). cbv beta iota.
    apply run_bind.
    eapply run_steps_returns; [apply stored_kept_route|apply returns_route|].
    intros reply w4 (Hm4 & _). cbv beta iota.
    apply run_bind, run_add_message; [exact Hsql|]. intros w5 Hm5. cbv beta iota.
    apply run_bind.
    eapply run_of_eq; [apply get_messages_reads|]. rewrite Hsql. cbv beta iota.
    apply run_bind.
    eapply run_steps_returns; [apply stored_kept_predict|apply returns_predict|].
    intros predicted w6 (Hm6 & _). cbn [messages with_tick] in Hm6.
    run_rets.
    exists reply, (now E (tick w4)). rewrite Hm6. split; [reflexivity|].
    rewrite Hm5, Hm4, Hm3, Hm2, Hm1, <- app_assoc. reflexivity. }
  apply run_elim in Hrun. destruct Hrun as (r & w' & Hrun & reply & ts & -> & Hm).
  exists reply, ts, w'. split; [exact Hrun|exact Hm].
Qed.

Lemma process_message_stores_both_turns_witness :
  (forall t, sql_ok calm_env t = true)
  /\ uuid_canonical calm_env sid_lower <> None
  /\ Py.strip "  hello " <> EmptyString
  /\ exists reply ts w',
       process_message calm_env "  hello " sid_lower "13800000000" [] empty_world
       = (Ok (map (fun m => (m_role m, m_content m))
                  (select_messages sid_lower None (messages w')), sid_lower), w')
       /\ messages w'
          = [mkMsg sid_lower "user" "hello" (now calm_env 0);
             mkMsg sid_lower "assistant" reply ts].
Proof.
  split; [reflexivity|]. split; [discriminate|]. split; [discriminate|].
  apply (process_message_stores_both_turns calm_env "  hello " sid_lower
           "13800000000" [] empty_world (fun _ => eq_refl)); discriminate.
Defined.

(** ** Stored data only grows *)

#[local] Instance grows_preorder : PreOrder grows.
Proof.
  split.
  - intros w. split; [exists []; now rewrite app_nil_r|].
    split; [exists []; now rewrite app_nil_r|].
    intros name entries Hn. exists []. now rewrite app_nil_r.
  - intros a b c ([r1 Hm1] & [n1 Hs1] & Hv1) ([r2 Hm2] & [n2 Hs2] & Hv2).
    split; [exists (r1 ++ r2)%list; now rewrite Hm2, Hm1, app_assoc|].
    split; [exists (n1 ++ n2)%list; now rewrite Hs2, Hs1, app_assoc|].
    intros name entries Hn.
    destruct (Hv1 name entries Hn) as [m1 H1].
    destruct (Hv2 name _ H1) as [m2 H2].
    exists (m1 ++ m2)%list. now rewrite H2, app_assoc.
Qed.

Lemma grows_of_stored_kept {A} (m : M A) : steps stored_kept m -> steps grows m.
Proof.
  apply steps_weaken. intros w w' (Hm & Hs & Hv).
  split; [exists []; now rewrite Hm, app_nil_r|].
  split; [exists []; now rewrite Hs, app_nil_r|].
  intros name entries Hn. exists []. rewrite app_nil_r. now apply Hv.
Qed.

Lemma grows_next_tick : steps grows next_tick.
Proof. apply grows_of_stored_kept, stored_kept_next_tick. Qed.

Lemma grows_emit ev : steps grows (emit ev).
Proof. apply grows_of_stored_kept, stored_kept_emit. Qed.

Lemma grows_db_add_message E sid role content ts :
  steps grows (db_add_message E sid role content ts).
Proof.
  unfold db_add_message.
  repeat first [ apply grows_next_tick | steps_step ].
  apply steps_modify. intros w. unfold grows. cbn.
  split; [now eexists|]. split; [exists []; now rewrite app_nil_r|].
  intros name entries Hn. exists []. now rewrite app_nil_r.
Qed.

Lemma grows_db_create_session E sid phone title created :
  steps grows (db_create_session E sid phone title created).
Proof.
  unfold db_create_session.
  repeat first [ apply grows_next_tick | steps_step ].
  apply steps_modify. intros w0. unfold grows. cbn.
  split; [exists []; now rewrite app_nil_r|].
  split; [rewrite map_app; now eexists|].
  intros name entries Hn. exists []. now rewrite app_nil_r.
Qed.

Lemma grows_sql_update_title E new_title sid :
  steps grows (sql_update_title E new_title sid).
Proof.
  unfold sql_update_title.
  repeat first [ apply grows_next_tick | steps_step ].
  apply steps_modify. intros w. unfold grows. cbn.
  split; [exists []; now rewrite app_nil_r|].
  split.
  - exists []. rewrite app_nil_r, map_map. apply map_ext.
    intros s. destruct (String.eqb (s_sid s) sid); reflexivity.
  - intros name entries Hn. exists []. now rewrite app_nil_r.
Qed.

Lemma grows_get_messages E sid limit : steps grows (get_messages E sid limit).
Proof. apply grows_of_stored_kept, stored_kept_get_messages. Qed.

Lemma grows_generate_text E prompt max_tokens temperature :
  steps grows (generate_text E prompt max_tokens temperature).
Proof. apply grows_of_stored_kept, stored_kept_generate_text. Qed.

Lemma grows_auto_rename_session E sid : steps grows (auto_rename_session E sid).
Proof.
  unfold auto_rename_session.
  repeat first [ apply grows_emit
               | apply grows_get_messages
               | apply grows_generate_text
               | apply grows_sql_update_title
               | steps_step ].
Qed.

Lemma grows_add_message E sid role content :
  steps grows (add_message E sid role content).
Proof.
  unfold add_message.
  repeat first [ apply grows_next_tick
               | apply grows_db_add_message
               | apply grows_get_messages
               | apply grows_auto_rename_session
               | steps_step ].
Qed.

Lemma grows_count_sessions E phone : steps grows (count_sessions E phone).
Proof.
  unfold count_sessions, db_get_sessions.
  repeat first [ apply grows_next_tick | steps_step ].
Qed.

Lemma grows_create_session E phone title :
  steps grows (create_session E phone title).
Proof.
  unfold create_session.
  repeat first [ apply grows_next_tick
               | apply grows_count_sessions
               | apply grows_db_create_session
               | apply grows_add_message
               | steps_step ].
Qed.

Lemma grows_get_or_create_collection E name :
  steps grows (get_or_create_collection E name).
Proof.
  unfold get_or_create_collection.
  repeat first [ apply grows_next_tick | steps_step ].
  apply steps_modify. intros w.
  destruct (vstore w !! name) as [old|] eqn:Hold; [reflexivity|].
  unfold grows. cbn.
  split; [exists []; now rewrite app_nil_r|].
  split; [exists []; now rewrite app_nil_r|].
  intros n entries Hn. exists []. rewrite app_nil_r. cbn.
  rewrite lookup_insert_ne; [exact Hn|]. intros <-. congruence.
Qed.

Lemma grows_collection_add E name entries :
  steps grows (collection_add E name entries).
Proof.
  unfold collection_add.
  repeat first [ apply grows_next_tick | steps_step ].
  apply steps_modify. intros w. unfold grows. cbn.
  split; [exists []; now rewrite app_nil_r|].
  split; [exists []; now rewrite app_nil_r|].
  intros n old Hn.
  destruct (decide (n = name)) as [->|Hne].
  - exists entries. rewrite lookup_insert_eq, Hn. reflexivity.
  - exists []. rewrite app_nil_r, lookup_insert_ne by congruence. exact Hn.
Qed.

Lemma grows_next_ticks n : steps grows (next_ticks n).
Proof.
  induction n as [|n IH]; cbn [next_ticks].
  - apply steps_ret. typeclasses eauto.
  - repeat first [ apply grows_next_tick | apply IH | steps_step ].
Qed.

Lemma grows_store_batches E sid_str name entries total batches :
  forall i, steps grows (store_batches E sid_str name entries total i batches).
Proof.
  induction batches as [|batches IH]; intros i; cbn [store_batches].
  - apply steps_ret. typeclasses eauto.
  - repeat first [ apply grows_collection_add
                 | apply grows_add_message
                 | apply IH
                 | steps_step ].
Qed.

Lemma grows_process_file E sid file_path file_name file_type :
  steps grows (process_file E sid file_path file_name file_type).
Proof.
  unfold process_file, prepare_entries.
  repeat first [ apply grows_add_message
               | apply grows_next_tick
               | apply grows_next_ticks
               | apply grows_get_or_create_collection
               | apply grows_store_batches
               | steps_step ].
Qed.

Lemma grows_process_message E text sid phone chat_history :
  steps grows (process_message E text sid phone chat_history).
Proof.
  unfold process_message.
  repeat first [ apply grows_add_message
               | apply grows_get_messages
               | apply grows_create_session
               | apply grows_of_stored_kept, stored_kept_recognize
               | apply grows_of_stored_kept, stored_kept_route
               | apply grows_of_stored_kept, stored_kept_predict
               | steps_step ].
Qed.

(** Whatever the database, the vector store, the model and the search
    provider do, and whether the call returns or raises, a call of
    [add_message], [create_session], [process_file] or [process_message]
    deletes and rewrites nothing that is stored, session titles apart:
    the message table it leaves is the one it found with rows appended;
    so is the session table, as far as ids, owners and creation times
    go; and every collection that existed holds the entries it held,
    with entries appended. *)
Theorem stored_data_only_grows (E : Env) (w : World) :
  (forall sid role content, grows w (snd (add_message E sid role content w)))
  /\ (forall phone title, grows w (snd (create_session E phone title w)))
  /\ (forall sid file_path file_name file_type,
        grows w (snd (process_file E sid file_path file_name file_type w)))
  /\ (forall text sid phone chat_history,
        grows w (snd (process_message E text sid phone chat_history w))).
Proof.
  assert (Hsnd : forall A (m : M A), steps grows m -> grows w (snd (m w))).
  { intros A m Hm. destruct (m w) as [r w'] eqn:Hrun. exact (Hm _ _ _ Hrun). }
  split; [|split; [|split]]; intros; apply Hsnd.
  - apply grows_add_message.
  - apply grows_create_session.
  - apply grows_process_file.
  - apply grows_process_message.
Qed.

(** ** The title the automatic rename installs *)

Lemma has_char_app c a b :
  has_char c (a ++ b) = has_char c a || has_char c b.
Proof.
  induction a as [|d a IH]; [reflexivity|].
  rewrite append_cons. cbn [has_char]. rewrite IH. now rewrite orb_assoc.
Qed.

Lemma has_char_strip c s : has_char c s = false -> has_char c (Py.strip s) = false.
Proof.
  intros H. destruct (strip_substring s) as (pre & post & Hs).
  rewrite Hs, !has_char_app in H.
  apply orb_false_elim in H as [_ H]. now apply orb_false_elim in H as [H _].
Qed.

Lemma has_char_remove_same c s : has_char c (Py.remove_char c s) = false.
Proof.
  induction s as [|d s IH]; cbn; [reflexivity|].
  destruct (Ascii.eqb c d) eqn:Hcd; cbn; [exact IH|]. now rewrite Hcd.
Qed.

Lemma has_char_remove_other c d s :
  has_char c s = false -> has_char c (Py.remove_char d s) = false.
Proof.
  induction s as [|x s IH]; cbn; [reflexivity|].
  destruct (Ascii.eqb c x) eqn:Hcx; [discriminate|]. intros Hs.
  destruct (Ascii.eqb d x); cbn; [now apply IH|]. rewrite Hcx. now apply IH.
Qed.

Lemma run_emit ev w (Q : result unit -> World -> Prop) :
  Q (Ok tt) (with_trace (trace w ++ [ev]) w) -> run (emit ev) w Q.
Proof. auto. Qed.

Lemma run_generate_text E prompt max_tokens temperature w
    (Q : result string -> World -> Prop) :
  (forall text, Q (Ok text) (with_tick (S (tick w)) w)) ->
  run (generate_text E prompt max_tokens temperature) w Q.
Proof.
  intros HQ.
  destruct (generate_text_returns E prompt max_tokens temperature w) as (t & Hg & _).
  eapply run_of_eq; [exact Hg|apply HQ].
Qed.

Lemma run_sql_update_title E new_title sid w (Q : result unit -> World -> Prop) :
  (sql_ok E (tick w) = true ->
   Q (Ok tt)
     (with_sessions (map (retitle sid new_title) (sessions w))
                    (with_tick (S (tick w)) w))) ->
  (sql_ok E (tick w) = false -> Q (Raise SqliteError) (with_tick (S (tick w)) w)) ->
  run (sql_update_title E new_title sid) w Q.
Proof.
  intros Hok Hfail. unfold run, sql_update_title. unfold_monad. cbn.
  destruct (sql_ok E (tick w)); cbn; [apply Hok|apply Hfail]; reflexivity.
Qed.

(** [ChatManager.auto_rename_session] never raises and changes neither the
    message table nor the vector store.  When it returns [False] the
    session table is as it was.  When it returns [True], the session held
    at least two messages, and the one change is the title of the rows of
    session [sid]; the title installed has at least two characters, holds
    no quotation mark of either kind, and neither begins nor ends with a
    blank.  Ids, owners and creation times, and the rows of every other
    session, are as they were. *)
Theorem auto_rename_session_effect (E : Env) (sid : string) (w : World) :
  exists renamed w',
    auto_rename_session E sid w = (Ok renamed, w')
    /\ messages w' = messages w
    /\ vstore w' = vstore w
    /\ (renamed = false -> sessions w' = sessions w)
    /\ (renamed = true ->
        2 <= session_size sid w
        /\ exists title,
             sessions w' = map (retitle sid title) (sessions w)
             /\ 2 <= Py.len title
             /\ has_char Py.dquote title = false
             /\ has_char Py.squote title = false
             /\ trimmed title = true).
Proof.
  assert (Hrun : run (auto_rename_session E sid) w
                   (fun r w' =>
                      exists renamed,
                        r = Ok renamed
                        /\ messages w' = messages w
                        /\ vstore w' = vstore w
                        /\ (renamed = false -> sessions w' = sessions w)
                        /\ (renamed = true ->
                            2 <= session_size sid w
                            /\ exists title,
                                 sessions w' = map (retitle sid title) (sessions w)
                                 /\ 2 <= Py.len title
                                 /\ has_char Py.dquote title = false
                                 /\ has_char Py.squote title = false
                                 /\ trimmed title = true))).
  { unfold auto_rename_session.
    apply run_bind, run_emit. cbv beta iota.
    apply run_try_except, run_bind.
    eapply run_of_eq; [apply get_messages_reads|]. cbv beta iota.
    cbn [tick messages with_trace with_tick].
    set (msgs := if sql_ok E (tick w)
                 then select_messages sid (Some 10) (messages w) else []).
    assert (Hsize : 2 <= length msgs -> 2 <= session_size sid w).
    { subst msgs. destruct (sql_ok E (tick w)); [|cbn; lia].
      rewrite <- length_select_messages. unfold select_messages, apply_limit.
      rewrite length_firstn. lia. }
    clearbody msgs.
    destruct (length msgs <? 2)%nat eqn:Hlen.
    { apply run_ret. exists false. repeat split; auto; discriminate. }
    apply Nat.ltb_ge in Hlen.
    destruct (map m_content (List.filter (fun m => String.eqb (m_role m) "user") msgs))
      as [|u rest].
    { apply run_ret. exists false. repeat split; auto; discriminate. }
    apply run_bind, run_generate_text. intros generated. cbv beta iota.
    set (title := Py.strip (Py.remove_char Py.squote
                              (Py.remove_char Py.dquote (Py.strip generated)))).
    destruct (Py.len title <? 2)%nat eqn:Htitle.
    { apply run_ret. exists false. repeat split; auto; discriminate. }
    apply Nat.ltb_ge in Htitle.
    apply run_bind, run_sql_update_title; intros Hsql.
    - apply run_ret. exists true. cbn.
      split; [reflexivity|]. split; [reflexivity|]. split; [reflexivity|].
      split; [discriminate|]. intros _. split; [now apply Hsize|].
      exists title. split; [reflexivity|]. split; [exact Htitle|].
      split; [|split].
      + apply has_char_strip, has_char_remove_other, has_char_remove_same.
      + apply has_char_strip, has_char_remove_same.
      + apply trimmed_strip.
    - apply run_ret. exists false. repeat split; auto; discriminate. }
  apply run_elim in Hrun. destruct Hrun as (r & w' & Hrun & renamed & -> & H).
  now exists renamed, w'.
Qed.

(** ** The session row [create_session] makes *)

(** The ways [count_sessions] and [db_create_session] fail. *)
Lemma count_sessions_fails E phone w :
  sql_ok E (tick w) = false ->
  count_sessions E phone w
  = (if sql_connected E (tick w) then Ok 0 else Raise unbound_conn,
     with_tick (S (tick w)) w).
Proof.
  intros Hok. unfold count_sessions, db_get_sessions, sql_failed.
  unfold_monad. cbn. rewrite Hok.
  destruct (sql_connected E (tick w)); reflexivity.
Qed.

Lemma db_create_session_refused E sid phone title created w :
  sql_ok E (tick w) = false \/ In sid (map s_sid (sessions w)) ->
  db_create_session E sid phone title created w
  = (if sql_ok E (tick w) || sql_connected E (tick w)
     then Ok false else Raise unbound_conn,
     with_tick (S (tick w)) w).
Proof.
  intros Hrefused. unfold db_create_session, sql_failed. unfold_monad. cbn.
  destruct (sql_ok E (tick w)) eqn:Hok; cbn [orb].
  - destruct Hrefused as [Hno|Hin]; [discriminate|].
    assert (Hex : existsb (fun s => String.eqb (s_sid s) sid) (sessions w) = true).
    { apply existsb_exists. apply in_map_iff in Hin as (s & Hs & Hin).
      exists s. split; [exact Hin|]. now apply String.eqb_eq. }
    now rewrite Hex.
  - destruct (sql_connected E (tick w)); reflexivity.
Qed.

Lemma add_message_first_row E sid role content w :
  (forall t, sql_ok E t = true) ->
  (forall m, In m (messages w) -> m_sid m <> sid) ->
  exists w',
    add_message E sid role content w = (Ok true, w')
    /\ messages w' = (messages w ++ [mkMsg sid role content (now E (tick w))])%list
    /\ sessions w' = sessions w.
Proof.
  intros Hsql Hfresh.
  rewrite (add_message_accepted E sid role content w (Hsql _)).
  unfold rename_check.
  destruct (String.eqb role "assistant").
  2:{ eexists. split; [reflexivity|]. now split. }
  unfold bind. rewrite get_messages_reads, Hsql.
  assert (Hone : length (select_messages sid None
                           (messages (inserted E sid role content w))) = 1).
  { unfold select_messages, apply_limit. rewrite length_order_by.
    cbn [inserted messages]. rewrite List.filter_app, length_app.
    rewrite (filter_none _ (messages w)).
    - cbn. now rewrite String.eqb_refl.
    - intros m Hm. apply String.eqb_neq. now apply Hfresh. }
  rewrite Hone. cbn [Nat.eqb]. unfold ret.
  eexists. split; [reflexivity|]. now split.
Qed.

Lemma create_session_row (E : Env) (phone : string)
    (title : option string) (w : World) :
  (forall t, sql_ok E t = true) ->
  fresh_session (uuid4 E (tick w)) w ->
  let numbered :=
    "会话" ++ pretty (length (select_sessions phone (sessions w)) + 1) in
  exists w' created ts,
    create_session E phone title w = (Ok (uuid4 E (tick w)), w')
    /\ sessions w'
       = (sessions w
          ++ [mkSession (uuid4 E (tick w)) phone
                (match title with
                 | Some given => if String.eqb given EmptyString then numbered else given
                 | None => numbered
                 end) created])%list
    /\ messages w'
       = (messages w
          ++ [mkMsg (uuid4 E (tick w)) "assistant" Config.new_session_created ts])%list.
Proof.
  intros Hsql [Hfresh_s Hfresh_m] numbered.
  set (sid := uuid4 E (tick w)) in *.
  set (chosen := match title with
                 | Some given => if String.eqb given EmptyString then numbered else given
                 | None => numbered
                 end).
  assert (Hrun : run (create_session E phone title) w
                   (fun r w' =>
                      r = Ok sid
                      /\ (exists created,
                            sessions w'
                            = (sessions w ++ [mkSession sid phone chosen created])%list)
                      /\ exists ts,
                           messages w'
                           = (messages w
                              ++ [mkMsg sid "assistant" Config.new_session_created ts])%list)).
  { unfold create_session. apply run_bind, run_next_tick. fold sid.
    apply run_bind.
    assert (Htitle : forall (Q : result string -> World -> Prop),
               (forall n, Q (Ok chosen) (with_tick n w)) ->
               run (match title with
                    | Some t =>
                        if String.eqb t EmptyString
                        then (let* session_count := count_sessions E phone in
                              ret ("会话" ++ pretty (session_count + 1)))
                        else ret t
                    | None =>
                        let* session_count := count_sessions E phone in
                        ret ("会话" ++ pretty (session_count + 1))
                    end) (with_tick (S (tick w)) w) Q).
    { intros Q HQ. subst chosen numbered.
      destruct title as [t|]; [destruct (String.eqb t EmptyString)|].
      - apply run_bind. eapply run_of_eq; [apply count_sessions_reads, Hsql|].
        apply run_ret. apply (HQ (S (S (tick w)))).
      - apply run_ret. apply (HQ (S (tick w))).
      - apply run_bind. eapply run_of_eq; [apply count_sessions_reads, Hsql|].
        apply run_ret. apply (HQ (S (S (tick w)))). }
    apply Htitle. intros n. cbv beta iota.
    apply run_bind, run_next_tick. apply run_bind, run_db_create_session.
    - apply Hsql.
    - exact Hfresh_s.
    - cbv beta iota. apply run_bind.
      match goal with
      | |- run (add_message E sid ?role ?content) ?w3 _ =>
          destruct (add_message_first_row E sid role content w3 Hsql Hfresh_m)
            as (w4 & Hadd & Hm & Hs)
      end.
      eapply run_of_eq; [exact Hadd|]. run_rets.
      split; [reflexivity|]. split; [eexists; exact Hs|eexists; exact Hm]. }
  apply run_elim in Hrun.
  destruct Hrun as (r & w' & Hrun & -> & (created & Hs) & ts & Hm).
  now exists w', created, ts.
Qed.

(** Under a database that accepts every statement and for a freshly minted
    id, [ChatManager.create_session] returns the id and appends one row to
    the session table, owned by [phone]: its title is the title given when
    one is given and is not empty, and otherwise the word for "session"
    followed by one more than the number of sessions the user already
    had.  The one message it stores is the welcome message. *)
Theorem create_session_numbers_titles (E : Env) (phone : string)
    (title : option string) (w : World) :
  (forall t, sql_ok E t = true) ->
  fresh_session (uuid4 E (tick w)) w ->
  let numbered :=
    "会话" ++ pretty (length (select_sessions phone (sessions w)) + 1) in
  exists w' created ts,
    create_session E phone title w = (Ok (uuid4 E (tick w)), w')
    /\ sessions w'
       = (sessions w
          ++ [mkSession (uuid4 E (tick w)) phone
                (match title with
                 | Some given => if String.eqb given EmptyString then numbered else given
                 | None => numbered
                 end) created])%list
    /\ messages w'
       = (messages w
          ++ [mkMsg (uuid4 E (tick w)) "assistant" Config.new_session_created ts])%list.
Proof. apply create_session_row. Qed.

Lemma create_session_numbers_titles_witness :
  (forall t, sql_ok calm_env t = true)
  /\ fresh_session (uuid4 calm_env 0) empty_world
  /\ exists w',
       create_session calm_env "13800000000" None empty_world
       = (Ok (uuid4 calm_env 0), w')
       /\ map s_title (sessions w') = ["会话1"].
Proof.
  assert (Hfresh : fresh_session (uuid4 calm_env 0) empty_world)
    by (split; intros x []).
  split; [reflexivity|]. split; [exact Hfresh|].
  destruct (create_session_numbers_titles calm_env "13800000000" None empty_world
              (fun _ => eq_refl) Hfresh) as (w' & created & ts & Hrun & Hs & _).
  exists w'. split; [exact Hrun|]. rewrite Hs. reflexivity.
Defined.

(** When the session row is not inserted (the [INSERT] fails, or the id
    already names a session), or the count of the user's sessions before
    it cannot open its connection, [ChatManager.create_session] stores
    nothing: no session row and no welcome message.  It returns the empty
    string when the count went through and the [INSERT] was refused on an
    open connection; when a connection could not be opened, for the count
    or for the [INSERT], the [UnboundLocalError] of the database method
    leaves [create_session]. *)
Theorem create_session_refused (E : Env) (phone : string)
    (title : option string) (w : World) :
  let count_tick := tick w + 1 in
  let insert_tick := tick w + (if Py.falsy title then 3 else 2) in
  let count_raises :=
    Py.falsy title && negb (sql_ok E count_tick)
    && negb (sql_connected E count_tick) in
  count_raises = true
  \/ sql_ok E insert_tick = false
  \/ In (uuid4 E (tick w)) (map s_sid (sessions w)) ->
  exists w',
    create_session E phone title w
    = (if count_raises || negb (sql_ok E insert_tick || sql_connected E insert_tick)
       then Raise unbound_conn
       else Ok EmptyString,
       w')
    /\ sessions w' = sessions w
    /\ messages w' = messages w
    /\ vstore w' = vstore w.
Proof.
  intros count_tick insert_tick count_raises Hrefused.
  assert (Hinsert : forall title' n,
             count_raises = false ->
             n + 2 = insert_tick ->
             exists w',
               (let* created_tick := next_tick in
                let* ok := db_create_session E (uuid4 E (tick w)) phone title'
                                             (now E created_tick) in
                if ok
                then (let* _ := add_message E (uuid4 E (tick w)) "assistant"
                                            Config.new_session_created in
                      ret (uuid4 E (tick w)))
                else ret EmptyString) (with_tick (S n) w)
               = (if negb (sql_ok E insert_tick || sql_connected E insert_tick)
                  then Raise unbound_conn else Ok EmptyString, w')
               /\ sessions w' = sessions w
               /\ messages w' = messages w
               /\ vstore w' = vstore w).
  { intros title' n Hcount Hn.
    assert (Hno : sql_ok E insert_tick = false
                  \/ In (uuid4 E (tick w)) (map s_sid (sessions w)))
      by (destruct Hrefused as [H|H]; [congruence|exact H]).
    unfold bind at 1. unfold next_tick at 1. cbn [tick with_tick].
    unfold bind at 1.
    rewrite db_create_session_refused;
      cbn [tick with_tick sessions];
      replace (S (S n)) with insert_tick by lia; [|exact Hno].
    destruct (sql_ok E insert_tick || sql_connected E insert_tick);
      eexists; (split; [reflexivity|repeat split]). }
  unfold create_session. unfold bind at 1. unfold next_tick at 1.
  subst count_raises count_tick.
  replace (tick w + 1) with (S (tick w)) in * by lia.
  destruct title as [t|]; cbn [Py.falsy] in *;
    [destruct (String.eqb t EmptyString) eqn:Ht|]; cbn [andb orb] in *.
  - unfold bind at 1. unfold bind at 1.
    destruct (sql_ok E (S (tick w))) eqn:Hok; cbn [negb andb orb] in *.
    + rewrite count_sessions_reads by exact Hok. unfold ret at 1.
      cbn [tick with_tick].
      apply (Hinsert _ (S (tick w))); [reflexivity|subst insert_tick; lia].
    + rewrite count_sessions_fails by exact Hok. cbn [tick with_tick].
      destruct (sql_connected E (S (tick w))); cbn [negb orb] in *.
      * unfold ret at 1.
        apply (Hinsert _ (S (tick w))); [reflexivity|subst insert_tick; lia].
      * eexists. split; [reflexivity|repeat split].
  - unfold bind at 1. unfold ret at 1.
    apply (Hinsert _ (tick w)); [reflexivity|subst insert_tick; lia].
  - unfold bind at 1. unfold bind at 1.
    destruct (sql_ok E (S (tick w))) eqn:Hok; cbn [negb andb orb] in *.
    + rewrite count_sessions_reads by exact Hok. unfold ret at 1.
      cbn [tick with_tick].
      apply (Hinsert _ (S (tick w))); [reflexivity|subst insert_tick; lia].
    + rewrite count_sessions_fails by exact Hok. cbn [tick with_tick].
      destruct (sql_connected E (S (tick w))); cbn [negb orb] in *.
      * unfold ret at 1.
        apply (Hinsert _ (S (tick w))); [reflexivity|subst insert_tick; lia].
      * eexists. split; [reflexivity|repeat split].
Qed.

Lemma create_session_refused_witness :
  sql_ok failing_env (0 + 3) = false
  /\ fst (create_session failing_env "13800000000" None empty_world) = Ok EmptyString
  /\ fst (create_session unreachable_env "13800000000" None empty_world)
     = Raise unbound_conn.
Proof.
  split; [reflexivity|].
  destruct (create_session_refused failing_env "13800000000" None empty_world
              (or_intror (or_introl eq_refl))) as (w1 & Hrun1 & _).
  destruct (create_session_refused unreachable_env "13800000000" None empty_world
              (or_introl eq_refl)) as (w2 & Hrun2 & _).
  rewrite Hrun1, Hrun2. split; reflexivity.
Defined.

(** ** A user's sessions *)

Lemma db_get_sessions_reads E phone w :
  sql_ok E (tick w) = true ->
  db_get_sessions E phone w
  = (Ok (select_sessions phone (sessions w)), with_tick (S (tick w)) w).
Proof.
  intros Hok. unfold db_get_sessions. unfold_monad. cbn. now rewrite Hok.
Qed.

(** The session that heads a user's list is one of the user's sessions,
    and none of them was created later. *)
Lemma select_sessions_head_latest phone rows latest rest :
  select_sessions phone rows = latest :: rest ->
  In latest rows /\ s_phone latest = phone
  /\ forall s, In s rows -> s_phone s = phone -> s_created s <= s_created latest.
Proof.
  unfold select_sessions. intros Hsel.
  set (le := fun a b : SessionRow => (s_created b <=? s_created a)%nat) in *.
  set (mine := List.filter (fun r => String.eqb (s_phone r) phone) rows) in *.
  assert (Hperm : Permutation (latest :: rest) mine)
    by (rewrite <- Hsel; apply order_by_perm).
  assert (Hsorted : StronglySorted (fun a b => le a b = true) (latest :: rest)).
  { rewrite <- Hsel. apply order_by_sorted.
    - intros x y Hxy. unfold le in *. apply Nat.leb_gt in Hxy. apply Nat.leb_le. lia.
    - intros x y z Hxy Hyz. unfold le in *.
      apply Nat.leb_le in Hxy, Hyz. apply Nat.leb_le. lia. }
  assert (Hin : In latest mine)
    by (eapply Permutation.Permutation_in; [exact Hperm|now left]).
  apply filter_In in Hin as [Hin Hphone].
  split; [exact Hin|]. split; [now apply String.eqb_eq|].
  intros s Hs Hsp.
  assert (Hmine : In s mine)
    by (apply filter_In; split; [exact Hs|now apply String.eqb_eq]).
  apply (Permutation.Permutation_in _ (Permutation_sym Hperm)) in Hmine.
  destruct Hmine as [<-|Hrest]; [lia|].
  apply StronglySorted_inv in Hsorted as [_ Hall].
  rewrite List.Forall_forall in Hall. specialize (Hall s Hrest).
  unfold le in Hall. now apply Nat.leb_le.
Qed.

Lemma order_by_nil_inv {A} (le : A -> A -> bool) (rows : list A) :
  order_by le rows = [] -> rows = [].
Proof.
  intros H. apply (f_equal (@length A)) in H.
  rewrite length_order_by in H. now destruct rows.
Qed.

Lemma select_sessions_first phone rows row :
  select_sessions phone rows = [] ->
  s_phone row = phone ->
  select_sessions phone (rows ++ [row]) = [row].
Proof.
  unfold select_sessions. intros Hnone Hrow.
  apply order_by_nil_inv in Hnone.
  rewrite List.filter_app, Hnone. cbn.
  rewrite (proj2 (String.eqb_eq _ _) Hrow). reflexivity.
Qed.

Lemma select_sessions_some phone rows s :
  In s rows -> s_phone s = phone -> select_sessions phone rows <> [].
Proof.
  intros Hin Hphone Hnone. unfold select_sessions in Hnone.
  apply order_by_nil_inv in Hnone.
  assert (Hmine : In s (List.filter (fun r => String.eqb (s_phone r) phone) rows))
    by (apply filter_In; split; [exact Hin|now apply String.eqb_eq]).
  now rewrite Hnone in Hmine.
Qed.

(** For a user with a phone number, under a database that accepts every
    statement and with a fresh id at hand,
    [ChatManager.ensure_user_has_session] returns the id of one of the
    user's sessions, and none of the user's sessions was created later
    than that one: the user then has a session, and the id is that of the
    most recently created.  When the user had a session already, nothing
    is stored.  A second call returns the same id and stores nothing, so
    at most one session is ever created this way. *)
Theorem ensure_user_has_session_idempotent (E : Env) (phone : string)
    (w : World) :
  phone <> EmptyString ->
  (forall t, sql_ok E t = true) ->
  fresh_session (uuid4 E (S (tick w))) w ->
  exists sid w1,
    ensure_user_has_session E phone w = (Ok sid, w1)
    /\ (exists latest,
          In latest (sessions w1) /\ s_phone latest = phone /\ s_sid latest = sid
          /\ forall s, In s (sessions w1) -> s_phone s = phone ->
                       s_created s <= s_created latest)
    /\ ((exists s, In s (sessions w) /\ s_phone s = phone) ->
        sessions w1 = sessions w /\ messages w1 = messages w)
    /\ ensure_user_has_session E phone w1 = (Ok sid, with_tick (S (tick w1)) w1).
Proof.
  intros Hphone Hsql Hfresh.
  apply String.eqb_neq in Hphone.
  assert (Hknown : forall w0 latest rest,
             select_sessions phone (sessions w0) = latest :: rest ->
             ensure_user_has_session E phone w0
             = (Ok (s_sid latest), with_tick (S (tick w0)) w0)).
  { intros w0 latest rest Hsel. unfold ensure_user_has_session.
    rewrite Hphone. unfold bind.
    rewrite (db_get_sessions_reads E phone w0 (Hsql _)), Hsel.
    reflexivity. }
  assert (Hhead : forall w0 latest rest,
             select_sessions phone (sessions w0) = latest :: rest ->
             exists latest0,
               In latest0 (sessions w0) /\ s_phone latest0 = phone
               /\ s_sid latest0 = s_sid latest
               /\ forall s, In s (sessions w0) -> s_phone s = phone ->
                            s_created s <= s_created latest0).
  { intros w0 latest rest Hsel. exists latest.
    destruct (select_sessions_head_latest _ _ _ _ Hsel) as (Hin & Hp & Hmax).
    repeat split; assumption. }
  destruct (select_sessions phone (sessions w)) as [|latest rest] eqn:Hsel.
  - destruct (create_session_row E phone (Some "欢迎使用")
                (with_tick (S (tick w)) w) Hsql Hfresh)
      as (w1 & created & ts & Hrun & Hs & Hm).
    cbn [tick sessions messages with_tick] in Hrun, Hs, Hm.
    exists (uuid4 E (S (tick w))), w1.
    assert (Hsel1 : select_sessions phone (sessions w1)
                    = [mkSession (uuid4 E (S (tick w))) phone "欢迎使用" created]).
    { rewrite Hs. now apply select_sessions_first. }
    split.
    { unfold ensure_user_has_session. rewrite Hphone. unfold bind.
      rewrite (db_get_sessions_reads E phone w (Hsql _)), Hsel. exact Hrun. }
    split; [exact (Hhead w1 _ _ Hsel1)|].
    split.
    { intros (s & Hin & Hp). exfalso.
      exact (select_sessions_some phone (sessions w) s Hin Hp Hsel). }
    apply (Hknown w1 _ _ Hsel1).
  - exists (s_sid latest), (with_tick (S (tick w)) w).
    split; [apply (Hknown w _ _ Hsel)|].
    split; [exact (Hhead (with_tick (S (tick w)) w) _ _ Hsel)|].
    split; [now split|].
    apply (Hknown (with_tick (S (tick w)) w) _ _ Hsel).
Qed.

Lemma ensure_user_has_session_idempotent_witness :
  "13800000000" <> EmptyString
  /\ (forall t, sql_ok calm_env t = true)
  /\ fresh_session (uuid4 calm_env 1) empty_world
  /\ exists sid w1 w2,
       ensure_user_has_session calm_env "13800000000" empty_world = (Ok sid, w1)
       /\ ensure_user_has_session calm_env "13800000000" w1 = (Ok sid, w2)
       /\ length (sessions w2) = 1.
Proof.
  assert (Hfresh : fresh_session (uuid4 calm_env 1) empty_world)
    by (split; intros x []).
  split; [discriminate|]. split; [reflexivity|]. split; [exact Hfresh|].
  destruct (ensure_user_has_session_idempotent calm_env "13800000000" empty_world
              ltac:(discriminate) (fun _ => eq_refl) Hfresh)
    as (sid & w1 & Hrun & _ & _ & Hagain).
  exists sid, w1, (with_tick (S (tick w1)) w1).
  split; [exact Hrun|]. split; [exact Hagain|].
  apply (f_equal snd) in Hrun. cbn [snd] in Hrun. rewrite <- Hrun.
  vm_compute. reflexivity.
Defined.

(** ** Accounts *)

Lemma returns_create_session E phone title w :
  (forall t, sql_ok E t = true) -> returns (create_session E phone title) w.
Proof.
  intros Hsql. unfold create_session.
  apply returns_bind; [eexists _, _; reflexivity|]. intros id_tick w1.
  apply returns_bind.
  { destruct title as [t|]; [destruct (String.eqb t EmptyString)|];
      try apply returns_ret;
      (apply returns_bind; [apply returns_count_sessions, Hsql|intros; apply returns_ret]). }
  intros title' w2.
  apply returns_bind; [eexists _, _; reflexivity|]. intros created_tick w3.
  apply returns_bind.
  { unfold returns, db_create_session. unfold_monad. cbn. rewrite Hsql.
    destruct (existsb _ _); eexists _, _; reflexivity. }
  intros [|] w4; [|apply returns_ret].
  apply returns_bind; [apply returns_add_message|intros; apply returns_ret].
Qed.

Lemma returns_ensure_user_has_session E phone w :
  (forall t, sql_ok E t = true) -> returns (ensure_user_has_session E phone) w.
Proof.
  intros Hsql. unfold ensure_user_has_session.
  destruct (String.eqb phone EmptyString); [apply returns_ret|].
  apply returns_bind.
  - unfold returns. rewrite (db_get_sessions_reads E phone w (Hsql _)).
    eexists _, _; reflexivity.
  - intros [|latest rest] w1; [now apply returns_create_session|apply returns_ret].
Qed.

Lemma run_any {A} (m : M A) w (Q : result A -> World -> Prop) :
  (forall r w', Q r w') -> run m w Q.
Proof. intros HQ. apply HQ. Qed.

Lemma run_db_get_user E phone users w (Q : result (option UserRow) -> World -> Prop) :
  (Q (Ok (if sql_ok E (tick w)
          then List.find (fun u => String.eqb (u_phone u) phone) users
          else None))
     (with_tick (S (tick w)) w)) ->
  (unreachable_at E (tick w) -> Q (Raise unbound_conn) (with_tick (S (tick w)) w)) ->
  run (db_get_user E phone users) w Q.
Proof.
  intros Hyes Hraise. unfold run, db_get_user, sql_failed. unfold_monad. cbn.
  destruct (sql_ok E (tick w)) eqn:Hok; [exact Hyes|].
  destruct (sql_connected E (tick w)) eqn:Hcon; [exact Hyes|].
  apply Hraise. now split.
Qed.

Lemma run_db_add_user E A phone pwd name users w
    (Q : result (bool * string * list UserRow) -> World -> Prop) :
  (forall n msg, Q (Ok (false, msg, users)) (with_tick n w)) ->
  ((forall u, In u users -> u_phone u <> phone) ->
   forall n,
     Q (Ok (true, "用户添加成功",
            (users ++ [mkUser phone pwd
                         (if String.eqb name EmptyString then phone else name) 0])%list))
       (with_tick n w)) ->
  (unreachable_at E (tick w) -> Q (Raise unbound_conn) (with_tick (S (tick w)) w)) ->
  run (db_add_user E A phone pwd name users) w Q.
Proof.
  intros Hno Hyes Hraise. unfold run, db_add_user, sql_failed. unfold_monad. cbn.
  destruct (sql_ok E (tick w)) eqn:Hok; cbn.
  2:{ destruct (sql_connected E (tick w)) eqn:Hcon; [apply Hno|].
      apply Hraise. now split. }
  destruct (existsb (fun u => String.eqb (u_phone u) phone) users) eqn:Hex; cbn;
    [apply Hno|].
  destruct (sql_ok E (S (tick w))); cbn; [|apply Hno].
  apply Hyes. intros u Hu Heq.
  assert (Htrue : existsb (fun u => String.eqb (u_phone u) phone) users = true).
  { apply existsb_exists. exists u. split; [exact Hu|now apply String.eqb_eq]. }
  congruence.
Qed.

Lemma register_result E A phone pwd name users w :
  exists r w',
    register E A phone pwd name users w = (r, w')
    /\ match r with
       | Ok (ok, msg, users') =>
           (ok = true ->
            isdigit A phone = true /\ Py.len phone = 11 /\ 6 <= Py.len pwd
            /\ (forall u, In u users -> u_phone u <> phone)
            /\ users'
               = (users ++ [mkUser phone pwd
                              (if String.eqb name EmptyString then phone else name)
                              0])%list
            /\ msg = register_success)
           /\ (ok = false -> users' = users /\ untouched w w')
       | Raise e =>
           e = unbound_conn /\ untouched w w'
           /\ exists t, (t = tick w \/ t = S (tick w)) /\ unreachable_at E t
       end.
Proof.
  set (Post := fun (r : result (bool * string * list UserRow)) (w' : World) =>
                 match r with
                 | Ok (ok, msg, users') =>
                     (ok = true ->
                      isdigit A phone = true /\ Py.len phone = 11 /\ 6 <= Py.len pwd
                      /\ (forall u, In u users -> u_phone u <> phone)
                      /\ users'
                         = (users
                            ++ [mkUser phone pwd
                                  (if String.eqb name EmptyString then phone else name)
                                  0])%list
                      /\ msg = register_success)
                     /\ (ok = false -> users' = users /\ untouched w w')
                 | Raise e =>
                     e = unbound_conn /\ untouched w w'
                     /\ exists t, (t = tick w \/ t = S (tick w)) /\ unreachable_at E t
                 end).
  assert (Hrun : run (register E A phone pwd name users) w Post).
  { assert (Hfail : forall msg n, Post (Ok (false, msg, users)) (with_tick n w)).
    { intros msg n. split; [discriminate|]. intros _. repeat split. }
    assert (Hhere : forall msg, Post (Ok (false, msg, users)) w).
    { intros msg. split; [discriminate|]. intros _. repeat split. }
    unfold register.
    destruct (isdigit A phone) eqn:Hdigit; cbn [andb negb]; [|apply run_ret, Hhere].
    destruct (Py.len phone =? 11)%nat eqn:Hlen; cbn [negb]; [|apply run_ret, Hhere].
    apply Nat.eqb_eq in Hlen.
    destruct (Py.len pwd <? 6)%nat eqn:Hpwd; [apply run_ret, Hhere|].
    apply Nat.ltb_ge in Hpwd.
    apply run_bind, run_db_get_user.
    2:{ intros Hdown. split; [reflexivity|]. split; [repeat split|].
        exists (tick w). split; [now left|exact Hdown]. }
    destruct (if sql_ok E (tick w)
              then List.find (fun u => String.eqb (u_phone u) phone) users
              else None) as [found|].
    { apply run_ret. exact (Hfail _ (S (tick w))). }
    apply run_bind, run_db_add_user.
    - intros n msg. cbv beta iota. apply run_ret. exact (Hfail _ n).
    - intros Hnew n. cbv beta iota.
      assert (Hname : (if String.eqb (if String.eqb name EmptyString then phone else name)
                                     EmptyString
                       then phone
                       else if String.eqb name EmptyString then phone else name)
                      = (if String.eqb name EmptyString then phone else name)).
      { destruct (String.eqb name EmptyString) eqn:Hn; [|now rewrite Hn].
        destruct (String.eqb phone EmptyString); reflexivity. }
      rewrite Hname.
      assert (Hdone : forall w1,
                 Post (Ok (true, register_success,
                           (users ++ [mkUser phone pwd
                                        (if String.eqb name EmptyString
                                         then phone else name) 0])%list)) w1).
      { intros w1. split; [|discriminate]. intros _. repeat split; auto. }
      apply run_try_except.
      unfold create_first_session_for_new_user.
      destruct (String.eqb phone EmptyString).
      + apply run_bind, run_ret, run_ret, Hdone.
      + apply run_bind, run_any. intros [sid|e] w1; apply run_ret, Hdone.
    - intros Hdown. split; [reflexivity|]. split; [repeat split|].
      exists (S (tick w)). split; [now right|exact Hdown]. }
  apply run_elim in Hrun.
  destruct Hrun as (r & w' & Hrun & H).
  now exists r, w'.
Qed.



Lemma find_snoc_new {A} (p : A -> bool) (l : list A) (x : A) :
  (forall y, In y l -> p y = false) -> p x = true ->
  List.find p (l ++ [x]) = Some x.
Proof.
  intros Hl Hx. induction l as [|y l IH]; cbn.
  - now rewrite Hx.
  - rewrite (Hl y) by now left. apply IH. intros z Hz. apply Hl. now right.
Qed.

(** Registration and login agree.  Under a database that accepts every
    statement, once [UserManager.register] has reported success for a
    phone number and a password, [UserManager.login] with that phone
    number and that password reports success, and with any other
    password it reports the wrong-password failure and stores
    nothing. *)
Theorem login_after_register (E : Env) (A : AccountEnv)
    (phone pwd name msg : string) (users users' : list UserRow) (w w1 : World) :
  (forall t, sql_ok E t = true) ->
  register E A phone pwd name users w = (Ok (true, msg, users'), w1) ->
  (exists msg' w2, login E phone pwd users' w1 = (Ok (true, msg'), w2))
  /\ forall other,
       other <> pwd ->
       login E phone other users' w1
       = (Ok (false, "⚠️ 密码错误"), with_tick (S (tick w1)) w1).
Proof.
  intros Hsql Hreg.
  destruct (register_result E A phone pwd name users w)
    as (r & w0 & Hrun & Hpost).
  rewrite Hreg in Hrun. injection Hrun as <- <-.
  destruct Hpost as [Hyes _].
  destruct (Hyes eq_refl) as (_ & _ & _ & Hnew & -> & _).
  set (row := mkUser phone pwd (if String.eqb name EmptyString then phone else name) 0).
  assert (Hfind : List.find (fun u => String.eqb (u_phone u) phone) (users ++ [row])
                  = Some row).
  { apply find_snoc_new.
    - intros u Hu. apply String.eqb_neq. now apply Hnew.
    - apply String.eqb_refl. }
  split.
  - unfold login, db_get_user. unfold bind at 1. unfold bind at 1.
    unfold next_tick at 1. rewrite Hsql. unfold ret at 1. rewrite Hfind.
    cbn [u_pwd row]. rewrite String.eqb_refl. cbn [negb].
    destruct (returns_ensure_user_has_session E phone (with_tick (S (tick w1)) w1)
                Hsql)
      as (sid & w2 & Hens).
    unfold bind. rewrite Hens. eexists _, _. reflexivity.
  - intros other Hother.
    unfold login, db_get_user. unfold bind at 1. unfold bind at 1.
    unfold next_tick at 1. rewrite Hsql. unfold ret at 1. rewrite Hfind.
    cbn [u_pwd row].
    assert (Hneq : String.eqb pwd other = false)
      by (apply String.eqb_neq; congruence).
    rewrite Hneq. reflexivity.
Qed.

Lemma login_after_register_witness :
  (forall t, sql_ok calm_env t = true)
  /\ exists users' w1,
       fst (register calm_env plain_accounts "13800000000" "secret1" "Li" [] empty_world)
       = Ok (true, register_success, users')
       /\ (exists msg' w2,
             login calm_env "13800000000" "secret1" users' w1 = (Ok (true, msg'), w2))
       /\ fst (login calm_env "13800000000" "secret2" users' w1)
          = Ok (false, "⚠️ 密码错误").
Proof.
  split; [reflexivity|].
  destruct (register calm_env plain_accounts "13800000000" "secret1" "Li" []
              empty_world) as [r w1] eqn:Hreg.
  assert (Hr : r = Ok (true, register_success,
                       [mkUser "13800000000" "secret1" "Li" 0]))
    by (apply (f_equal fst) in Hreg; cbn [fst] in Hreg; rewrite <- Hreg;
        vm_compute; reflexivity).
  subst r.
  destruct (login_after_register calm_env plain_accounts "13800000000" "secret1"
              "Li" register_success [] _ empty_world w1 (fun _ => eq_refl) Hreg)
    as [Hgood Hbad].
  eexists _, w1. split; [reflexivity|]. split; [exact Hgood|].
  rewrite Hbad by discriminate. reflexivity.
Defined.


(** ** Switching sessions *)


(** When the Radio hands over no selection, an empty list or a group
    header, and the user has a session,
    [SessionManager.safe_switch_session] falls back to one of the user's
    sessions than which none was created later, the most recently
    created: when the database carries out the two reads, it returns that
    session's id and its timestamp-ordered log, and stores nothing. *)
Theorem safe_switch_session_falls_back (E : Env) (new_sid : radio_value)
    (phone : string) (s0 : SessionRow) (w : World) :
  new_sid = RadioNone \/ new_sid = RadioEmptyList
  \/ new_sid = RadioText "__GROUP__" ->
  phone <> EmptyString ->
  sql_ok E (tick w) = true ->
  sql_ok E (S (tick w)) = true ->
  In s0 (sessions w) ->
  s_phone s0 = phone ->
  exists latest,
    In latest (sessions w) /\ s_phone latest = phone
    /\ (forall s, In s (sessions w) -> s_phone s = phone ->
                  s_created s <= s_created latest)
    /\ safe_switch_session E new_sid phone w
       = (Ok (map (fun m => (m_role m, m_content m))
                  (select_messages (s_sid latest) None (messages w)),
              s_sid latest),
          with_tick (S (S (tick w))) w).
Proof.
  intros Hsel Hphone Hsql1 Hsql2 Hs0 Hp0.
  destruct (select_sessions phone (sessions w)) as [|latest rest] eqn:Hlatest;
    [exfalso; exact (select_sessions_some phone (sessions w) s0 Hs0 Hp0 Hlatest)|].
  destruct (select_sessions_head_latest _ _ _ _ Hlatest) as (Hin & Hp & Hmax).
  exists latest. split; [exact Hin|]. split; [exact Hp|]. split; [exact Hmax|].
  apply String.eqb_neq in Hphone.
  assert (Hfallback :
            (let* sessions := get_sessions E phone in
             let* safe_sid :=
               match sessions with
               | latest :: _ => ret (s_sid latest)
               | [] => ensure_user_has_session E phone
               end in
             let* messages := get_messages E safe_sid None in
             ret (map (fun m => (m_role m, m_content m)) messages, safe_sid)) w
            = (Ok (map (fun m => (m_role m, m_content m))
                       (select_messages (s_sid latest) None (messages w)),
                   s_sid latest),
               with_tick (S (S (tick w))) w)).
  { unfold get_sessions, try_except. rewrite Hphone.
    unfold bind at 1. rewrite (db_get_sessions_reads E phone w Hsql1), Hlatest.
    unfold bind at 1. unfold ret at 1.
    unfold bind. rewrite get_messages_reads. cbn [tick with_tick].
    rewrite Hsql2. reflexivity. }
  unfold safe_switch_session.
  destruct Hsel as [-> | [-> | ->]]; exact Hfallback.
Qed.

(** A user with two sessions: the fallback is the second, created later. *)
Lemma safe_switch_session_falls_back_witness :
  exists first latest,
    sessions two_sessions_world = [first; latest]
    /\ s_created first < s_created latest
    /\ fst (safe_switch_session calm_env (RadioText "__GROUP__") "13800000000"
                                two_sessions_world)
       = Ok ([("assistant", Config.new_session_created)], s_sid latest).
Proof.
  assert (Hss : exists first latest,
             sessions two_sessions_world = [first; latest]
             /\ s_phone first = "13800000000" /\ s_phone latest = "13800000000"
             /\ s_created first < s_created latest
             /\ map (fun m => (m_role m, m_content m))
                    (select_messages (s_sid latest) None (messages two_sessions_world))
                = [("assistant", Config.new_session_created)])
    by (eexists _, _; split; [vm_compute; reflexivity|];
        split; [reflexivity|]; split; [reflexivity|];
        split; [vm_compute; lia|vm_compute; reflexivity]).
  destruct Hss as (first & latest & Hss & Hp1 & Hp2 & Hlt & Hlog).
  exists first, latest. split; [exact Hss|]. split; [exact Hlt|].
  destruct (safe_switch_session_falls_back calm_env (RadioText "__GROUP__")
              "13800000000" first two_sessions_world
              (or_intror (or_intror eq_refl)) ltac:(discriminate)
              eq_refl eq_refl)
    as (chosen & Hin & _ & Hmax & Hrun).
  - rewrite Hss. now left.
  - exact Hp1.
  - rewrite Hrun. cbn [fst].
    assert (Hchosen : chosen = latest).
    { rewrite Hss in Hin. destruct Hin as [<-|[<-|[]]]; [|reflexivity].
      exfalso. specialize (Hmax latest). rewrite Hss in Hmax.
      specialize (Hmax (or_intror (or_introl eq_refl)) Hp2). lia. }
    rewrite Hchosen, Hlog. reflexivity.
Defined.

(** [MessageHandler._update_next_question_buttons] always returns exactly
    three updates, one per button: the first three questions, in order,
    each shown with its text, followed by as many hidden buttons as it
    takes to make three.  Questions beyond the third are dropped. *)
Theorem next_question_buttons_are_three (questions : list string) :
  length (_update_next_question_buttons questions) = 3
  /\ _update_next_question_buttons questions
     = (map ShowValue (firstn 3 questions)
        ++ repeat Hide (3 - length (firstn 3 questions)))%list.
Proof.
  destruct questions as [|a [|b [|c rest]]]; split; reflexivity.
Qed.
